(** * ago_requests: recipes for publishing tabular location data to ArcGIS Online

    A shallow embedding of [ago_requests.py] and the properties of its
    table preparation ([df_to_gdf], [prepare_df_for_ago]) and of its REST
    helpers ([get_ago_token], [get_ago_folderID], [create_feature_service],
    [add_layer_to_service], [add_features]).

    Conventions.
    - Python text is [string]; a string is read as its UTF-8 bytes, so the
      six ASCII characters handled by [clean_name] are single bytes and
      never occur inside a multi-byte character.
    - A Python float is an IEEE-754 binary64 value, [spec_float].
    - A pandas frame is column oriented: an index of row labels and a list
      of labelled, typed columns.  Labels may repeat, as in pandas.
    - Exceptions are values of [exn]; a computation returns [Ok] or [Raise].
    - What is fixed outside this repository and is not a matter of a few
      lines (CPython's [float] on text, [Timestamp.isoformat], the EPSG
      codes pyproj's registry holds) is a field of the class [PyLib].
    - pandas is read as pandas 2: [astype(str)] on a datetime64 column
      gives an object column, in which [NaT] reads NaT. *)

From Stdlib Require Import ZArith String Ascii List Lia Floats.SpecFloat.
From stdpp Require Import base option list gmap strings.

Set Warnings "-register-all".
Local Open Scope Z_scope.
Local Open Scope string_scope.
Local Open Scope list_scope.

(** ** Python text *)

(** [s.replace(old, new)] for a non-empty [old]: scan from the left, and
    where [old] begins emit [new] and skip the rest of the occurrence
    ([skip] counts the characters of it still to pass). *)
Fixpoint replace_from (old new : string) (skip : nat) (s : string) : string :=
  match s with
  | EmptyString => EmptyString
  | String c rest =>
      match skip with
      | S k => replace_from old new k rest
      | O =>
          if String.prefix old s
          then String.append new (replace_from old new (String.length old - 1) rest)
          else String c (replace_from old new 0 rest)
      end
  end.

(** [s.replace(old, new)] for an empty [old]: [new] before every character
    and at the end. *)
Fixpoint intersperse (new s : string) : string :=
  match s with
  | EmptyString => new
  | String c rest => String.append new (String c (intersperse new rest))
  end.

(** [str.replace]. *)
Definition str_replace (old new s : string) : string :=
  match old with
  | EmptyString => intersperse new s
  | String _ _ => replace_from old new 0 s
  end.


(** [sub in s] for two strings. *)
Fixpoint str_contains (sub s : string) : bool :=
  String.prefix sub s ||
  match s with
  | EmptyString => false
  | String _ rest => str_contains sub rest
  end.

(** The characters removed from column names, in the order of the loop in
    [clean_name]. *)
Definition special_chars : list string := ["("; ")"; "#"; "-"; " "; "'"].

(** [clean_name]: [for char in [...]: name = name.replace(char, '')]. *)
Definition clean_name (name : string) : string :=
  fold_left (fun name char => str_replace char EmptyString name) special_chars name.

(** The same six characters as a test on one character. *)
Definition is_special (c : ascii) : bool :=
  existsb (fun s => String.eqb s (String c EmptyString)) special_chars.

(** ** Python objects, exceptions and results *)

(** A decoded JSON document, as [response.json()] returns it: [JObj] is a
    Python dict. *)
Inductive json : Type :=
| JNull
| JBool (b : bool)
| JInt (n : Z)
| JFloat (f : spec_float)
| JStr (s : string)
| JArr (items : list json)
| JObj (members : gmap string json).

(** Objects that end up inside an exception or a log message, the pieces
    of an f-string, and the exceptions the recipes meet. *)
Inductive pyval : Type :=
| PStr (s : string)
| PInt (n : Z)
| PJson (j : json)
| PStrList (l : list string)
| PExn (e : exn)
with exn : Type :=
| KeyError (arg : pyval)
| TypeError
| ValueError
| AttributeError
| CRSError                   (* pyproj.exceptions.CRSError *)
| ConnectionError            (* requests.exceptions.RequestException, transport *)
| HTTPError (status : Z)     (* raised by raise_for_status *)
| JSONDecodeError            (* raised by response.json() *)
| Exception_ (msg : list fragment)
with fragment : Type :=
| Lit (text : string)
| Val (v : pyval).

(** f"..." is the list of its literal and interpolated pieces. *)
Definition fstring := list fragment.

(** [isinstance(e, requests.exceptions.RequestException)].  The decoding
    error of [response.json()] is one of them (requests 2.27 and later). *)
Definition is_RequestException (e : exn) : bool :=
  match e with
  | ConnectionError | HTTPError _ | JSONDecodeError => true
  | _ => false
  end.

Inductive result (A : Type) : Type :=
| Ok (a : A)
| Raise (e : exn).
Arguments Ok {A} a.
Arguments Raise {A} e.

#[export] Instance result_ret : MRet result := fun A a => Ok a.
#[export] Instance result_bind : MBind result := fun A B f m =>
  match m with
  | Ok a => f a
  | Raise e => Raise e
  end.

(** [[f(x) for x in xs]]: the first exception ends the comprehension. *)
Fixpoint comprehension {A B : Type} (f : A -> result B) (xs : list A) : result (list B) :=
  match xs with
  | [] => Ok []
  | x :: rest => y ← f x; ys ← comprehension f rest; Ok (y :: ys)
  end.

(** ** Cell values, columns and frames *)

(** A timezone-naive [pandas.Timestamp]. *)
Record Timestamp : Type := {
  year : Z; month : Z; day : Z;
  hour : Z; minute : Z; second : Z;
  microsecond : Z; nanosecond : Z
}.

(** The scalars a cell holds: [None], [NaT], a float (NaN included), text,
    a timestamp, or a shapely point. *)
Inductive value : Type :=
| VNone
| VNaT
| VFloat (f : spec_float)
| VStr (s : string)
| VTime (t : Timestamp)
| VPoint (x y : spec_float).

#[export] Instance value_inhabited : Inhabited value := populate VNone.

Inductive dtype : Type := Float64 | Datetime64 | Object | Geometry.

Record Series : Type := { s_dtype : dtype; s_values : list value }.

Record DataFrame : Type := {
  df_index : list Z;                   (* row labels *)
  df_cols : list (string * Series)     (* labelled columns, left to right *)
}.

Record GeoDataFrame : Type := {
  gdf_frame : DataFrame;
  gdf_crs : option Z
}.

(** [df.columns], [len(df)]. *)
Definition columns (df : DataFrame) : list string := map fst (df_cols df).
Definition nrows (df : DataFrame) : nat := length (df_index df).

(** Every column has one value per row. *)
Definition well_formed (df : DataFrame) : Prop :=
  Forall (fun c => length (s_values (snd c)) = nrows df) (df_cols df).

(** [pd.isna] on a scalar. *)
Definition isna (v : value) : bool :=
  match v with
  | VNone | VNaT => true
  | VFloat S754_nan => true
  | _ => false
  end.

(** [isinstance(v, datetime)]: [Timestamp] and [NaT] both derive from
    [datetime]. *)
Definition is_datetime (v : value) : bool :=
  match v with
  | VTime _ | VNaT => true
  | _ => false
  end.

(** What [df[label]] selects: a column when the label occurs once, a
    sub-frame when it repeats. *)
Inductive selection : Type :=
| Column (s : Series)
| Frame (sub : list (string * Series)).

Definition has_label (label : string) (c : string * Series) : bool :=
  String.eqb (fst c) label.

Definition getitem (df : DataFrame) (label : string) : result selection :=
  match List.filter (has_label label) (df_cols df) with
  | [] => Raise (KeyError (PStr label))
  | [c] => Ok (Column (snd c))
  | sub => Ok (Frame sub)
  end.

(** Iterating a column yields its values, iterating a frame its labels. *)
Definition py_iter (sel : selection) : list value :=
  match sel with
  | Column s => s_values s
  | Frame sub => map (fun c => VStr (fst c)) sub
  end.

(** [df[label] = s]: every column carrying the label is replaced; a new
    label is appended on the right. *)
Definition setitem (df : DataFrame) (label : string) (s : Series) : DataFrame :=
  {| df_index := df_index df;
     df_cols :=
       if existsb (has_label label) (df_cols df)
       then map (fun c => if has_label label c then (fst c, s) else c) (df_cols df)
       else df_cols df ++ [(label, s)] |}.

(** ** Library routines taken as given *)

Class PyLib : Type := {
  (** [float(s)] on text: [None] stands for [ValueError]. *)
  float_of_text : string -> option spec_float;
  (** [Timestamp.isoformat()]. *)
  isoformat : Timestamp -> string;
  (** Whether pyproj's registry holds the EPSG code. *)
  epsg_known : Z -> bool
}.

(** ** The text of a datetime64 column *)

(** [n] written with exactly [width] decimal digits. *)
Fixpoint digits (width : nat) (n : Z) : string :=
  match width with
  | O => EmptyString
  | S w => String.append (digits w (n / 10))
             (String (ascii_of_nat (48 + Z.to_nat (n mod 10))) EmptyString)
  end.

Definition date_text (t : Timestamp) : string :=
  String.append (digits 4 (year t))
    (String.append "-" (String.append (digits 2 (month t))
       (String.append "-" (digits 2 (day t))))).

Definition time_text (t : Timestamp) : string :=
  String.append (digits 2 (hour t))
    (String.append ":" (String.append (digits 2 (minute t))
       (String.append ":" (digits 2 (second t))))).

Definition timestamps_of (vs : list value) : list Timestamp :=
  omap (fun v => match v with VTime t => Some t | _ => None end) vs.

(** The timestamp has no time of day. *)
Definition at_midnight (t : Timestamp) : bool :=
  Z.eqb (hour t) 0 && Z.eqb (minute t) 0 && Z.eqb (second t) 0
  && Z.eqb (microsecond t) 0 && Z.eqb (nanosecond t) 0.

(** The text pandas gives the values of a datetime64 column under
    [astype(str)]: one format for the whole column, the date alone when
    every timestamp is at midnight, otherwise date and time with as many
    fraction digits as the finest value needs; a missing value reads NaT. *)
Definition datetime_astype_str (vs : list value) : list string :=
  let ts := timestamps_of vs in
  let dates_only := forallb at_midnight ts in
  let show_ns := existsb (fun t => negb (Z.eqb (nanosecond t) 0)) ts in
  let show_us := existsb (fun t => negb (Z.eqb (microsecond t mod 1000) 0)) ts in
  let show_ms := existsb (fun t => negb (Z.eqb (microsecond t) 0)) ts in
  let fraction t :=
    if show_ns then String.append "." (String.append (digits 6 (microsecond t))
                                                     (digits 3 (nanosecond t)))
    else if show_us then String.append "." (digits 6 (microsecond t))
    else if show_ms then String.append "." (digits 3 (microsecond t / 1000))
    else EmptyString in
  map (fun v =>
         match v with
         | VTime t =>
             if dates_only then date_text t
             else String.append (date_text t)
                    (String.append " " (String.append (time_text t) (fraction t)))
         | _ => "NaT"
         end) vs.

Section Tables.
Context `{PyLib}.

(** [float(v)]. *)
Definition py_float (v : value) : result spec_float :=
  match v with
  | VFloat f => Ok f
  | VStr s =>
      match float_of_text s with
      | Some f => Ok f
      | None => Raise ValueError
      end
  | VNone | VNaT | VTime _ | VPoint _ _ => Raise TypeError
  end.

(** [Point(xy)]: both coordinates are made floats; shapely 2 calls [float]
    on coordinates that are not numbers already. *)
Definition Point (xy : value * value) : result value :=
  x ← py_float (fst xy);
  y ← py_float (snd xy);
  Ok (VPoint x y).

(** [gpd.GeoDataFrame(df, geometry=geometry)]: the list becomes the column
    labelled geometry, in place of a column of the table that has the
    label already; it must have one entry per row, and the table may not
    have several columns under that label. *)
Definition GeoDataFrame_init (df : DataFrame) (geometry : list value)
  : result GeoDataFrame :=
  if Nat.ltb 1 (length (List.filter (has_label "geometry") (df_cols df)))
  then Raise ValueError
  else if Nat.eqb (length geometry) (nrows df)
  then Ok {| gdf_frame := setitem df "geometry" {| s_dtype := Geometry; s_values := geometry |};
             gdf_crs := None |}
  else Raise ValueError.

(** [gdf.set_crs(epsg=crs, inplace=True)] on a frame without a CRS yet:
    pyproj looks the code up and raises [CRSError] when it has none such. *)
Definition set_crs (gdf : GeoDataFrame) (crs : Z) : result GeoDataFrame :=
  if epsg_known crs
  then Ok {| gdf_frame := gdf_frame gdf; gdf_crs := Some crs |}
  else Raise CRSError.

(** [pd.api.types.is_datetime64_any_dtype]: a sub-frame has no dtype. *)
Definition is_datetime64_any_dtype (sel : selection) : bool :=
  match sel with
  | Column {| s_dtype := Datetime64 |} => true
  | _ => false
  end.

(** [s.astype(str)] on a datetime64 column (pandas 2: the result has
    dtype object). *)
Definition astype_str (s : Series) : Series :=
  {| s_dtype := Object; s_values := map VStr (datetime_astype_str (s_values s)) |}.

(** One turn of the conversion loop of [df_to_gdf]. *)
Definition stringify_datetime (frame : DataFrame) (column : string) : DataFrame :=
  match getitem frame column with
  | Ok (Column s) =>
      if is_datetime64_any_dtype (Column s)
      then setitem frame column (astype_str s)
      else frame
  | _ => frame
  end.

(** What the loop leaves in place of a column: its text when the column
    is datetime64, the column itself otherwise. *)
Definition as_text (s : Series) : Series :=
  if is_datetime64_any_dtype (Column s) then astype_str s else s.

(** The label is carried by one column only. *)
Definition sole_label (cols : list (string * Series)) (label : string) : bool :=
  Nat.eqb (length (List.filter (has_label label) cols)) 1.

(** What the whole loop leaves in place of a column of [cols]: a column
    that shares its label is selected as a sub-frame and passed over. *)
Definition converted (cols : list (string * Series)) (c : string * Series)
  : string * Series :=
  if sole_label cols (fst c) then (fst c, as_text (snd c)) else c.

Definition default_crs : Z := 4326.

(** [df_to_gdf(df, lat_col, lon_col, crs)]. *)
Definition df_to_gdf (df : DataFrame) (lat_col lon_col : string) (crs : Z)
  : result GeoDataFrame :=
  lon ← getitem df lon_col;
  lat ← getitem df lat_col;
  geometry ← comprehension Point (combine (py_iter lon) (py_iter lat));
  gdf ← GeoDataFrame_init df geometry;
  gdf ← set_crs gdf crs;
  Ok {| gdf_frame := fold_left stringify_datetime (columns (gdf_frame gdf)) (gdf_frame gdf);
        gdf_crs := gdf_crs gdf |}.

(** [gdf.geometry]: the values of the geometry column. *)
Definition geometry_of (gdf : GeoDataFrame) : list value :=
  match getitem (gdf_frame gdf) "geometry" with
  | Ok sel => py_iter sel
  | Raise _ => []
  end.

End Tables.

(** ** Rows, masks and [dropna] *)

(** A row as [iterrows] yields it: the values of the row, labelled by the
    columns. *)
Definition Row : Type := list (string * value).

Definition row_at (df : DataFrame) (i : nat) : Row :=
  map (fun c => (fst c, s_values (snd c) !!! i)) (df_cols df).

(** [df.iterrows()]: pairs of row label and row, top to bottom. *)
Definition iterrows (df : DataFrame) : list (Z * Row) :=
  imap (fun i label => (label, row_at df i)) (df_index df).

(** [mask.nonzero()]: the positions holding [True]. *)
Fixpoint nonzero_from (start : nat) (mask : list bool) : list nat :=
  match mask with
  | [] => []
  | b :: rest =>
      if b then start :: nonzero_from (S start) rest
      else nonzero_from (S start) rest
  end.
Definition nonzero (mask : list bool) : list nat := nonzero_from 0 mask.

(** [take]: the entries at the given positions, in that order. *)
Definition take_list {A : Type} (positions : list nat) (l : list A) : list A :=
  omap (fun i => l !! i) positions.

Definition take_rows (positions : list nat) (df : DataFrame) : DataFrame :=
  {| df_index := take_list positions (df_index df);
     df_cols :=
       map (fun c => (fst c, {| s_dtype := s_dtype (snd c);
                                s_values := take_list positions (s_values (snd c)) |}))
           (df_cols df) |}.

(** [notna(agg_obj).all(axis=1)]: per row, no selected cell is missing. *)
Definition notna_all (n : nat) (agg : list (string * Series)) : list bool :=
  map (fun i => forallb (fun c => negb (isna (s_values (snd c) !!! i))) agg) (seq 0 n).

(** [df.dropna(subset=subset)]: a label of [subset] that no column carries
    is a [KeyError]; otherwise the rows with a missing value under one of
    the selected columns are left out of the (new) frame. *)
Definition dropna_frame (subset : list string) (df : DataFrame) : result DataFrame :=
  let absent :=
    List.filter (fun label => negb (existsb (has_label label) (df_cols df))) subset in
  match absent with
  | _ :: _ => Raise (KeyError (PStrList absent))
  | [] =>
      let agg := flat_map (fun label => List.filter (has_label label) (df_cols df)) subset in
      let mask := notna_all (nrows df) agg in
      Ok (take_rows (nonzero mask) df)
  end.

(** [df.columns = names]. *)
Definition rename_columns (names : list string) (df : DataFrame) : result DataFrame :=
  if Nat.eqb (length names) (length (df_cols df))
  then Ok {| df_index := df_index df;
             df_cols := zip_with (fun name c => (name, snd c)) names (df_cols df) |}
  else Raise ValueError.

(** ** Frames as objects *)

(** Computations over a state that can raise; the state reached when the
    exception is raised is kept. *)
Definition M (S A : Type) : Type := S -> result A * S.

#[export] Instance M_ret {S : Type} : MRet (M S) := fun A a s => (Ok a, s).
#[export] Instance M_bind {S : Type} : MBind (M S) := fun A B f m s =>
  match m s with
  | (Ok a, s') => f a s'
  | (Raise e, s') => (Raise e, s')
  end.

Definition lift {S A : Type} (r : result A) : M S A := fun s => (r, s).

(** The frames alive in the interpreter, by object identity. *)
Abbreviation heap := (gmap nat DataFrame).

Definition alloc (df : DataFrame) : M heap nat := fun h =>
  let r := fresh (dom h) in (Ok r, <[r := df]> h).

Definition load (r : nat) : M heap DataFrame := fun h =>
  match h !! r with
  | Some df => (Ok df, h)
  | None => (Raise AttributeError, h)
  end.

Definition store (r : nat) (df : DataFrame) : M heap unit := fun h =>
  (Ok tt, <[r := df]> h).

(** [df.copy()]: a new object with the same content. *)
Definition df_copy (r : nat) : M heap nat :=
  df ← load r; alloc df.

(** [df.columns = names]: updates the object itself. *)
Definition set_columns (r : nat) (names : list string) : M heap unit :=
  df ← load r; df' ← lift (rename_columns names df); store r df'.

(** [df.dropna(subset=subset)]: the result is a new object. *)
Definition dropna (r : nat) (subset : list string) : M heap nat :=
  df ← load r; df' ← lift (dropna_frame subset df); alloc df'.

(** [prepare_df_for_ago(df)]. *)
Definition prepare_df_for_ago (df : nat) : M heap nat :=
  df_ago ← df_copy df;
  names ← (d ← load df_ago; mret (columns d));
  set_columns df_ago (map clean_name names);;
  df_ago ← dropna df_ago ["LatLongSource"];
  mret df_ago.

(** The frame with its labels cleaned: what [df_ago] holds once its
    [columns] have been assigned. *)
Definition with_clean_names (table : DataFrame) : DataFrame :=
  {| df_index := df_index table;
     df_cols := map (fun c => (clean_name (fst c), snd c)) (df_cols table) |}.

(** The value under a column labelled [LatLongSource] is missing. *)
Definition provenance_isna (row : Z * Row) : bool :=
  existsb (fun cell => String.eqb (fst cell) "LatLongSource" && isna (snd cell)) (snd row).

(** ** Decoded JSON as Python objects *)

(** [key in j]. *)
Definition py_in (key : string) (j : json) : result bool :=
  match j with
  | JObj m => Ok (bool_decide (is_Some (m !! key)))
  | JArr items =>
      Ok (existsb (fun x => match x with JStr s => String.eqb s key | _ => false end) items)
  | JStr s => Ok (str_contains key s)
  | JNull | JBool _ | JInt _ | JFloat _ => Raise TypeError
  end.

(** [j[key]] for a text key. *)
Definition subscript (j : json) (key : string) : result json :=
  match j with
  | JObj m =>
      match m !! key with
      | Some v => Ok v
      | None => Raise (KeyError (PStr key))
      end
  | _ => Raise TypeError
  end.

(** [j.get(key, fallback)]: only a dict has the method. *)
Definition dict_get (j : json) (key : string) (fallback : json) : result json :=
  match j with
  | JObj m => Ok (default fallback (m !! key))
  | _ => Raise AttributeError
  end.

(** [iter(j)]: the items of a list, the keys of a dict, the characters of
    a text. *)
Definition json_iter (j : json) : result (list json) :=
  match j with
  | JArr items => Ok items
  | JObj m => Ok (map (fun kv => JStr (fst kv)) (map_to_list m))
  | JStr s => Ok (map (fun c => JStr (String c EmptyString)) (list_ascii_of_string s))
  | JNull | JBool _ | JInt _ | JFloat _ => Raise TypeError
  end.

(** [bool(j)]. *)
Definition truthy (j : json) : bool :=
  match j with
  | JNull => false
  | JBool b => b
  | JInt n => negb (Z.eqb n 0)
  | JFloat (S754_zero _) => false
  | JFloat _ => true
  | JStr s => negb (String.eqb s EmptyString)
  | JArr items => match items with [] => false | _ => true end
  | JObj m => negb (bool_decide (m = ∅))
  end.

(** [j == s] for a text [s]. *)
Definition eq_text (j : json) (s : string) : bool :=
  match j with
  | JStr t => String.eqb t s
  | _ => false
  end.

(** ** Requests, responses and the log *)

(** A form field: plain text or the text [json.dumps] makes of a document. *)
Inductive field : Type :=
| Text (s : string)
| Dumps (doc : json).

Record request : Type := {
  url : string;
  data : list (string * field);
  verify : option bool
}.

Record Response : Type := {
  status_code : Z;
  body : option json        (* [None]: the body is not JSON *)
}.

(** What a POST comes to: a transport failure or a response. *)
Inductive outcome : Type :=
| Failed
| Answered (r : Response).

Inductive level : Type := INFO | ERROR.

(** [response.raise_for_status()]: 4xx and 5xx raise. *)
Definition raise_for_status (r : Response) : result unit :=
  if Z.leb 400 (status_code r) && Z.ltb (status_code r) 600
  then Raise (HTTPError (status_code r))
  else Ok tt.

(** [response.json()]. *)
Definition decode_json (r : Response) : result json :=
  match body r with
  | Some j => Ok j
  | None => Raise JSONDecodeError
  end.

Section Http.
(** The service on the other side: its state and how it answers a POST. *)
Variable B : Type.
Variable handle : request -> B -> outcome * B.

Record world : Type := {
  backend : B;
  sent : list request;                 (* POSTs issued, oldest first *)
  logged : list (level * fstring)      (* logging calls, oldest first *)
}.

Definition requests_post (req : request) : M world Response := fun w =>
  let '(out, b) := handle req (backend w) in
  let w' := {| backend := b; sent := sent w ++ [req]; logged := logged w |} in
  match out with
  | Failed => (Raise ConnectionError, w')
  | Answered r => (Ok r, w')
  end.

Definition logging (lv : level) (msg : fstring) : M world unit := fun w =>
  (Ok tt, {| backend := backend w; sent := sent w; logged := logged w ++ [(lv, msg)] |}).

(** [try: body except requests.exceptions.RequestException as e: handler]. *)
Definition try_except_RequestException {A : Type}
    (body : M world A) (handler : exn -> M world A) : M world A := fun w =>
  match body w with
  | (Raise e, w') => if is_RequestException e then handler e w' else (Raise e, w')
  | done => done
  end.

(** *** [get_ago_folderID] *)

Definition folders_url (username : string) : string :=
  String.append "https://www.arcgis.com/sharing/rest/content/users/" username.

Definition list_folders_request (token username : string) : request :=
  {| url := folders_url username;
     data := [("f", Text "json"); ("token", Text token)];
     verify := Some true |}.

Definition create_folder_request (token username folder_name : string) : request :=
  {| url := String.append (folders_url username) "/createFolder";
     data := [("f", Text "json"); ("title", Text folder_name); ("token", Text token)];
     verify := Some true |}.

(** The loop over the listed folders; [Some id] is the early return. *)
Fixpoint scan_folders (folders : list json) (folder_name : string) : M world (option json) :=
  match folders with
  | [] => mret None
  | folder :: rest =>
      title ← lift (subscript folder "title");
      if eq_text title folder_name
      then
        logging INFO [Lit "...folder '"; Val (PStr folder_name); Lit "' already exists."];;
        id ← lift (subscript folder "id");
        mret (Some id)
      else scan_folders rest folder_name
  end.

Definition get_ago_folderID (token username folder_name : string) : M world json :=
  try_except_RequestException
    (response ← requests_post (list_folders_request token username);
     lift (raise_for_status response);;
     listing ← lift (decode_json response);
     folders ← lift (dict_get listing "folders" (JArr []));
     items ← lift (json_iter folders);
     found ← scan_folders items folder_name;
     match found with
     | Some id => mret id
     | None =>
         create_response ← requests_post (create_folder_request token username folder_name);
         lift (raise_for_status create_response);;
         logging INFO [Lit "...folder '"; Val (PStr folder_name); Lit "' created successfully."];;
         created ← lift (decode_json create_response);
         folder ← lift (dict_get created "folder" JNull);
         lift (dict_get folder "id" JNull)
     end)
    (fun e =>
       logging ERROR [Lit "...failed to create or get folder: "; Val (PExn e)];;
       lift (Raise e)).

(** *** [create_feature_service] *)

Definition obj (members : list (string * json)) : json := JObj (list_to_map members).

Definition create_parameters (service_name : string) : json :=
  obj [("name", JStr service_name);
       ("serviceDescription", JStr EmptyString);
       ("hasStaticData", JBool false);
       ("maxRecordCount", JInt 1000);
       ("supportedQueryFormats", JStr "JSON");
       ("capabilities", JStr "Create,Delete,Query,Update,Editing");
       ("initialExtent",
        obj [("xmin", JInt (-180)); ("ymin", JInt (-90));
             ("xmax", JInt 180); ("ymax", JInt 90);
             ("spatialReference", obj [("wkid", JInt 4326)])]);
       ("allowGeometryUpdates", JBool true);
       ("units", JStr "esriDecimalDegrees");
       ("xssPreventionInfo",
        obj [("xssPreventionEnabled", JBool true);
             ("xssPreventionRule", JStr "InputOnly");
             ("xssInputRule", JStr "rejectInvalid")])].

Definition create_service_request (token username folder_id service_name : string) : request :=
  {| url := String.append "https://www.arcgis.com/sharing/rest/content/users/"
              (String.append username
                 (String.append "/" (String.append folder_id "/createService")));
     data := [("f", Text "json"); ("token", Text token);
              ("createParameters", Dumps (create_parameters service_name));
              ("tags", Text "feature service"); ("title", Text service_name)];
     verify := None |}.

(** [service_url.replace('/rest/', '/rest/admin/')]: text only. *)
Definition admin_url_of (service_url : json) : result string :=
  match service_url with
  | JStr u => Ok (str_replace "/rest/" "/rest/admin/" u)
  | _ => Raise AttributeError
  end.

Definition create_feature_service (token username folder_id service_name : string)
  : M world (json * string) :=
  response ← requests_post (create_service_request token username folder_id service_name);
  response_json ← lift (decode_json response);
  has_id ← lift (py_in "serviceItemId" response_json);
  has_url ← lift (if (has_id : bool) then py_in "encodedServiceURL" response_json else Ok false);
  if (has_url : bool)
  then
    service_id ← lift (subscript response_json "serviceItemId");
    service_url ← lift (subscript response_json "encodedServiceURL");
    admin_url ← lift (admin_url_of service_url);
    logging INFO [Lit "...feature service created successfully with ID: ";
                  Val (PJson service_id)];;
    mret (service_id, admin_url)
  else
    lift (Raise (Exception_ [Lit "Error creating feature service: ";
                             Val (PJson response_json)])).

End Http.

Arguments backend {B} w.
Arguments sent {B} w.
Arguments logged {B} w.

(** ** [add_features] *)

(** A feature as the loop builds it: the point and the attributes dict
    (keys in insertion order). *)
Record Feature : Type := {
  geometry_x : spec_float;
  geometry_y : spec_float;
  attributes : list (string * value)
}.

(** What [row[label]] selects: a scalar, or a sub-series when the label
    repeats. *)
Inductive row_selection : Type :=
| Scalar (v : value)
| SubSeries (vs : list value).

Definition row_getitem (row : Row) (label : string) : result row_selection :=
  match List.filter (fun cell => String.eqb (fst cell) label) row with
  | [] => Raise (KeyError (PStr label))
  | [cell] => Ok (Scalar (snd cell))
  | cells => Ok (SubSeries (map snd cells))
  end.

(** [d[key] = v] on a dict kept in insertion order. *)
Fixpoint dict_set (key : string) (v : value) (d : list (string * value))
  : list (string * value) :=
  match d with
  | [] => [(key, v)]
  | (k, old) :: rest =>
      if String.eqb k key then (k, v) :: rest else (k, old) :: dict_set key v rest
  end.

(** [json.dumps] on an attribute value: geometry objects, timestamps and
    [NaT] are not serialisable. *)
Definition dumps_value (v : value) : result json :=
  match v with
  | VNone => Ok JNull
  | VFloat f => Ok (JFloat f)
  | VStr s => Ok (JStr s)
  | VNaT | VTime _ | VPoint _ _ => Raise TypeError
  end.

Definition dumps_feature (f : Feature) : result json :=
  attrs ← comprehension (fun kv => j ← dumps_value (snd kv); Ok (fst kv, j)) (attributes f);
  Ok (obj [("geometry",
            obj [("x", JFloat (geometry_x f)); ("y", JFloat (geometry_y f));
                 ("spatialReference", obj [("wkid", JInt 4326)])]);
           ("attributes", obj attrs)]).

(** [json.dumps(features)]. *)
Definition dumps_features (features : list Feature) : result json :=
  docs ← comprehension dumps_feature features; Ok (JArr docs).

Section Upload.
Context `{PyLib}.
Variable B : Type.
Variable handle : request -> B -> outcome * B.

(** The value stored for one cell of the row. *)
Definition attribute_value (sel : row_selection) : result value :=
  match sel with
  | Scalar v =>
      if is_datetime v
      then Ok (VStr (match v with VTime t => isoformat t | _ => "NaT" end))
      else if isna v then Ok VNone
      else Ok v
  | SubSeries _ => Raise ValueError     (* truth value of a Series *)
  end.

(** The loop over [df.columns] filling [attributes]. *)
Fixpoint build_attributes (cols : list string) (row : Row)
    (attributes : list (string * value)) : result (list (string * value)) :=
  match cols with
  | [] => Ok attributes
  | col :: rest =>
      sel ← row_getitem row col;
      v ← attribute_value sel;
      build_attributes rest row (dict_set col v attributes)
  end.

(** [float(row[label])]. *)
Definition row_float (row : Row) (label : string) : result spec_float :=
  sel ← row_getitem row label;
  match sel with
  | Scalar v => py_float v
  | SubSeries _ => Raise TypeError
  end.

(** The body of the [try] for one row. *)
Definition build_feature (cols : list string) (latcol longcol : string) (row : Row)
  : result Feature :=
  attrs ← build_attributes cols row [];
  x ← row_float row longcol;
  y ← row_float row latcol;
  Ok {| geometry_x := x; geometry_y := y; attributes := attrs |}.

(** The record [logging.error(f"Error processing row {index}: {e}")] leaves. *)
Definition row_error_message (index : Z) (e : exn) : fstring :=
  [Lit "Error processing row "; Val (PInt index); Lit ": "; Val (PExn e)].

Definition row_error (index : Z) (e : exn) : level * fstring :=
  (ERROR, row_error_message index e).

(** The loop over [df.iterrows()]: a row that raises is logged and left
    out, the others are appended to [features]. *)
Fixpoint collect_features (cols : list string) (latcol longcol : string)
    (rows : list (Z * Row)) (features : list Feature) : M (world B) (list Feature) :=
  match rows with
  | [] => mret features
  | (index, row) :: rest =>
      match build_feature cols latcol longcol row with
      | Ok feature => collect_features cols latcol longcol rest (features ++ [feature])
      | Raise e =>
          logging B ERROR (row_error_message index e);;
          collect_features cols latcol longcol rest features
      end
  end.

Definition add_features_request (token service_url : string) (features : json) : request :=
  {| url := String.append service_url "/0/addFeatures";
     data := [("f", Text "json"); ("token", Text token); ("features", Dumps features)];
     verify := None |}.

Definition add_features (token service_url : string) (df : DataFrame)
    (latcol longcol : string) : M (world B) json :=
  features ← collect_features (columns df) latcol longcol (iterrows df) [];
  match features with
  | [] =>
      logging B ERROR [Lit "No valid features to add"];;
      mret (JArr [])
  | _ :: _ =>
      dumped ← lift (dumps_features features);
      try_except_RequestException B
        (response ← requests_post B handle (add_features_request token service_url dumped);
         lift (raise_for_status response);;
         response_json ← lift (decode_json response);
         has_results ← lift (py_in "addResults" response_json);
         if (has_results : bool)
         then
           results ← lift (subscript response_json "addResults");
           items ← lift (json_iter results);
           flags ← lift (comprehension
                           (fun result => dict_get result "success" (JBool false)) items);
           let successful_adds := length (List.filter truthy flags) in
           logging B INFO [Lit "..."; Val (PInt (Z.of_nat successful_adds));
                           Lit " out of "; Val (PInt (Z.of_nat (length features)));
                           Lit " features added successfully"];;
           lift (subscript response_json "addResults")
         else
           logging B ERROR [Lit "Error adding features: "; Val (PJson response_json)];;
           mret (JArr []))
        (fun e =>
           logging B ERROR [Lit "Request failed: "; Val (PExn e)];;
           mret (JArr []))
  end.

(** The rows of the loop with what the [try] body makes of each. *)
Definition row_outcomes (df : DataFrame) (latcol longcol : string)
  : list (Z * result Feature) :=
  map (fun r => (fst r, build_feature (columns df) latcol longcol (snd r))) (iterrows df).

End Upload.

(** The features of the rows that succeeded, and the labels and exceptions
    of the rows that failed, both in row order. *)
Definition successes (outcomes : list (Z * result Feature)) : list Feature :=
  omap (fun o => match snd o with Ok f => Some f | Raise _ => None end) outcomes.

Definition failures (outcomes : list (Z * result Feature)) : list (Z * exn) :=
  omap (fun o => match snd o with Ok _ => None | Raise e => Some (fst o, e) end) outcomes.

(** The rows whose attributes cannot be built, with the exception: the
    failures of the first part of the [try] body. *)
Definition attribute_failures `{PyLib} (df : DataFrame) : list (Z * exn) :=
  omap (fun r => match build_attributes (columns df) (snd r) [] with
                 | Ok _ => None
                 | Raise e => Some (fst r, e)
                 end) (iterrows df).

(** The [RequestException] that a POST and the reading of its answer come
    to, if any: no connection, a 4xx or 5xx status, or a body that is not
    JSON. *)
Definition transport_failure (out : outcome) : option exn :=
  match out with
  | Failed => Some ConnectionError
  | Answered r =>
      match raise_for_status r with
      | Raise e => Some e
      | Ok _ =>
          match decode_json r with
          | Raise e => Some e
          | Ok _ => None
          end
      end
  end.

Definition is_object (j : json) : bool :=
  match j with
  | JObj _ => true
  | _ => false
  end.

(** Some POST among [reqs] carries a batch of [n] features. *)
Definition submits_batch (reqs : list request) (n : nat) : Prop :=
  exists req docs,
    In req reqs /\ In ("features", Dumps (JArr docs)) (data req) /\ length docs = n.

(** The listing of an account with the given (title, id) folders. *)
Definition folder_json (f : string * json) : json :=
  obj [("title", JStr (fst f)); ("id", snd f)].

Definition listing_json (folders : list (string * json)) : json :=
  obj [("folders", JArr (map folder_json folders))].

(** The folder carries exactly the title. *)
Definition matches (folder_name : string) (f : string * json) : bool :=
  String.eqb (fst f) folder_name.

(** What [get_ago_folderID] relies on in the service: listing answers with
    the folders of the account and changes nothing; creation answers with
    the id of the new folder, which is listed last from then on. *)
Record folder_service {B : Type} (handle : request -> B -> outcome * B)
    (folders : B -> list (string * json)) : Prop := {
  lists_folders :
    forall token username b,
    exists r,
      handle (list_folders_request token username) b = (Answered r, b) /\
      raise_for_status r = Ok tt /\
      body r = Some (listing_json (folders b));
  creates_folder :
    forall token username title b,
    exists r b' created folder id,
      handle (create_folder_request token username title) b = (Answered r, b') /\
      raise_for_status r = Ok tt /\
      body r = Some created /\
      dict_get created "folder" JNull = Ok folder /\
      dict_get folder "id" JNull = Ok id /\
      folders b' = folders b ++ [(title, id)]
}.

(** ** A reference library and a mock folder service

    Used to run the recipes on concrete tables; the statements below hold
    for every [PyLib] and every service. *)

(** [Timestamp.isoformat()]: the fraction is printed only when present. *)
Definition ref_isoformat (t : Timestamp) : string :=
  let base := String.append (date_text t) (String.append "T" (time_text t)) in
  if negb (Z.eqb (nanosecond t) 0)
  then String.append base
         (String.append "." (String.append (digits 6 (microsecond t)) (digits 3 (nanosecond t))))
  else if negb (Z.eqb (microsecond t) 0)
  then String.append base (String.append "." (digits 6 (microsecond t)))
  else base.

(** A reference [float] on text, for ASCII input: surrounding white
    space, a sign, then inf, infinity or nan in any case, or digits with
    an optional fraction and exponent, single underscores allowed between
    digits.  The decimal value is rounded to the nearest float, ties to
    even, in one step.  Digits and blanks outside ASCII, which CPython
    also reads, are not covered. *)
Definition is_digit (c : ascii) : bool :=
  let d := nat_of_ascii c in Nat.leb 48 d && Nat.leb d 57.

Definition is_space (c : ascii) : bool :=
  let d := nat_of_ascii c in (Nat.leb 9 d && Nat.leb d 13) || Nat.eqb d 32.

Definition starts_with_digit (s : string) : bool :=
  match s with
  | String c _ => is_digit c
  | EmptyString => false
  end.

Fixpoint read_digits (s : string) (acc : Z) (count : nat) : Z * nat * string :=
  match s with
  | String c rest =>
      if is_digit c
      then read_digits rest (10 * acc + Z.of_nat (nat_of_ascii c - 48)) (S count)
      else if Ascii.eqb c "_" && negb (Nat.eqb count 0) && starts_with_digit rest
      then read_digits rest acc count
      else (acc, count, s)
  | EmptyString => (acc, count, s)
  end.

Fixpoint lstrip (s : string) : string :=
  match s with
  | String c rest => if is_space c then lstrip rest else s
  | EmptyString => EmptyString
  end.

Fixpoint rstrip (s : string) : string :=
  match s with
  | String c rest =>
      match rstrip rest with
      | EmptyString => if is_space c then EmptyString else String c EmptyString
      | kept => String c kept
      end
  | EmptyString => EmptyString
  end.

Fixpoint lowered (s : string) : string :=
  match s with
  | String c rest =>
      let d := nat_of_ascii c in
      String (if Nat.leb 65 d && Nat.leb d 90 then ascii_of_nat (d + 32) else c)
             (lowered rest)
  | EmptyString => EmptyString
  end.

Definition read_sign (s : string) : bool * string :=
  match s with
  | String "-" rest => (true, rest)
  | String "+" rest => (false, rest)
  | _ => (false, s)
  end.

(** The exponent part, if there is one, and what follows it. *)
Definition read_exponent (s : string) : option (Z * string) :=
  match s with
  | String c rest =>
      if Ascii.eqb c "e" || Ascii.eqb c "E"
      then
        let '(negative, rest) := read_sign rest in
        let '(e, n, rest) := read_digits rest 0 0 in
        if Nat.eqb n 0 then None else Some (if negative then - e else e, rest)
      else Some (0, s)
  | EmptyString => Some (0, s)
  end.

(** The float nearest to [m * 10^e10], for [m] written with [width]
    digits.  Beyond 10^309 it is infinite and below 10^-324 it is zero,
    which bounds the powers of ten that are computed. *)
Definition decimal_value (negative : bool) (m : Z) (width : nat) (e10 : Z) : spec_float :=
  if Z.eqb m 0 then S754_zero negative
  else if Z.leb 309 e10 then S754_infinity negative
  else if Z.leb (Z.of_nat width + e10) (-324) then S754_zero negative
  else
    let f :=
      if Z.leb 0 e10
      then binary_normalize 53 1024 (m * 10 ^ e10) 0 false
      else SFdiv 53 1024 (S754_finite false (Z.to_pos m) 0)
                         (S754_finite false (Z.to_pos (10 ^ (- e10))) 0) in
    if negative then SFopp f else f.

Definition ref_float_of_text (text : string) : option spec_float :=
  let '(negative, s) := read_sign (rstrip (lstrip text)) in
  let word := lowered s in
  if String.eqb word "inf" || String.eqb word "infinity"
  then Some (S754_infinity negative)
  else if String.eqb word "nan" then Some S754_nan
  else
    let '(whole, n1, s) := read_digits s 0 0 in
    let '(m, n2, s) :=
      match s with
      | String "." rest => read_digits rest whole 0
      | _ => (whole, O, s)
      end in
    if Nat.eqb (n1 + n2) 0 then None
    else
      match read_exponent s with
      | Some (e, EmptyString) =>
          Some (decimal_value negative m (n1 + n2) (e - Z.of_nat n2))
      | _ => None
      end.

(** A fragment of the registry: WGS 84, NAD83, Web Mercator, BC Albers
    and UTM zone 10N. *)
Definition ref_epsg_known (code : Z) : bool :=
  existsb (Z.eqb code) [4326; 4269; 3857; 3005; 32610].

Definition ref_lib : PyLib :=
  {| float_of_text := ref_float_of_text;
     isoformat := ref_isoformat;
     epsg_known := ref_epsg_known |}.

(** A folder service in memory: the folders of the account as (title, id)
    pairs, oldest first.  A POST carrying a title adds a folder under that
    title and answers with it; any other POST lists the folders. *)
Definition title_field (req : request) : option string :=
  match List.filter (fun kv => String.eqb (fst kv) "title") (data req) with
  | (_, Text t) :: _ => Some t
  | _ => None
  end.

Definition fresh_id (folders : list (string * json)) : json :=
  JStr (String.append "f" (digits 6 (Z.of_nat (length folders)))).

Definition mock_folders (req : request) (folders : list (string * json))
  : outcome * list (string * json) :=
  match title_field req with
  | Some title =>
      let f := (title, fresh_id folders) in
      (Answered {| status_code := 200;
                   body := Some (obj [("success", JBool true); ("folder", folder_json f)]) |},
       folders ++ [f])
  | None =>
      (Answered {| status_code := 200; body := Some (listing_json folders) |}, folders)
  end.

(** A service that gives every POST the same outcome. *)
Definition always (out : outcome) (req : request) (b : unit) : outcome * unit := (out, b).


(** How many features each POST carries in its features field, if it has
    one. *)
Definition batch_sizes (reqs : list request) : list (option nat) :=
  map (fun req =>
         match List.filter (fun kv => String.eqb (fst kv) "features") (data req) with
         | [(_, Dumps (JArr docs))] => Some (length docs)
         | _ => None
         end) reqs.

(** ** Sample tables *)

(** [m * 2^e] as a float. *)
Definition flt (m e : Z) : spec_float := binary_normalize 53 1024 m e false.

Definition may_day : Timestamp :=
  {| year := 2023; month := 5; day := 1;
     hour := 0; minute := 0; second := 0; microsecond := 0; nanosecond := 0 |}.

(** One visit: Name, Lat, Lon, LatLongSource and the datetime column
    Visited. *)
Definition visits : DataFrame :=
  {| df_index := [0];
     df_cols :=
       [("Name", {| s_dtype := Object; s_values := [VStr "Depot"] |});
        ("Lat", {| s_dtype := Float64; s_values := [VFloat (flt 193 (-2))] |});
        ("Lon", {| s_dtype := Float64; s_values := [VFloat (flt (-247) (-1))] |});
        ("LatLongSource", {| s_dtype := Object; s_values := [VStr "GPS"] |});
        ("Visited", {| s_dtype := Datetime64; s_values := [VTime may_day] |})] |}.

(** Three sites with raw column names; the second has no provenance. *)
Definition survey : DataFrame :=
  {| df_index := [0; 1; 2];
     df_cols :=
       [("Site Name", {| s_dtype := Object;
                         s_values := [VStr "North"; VStr "East"; VStr "South"] |});
        ("Lat (deg)", {| s_dtype := Float64;
                         s_values := [VFloat (flt 193 (-2)); VFloat (flt 97 (-1));
                                      VFloat (flt 49 0)] |});
        ("Lon (deg)", {| s_dtype := Float64;
                         s_values := [VFloat (flt (-247) (-1)); VFloat (flt (-123) 0);
                                      VFloat (flt (-491) (-2))] |});
        ("Lat-Long Source", {| s_dtype := Object;
                               s_values := [VStr "GPS"; VNone; VStr "Map"] |})] |}.

(** A table whose only row has no longitude. *)
Definition no_longitude : DataFrame :=
  {| df_index := [7];
     df_cols :=
       [("Name", {| s_dtype := Object; s_values := [VStr "Depot"] |});
        ("Lat", {| s_dtype := Object; s_values := [VFloat (flt 193 (-2))] |});
        ("Lon", {| s_dtype := Object; s_values := [VNone] |})] |}.

(** The visit table as [df_to_gdf] returns it, geometry column included. *)
Definition published : DataFrame :=
  match @df_to_gdf ref_lib visits "Lat" "Lon" default_crs with
  | Ok gdf => gdf_frame gdf
  | Raise _ => visits
  end.


(** One visit with two columns labelled geometry. *)
Definition retagged : DataFrame :=
  {| df_index := [0];
     df_cols :=
       [("Lat", {| s_dtype := Float64; s_values := [VFloat (flt 193 (-2))] |});
        ("Lon", {| s_dtype := Float64; s_values := [VFloat (flt (-247) (-1))] |});
        ("geometry", {| s_dtype := Object; s_values := [VStr "point"] |});
        ("geometry", {| s_dtype := Object; s_values := [VStr "spot"] |})] |}.


(** Three sites; the second has no longitude. *)
Definition sites : DataFrame :=
  {| df_index := [10; 11; 12];
     df_cols :=
       [("Name", {| s_dtype := Object;
                    s_values := [VStr "North"; VStr "East"; VStr "South"] |});
        ("Lat", {| s_dtype := Float64;
                   s_values := [VFloat (flt 193 (-2)); VFloat (flt 97 (-1));
                                VFloat (flt 49 0)] |});
        ("Lon", {| s_dtype := Object;
                   s_values := [VFloat (flt (-247) (-1)); VNone;
                                VFloat (flt (-491) (-2))] |})] |}.

(** Answers of the feature layer: all added, and one of two refused. *)
Definition added (status : Z) : outcome :=
  Answered {| status_code := status;
              body := Some (obj [("addResults", JArr [obj [("success", JBool true)]])]) |}.

Definition partly_added : outcome :=
  Answered {| status_code := 200;
              body := Some (obj [("addResults",
                                  JArr [obj [("success", JBool true)];
                                        obj [("success", JBool false)]])]) |}.

Definition layer_url : string :=
  "https://services.arcgis.com/x/arcgis/rest/services/sites/FeatureServer".


(** The answer of the portal when it refuses to create a service. *)
Definition refusal : Response :=
  {| status_code := 200;
     body := Some (obj [("error", obj [("code", JInt 400)])]) |}.

(** The interpreter holding one table, as object 0. *)
Definition one_table (table : DataFrame) : heap := {[ 0%nat := table ]}.

(** A world that has sent and logged nothing yet. *)
Definition start {B : Type} (b : B) : world B :=
  {| backend := b; sent := []; logged := [] |}.

(** ** [get_ago_token] *)

Definition token_request (TOKEN_URL HOST USERNAME PASSWORD : string) : request :=
  {| url := TOKEN_URL;
     data := [("username", Text USERNAME); ("password", Text PASSWORD);
              ("referer", Text HOST); ("f", Text "json")];
     verify := Some true |}.

Section Token.
Variable B : Type.
Variable handle : request -> B -> outcome * B.

(** [get_ago_token(TOKEN_URL, HOST, USERNAME, PASSWORD)]: the success record
    is logged once the status has been checked, before the body is read. *)
Definition get_ago_token (TOKEN_URL HOST USERNAME PASSWORD : string) : M (world B) json :=
  try_except_RequestException B
    (response ← requests_post B handle (token_request TOKEN_URL HOST USERNAME PASSWORD);
     lift (raise_for_status response);;
     logging B INFO [Lit "...successfully obtained AGO access token."];;
     answer ← lift (decode_json response);
     lift (dict_get answer "token" JNull))
    (fun e =>
       logging B ERROR [Lit "...failed to obtain access token: "; Val (PExn e)];;
       lift (Raise e)).

End Token.

(** ** [add_layer_to_service] *)

(** The synthetic identifier field and the field made for a column. *)
Definition objectid_field : json :=
  obj [("name", JStr "ObjectID"); ("type", JStr "esriFieldTypeOID");
       ("alias", JStr "ObjectID"); ("sqlType", JStr "sqlTypeOther");
       ("nullable", JBool false); ("editable", JBool false);
       ("domain", JNull); ("defaultValue", JNull)].

Definition column_field (col : string) : json :=
  obj [("name", JStr col); ("type", JStr "esriFieldTypeString");
       ("alias", JStr col); ("sqlType", JStr "sqlTypeOther");
       ("nullable", JBool true); ("editable", JBool true);
       ("domain", JNull); ("defaultValue", JNull)].

(** [fields]: the identifier, then one field per column, left to right. *)
Definition layer_fields (df : DataFrame) : list json :=
  objectid_field :: map column_field (columns df).

Definition layer_definition (fields : list json) (xmin ymin xmax ymax : json) : json :=
  obj [("layers",
        JArr [obj [("name", JStr "Points");
                   ("type", JStr "Feature Layer");
                   ("geometryType", JStr "esriGeometryPoint");
                   ("fields", JArr fields);
                   ("extent",
                    obj [("xmin", xmin); ("ymin", ymin); ("xmax", xmax); ("ymax", ymax);
                         ("spatialReference", obj [("wkid", JInt 4326)])])]])].

Definition add_to_definition_request (token admin_url : string) (definition : json)
  : request :=
  {| url := String.append admin_url "/addToDefinition";
     data := [("f", Text "json"); ("token", Text token);
              ("addToDefinition", Dumps definition)];
     verify := None |}.

(** [json.dumps] on what [.min()] or [.max()] gave: a scalar as a cell
    value, a Series (the reduction of a sub-frame) not at all. *)
Definition dumps_extreme (r : row_selection) : result json :=
  match r with
  | Scalar v => dumps_value v
  | SubSeries _ => Raise TypeError
  end.

Section Layer.
Variable B : Type.
Variable handle : request -> B -> outcome * B.
(** pandas' [.min()] and [.max()] on what [df[label]] selected. *)
Variable col_min col_max : selection -> result row_selection.

Definition add_layer_to_service (token admin_url : string) (df : DataFrame)
    (latcol longcol : string) : M (world B) bool :=
  let fields := layer_fields df in
  xmin ← lift (sel ← getitem df longcol; col_min sel);
  ymin ← lift (sel ← getitem df latcol; col_min sel);
  xmax ← lift (sel ← getitem df longcol; col_max sel);
  ymax ← lift (sel ← getitem df latcol; col_max sel);
  definition ← lift (x0 ← dumps_extreme xmin; y0 ← dumps_extreme ymin;
                     x1 ← dumps_extreme xmax; y1 ← dumps_extreme ymax;
                     Ok (layer_definition fields x0 y0 x1 y1));
  response ← requests_post B handle (add_to_definition_request token admin_url definition);
  response_json ← lift (decode_json response);
  has_flag ← lift (py_in "success" response_json);
  succeeded ← lift (if (has_flag : bool)
                    then flag ← subscript response_json "success"; Ok (truthy flag)
                    else Ok false);
  if (succeeded : bool)
  then
    logging B INFO [Lit "...layer added to the feature service successfully"];;
    mret true
  else
    lift (Raise (Exception_ [Lit "Error adding layer to feature service: ";
                             Val (PJson response_json)])).

End Layer.

(** A reference [.min()] and [.max()].  Missing values are passed over; a
    column of numbers gives a float, NaN when it has no number; a column
    of texts gives the first or the last text in the order of their
    characters; a column of timestamps gives a timestamp, [NaT] when it
    has none; what cannot be compared raises [TypeError].  A sub-frame
    gives a Series.  Of equal values the later one stays, which matters
    for the two zeros alone: there the sign follows numpy's loop, and
    another build of numpy may keep the other zero. *)
Definition pick {A : Type} (better : A -> A -> bool) (xs : list A) : option A :=
  fold_left (fun best x =>
               match best with
               | None => Some x
               | Some b => Some (if better b x then b else x)
               end) xs None.

Definition numbers_of (vs : list value) : result (list spec_float) :=
  comprehension (fun v => match v with
                          | VFloat f => Ok f
                          | VNone | VNaT => Ok S754_nan
                          | _ => Raise TypeError
                          end) vs.

Definition times_of (vs : list value) : result (list Timestamp) :=
  match comprehension (fun v => match v with
                                | VTime t => Ok (Some t)
                                | VNone | VNaT => Ok None
                                | _ => Raise TypeError
                                end) vs with
  | Ok stamps => Ok (omap (fun o : option Timestamp => o) stamps)
  | Raise e => Raise e
  end.

Definition is_text (v : value) : bool :=
  match v with
  | VStr _ => true
  | _ => false
  end.

Definition is_time (v : value) : bool :=
  match v with
  | VTime _ => true
  | _ => false
  end.

Definition texts_of (vs : list value) : list string :=
  omap (fun v => match v with VStr s => Some s | _ => None end) vs.

Definition not_nan (f : spec_float) : bool :=
  match f with
  | S754_nan => false
  | _ => true
  end.

Fixpoint fields_ltb (a b : list Z) : bool :=
  match a, b with
  | x :: a', y :: b' => Z.ltb x y || (Z.eqb x y && fields_ltb a' b')
  | _, _ => false
  end.

Definition timestamp_ltb (a b : Timestamp) : bool :=
  fields_ltb [year a; month a; day a; hour a; minute a; second a;
              microsecond a; nanosecond a]
             [year b; month b; day b; hour b; minute b; second b;
              microsecond b; nanosecond b].

(** [a] before [b], or after it, as the smallest or the largest is
    wanted. *)
Definition ahead {A : Type} (ltb : A -> A -> bool) (smallest : bool) (a b : A) : bool :=
  if smallest then ltb a b else ltb b a.

Definition extreme_time (smallest : bool) (vs : list value) : result row_selection :=
  stamps ← times_of vs;
  Ok (Scalar (match pick (ahead timestamp_ltb smallest) stamps with
              | Some t => VTime t
              | None => VNaT
              end)).

Definition extreme_number (smallest : bool) (vs : list value) : result row_selection :=
  fs ← numbers_of vs;
  Ok (Scalar (VFloat (match pick (ahead SFltb smallest) (List.filter not_nan fs) with
                      | Some f => f
                      | None => S754_nan
                      end))).

Definition extreme_text (smallest : bool) (vs : list value) : result row_selection :=
  Ok (Scalar (match pick (ahead String.ltb smallest) (texts_of vs) with
              | Some s => VStr s
              | None => VNone
              end)).

Definition ref_extreme (smallest : bool) (sel : selection) : result row_selection :=
  match sel with
  | Frame sub => Ok (SubSeries (map (fun _ => VNone) sub))
  | Column s =>
      let vs := s_values s in
      match s_dtype s, vs with
      | Geometry, _ => Raise TypeError
      | Datetime64, _ => extreme_time smallest vs
      | _, [] => extreme_number smallest vs
      | _, _ :: _ =>
          if forallb is_text vs then extreme_text smallest vs
          else if forallb is_time vs then extreme_time smallest vs
          else extreme_number smallest vs
      end
  end.

Definition ref_min : selection -> result row_selection := ref_extreme true.
Definition ref_max : selection -> result row_selection := ref_extreme false.

(** Answers of the schema endpoint. *)
Definition layer_added : outcome :=
  Answered {| status_code := 200; body := Some (obj [("success", JBool true)]) |}.

Definition token_answer (token : string) : outcome :=
  Answered {| status_code := 200; body := Some (obj [("token", JStr token)]) |}.

(** What [add_features] stores for a cell: the ISO text of a timestamp,
    NaT as text, [None] for a missing value, the cell itself otherwise. *)
Definition stored_value `{PyLib} (v : value) : value :=
  if is_datetime v
  then VStr (match v with VTime t => isoformat t | _ => "NaT" end)
  else if isna v then VNone
  else v.

(** A table with the columns of the sites and no row. *)
Definition no_rows : DataFrame :=
  {| df_index := [];
     df_cols :=
       [("Name", {| s_dtype := Object; s_values := [] |});
        ("Lat", {| s_dtype := Float64; s_values := [] |});
        ("Lon", {| s_dtype := Float64; s_values := [] |})] |}.

(** A portal that gives one outcome to the POSTs carrying a title (folder
    creation) and another to the rest (folder listing). *)
Definition portal (on_list on_create : outcome) (req : request) (b : unit)
  : outcome * unit :=
  match title_field req with
  | Some _ => (on_create, b)
  | None => (on_list, b)
  end.

Definition answered (j : json) : outcome :=
  Answered {| status_code := 200; body := Some j |}.
(** * Properties *)

(** ** The recipes on the sample tables *)

Example clean_name_sample : clean_name "Lat (deg) #1 - o'k" = "Latdeg1ok".
Proof. reflexivity. Qed.

Example str_replace_leftmost : str_replace "aa" "b" "aaaaa" = "bba".
Proof. reflexivity. Qed.

Example admin_url_sample :
  admin_url_of (JStr layer_url) =
  Ok "https://services.arcgis.com/x/arcgis/rest/admin/services/sites/FeatureServer".
Proof. reflexivity. Qed.

Example midnight_text :
  datetime_astype_str [VTime may_day; VNaT] = ["2023-05-01"; "NaT"] /\
  ref_isoformat may_day = "2023-05-01T00:00:00".
Proof. split; reflexivity. Qed.

Example visits_geometry :
  (gdf ← @df_to_gdf ref_lib visits "Lat" "Lon" default_crs;
   Ok (columns (gdf_frame gdf), geometry_of gdf, gdf_crs gdf)) =
  Ok (["Name"; "Lat"; "Lon"; "LatLongSource"; "Visited"; "geometry"],
      [VPoint (flt (-247) (-1)) (flt 193 (-2))], Some 4326).
Proof. vm_compute. reflexivity. Qed.

Example survey_sanitized :
  let '(res, h) := prepare_df_for_ago 0%nat (one_table survey) in
  res = Ok 2%nat /\
  (columns <$> h !! 2%nat) = Some ["SiteName"; "Latdeg"; "Londeg"; "LatLongSource"] /\
  (df_index <$> h !! 2%nat) = Some [0; 2].
Proof. vm_compute. repeat split; reflexivity. Qed.

Example survey_without_provenance_column :
  fst (prepare_df_for_ago 0%nat (one_table visits)) = Ok 2%nat /\
  fst (prepare_df_for_ago 0%nat (one_table sites))
    = Raise (KeyError (PStrList ["LatLongSource"])).
Proof. split; vm_compute; reflexivity. Qed.

Example sites_uploaded :
  let '(res, w) := @add_features ref_lib unit (always partly_added)
                     "token" layer_url sites "Lat" "Lon" (start tt) in
  res = Ok (JArr [obj [("success", JBool true)]; obj [("success", JBool false)]]) /\
  length (sent w) = 1%nat /\
  logged w =
    [row_error 11 TypeError;
     (INFO, [Lit "..."; Val (PInt 1); Lit " out of "; Val (PInt 2);
             Lit " features added successfully"])].
Proof. vm_compute. repeat split; reflexivity. Qed.

Example folder_created_once :
  let '(first, w1) := get_ago_folderID _ mock_folders "token" "user" "sites"
                        (start [("maps", JStr "f0")]) in
  let '(second, w2) := get_ago_folderID _ mock_folders "token" "user" "sites" w1 in
  first = Ok (JStr "f000001") /\ second = Ok (JStr "f000001") /\
  map url (sent w2) =
    ["https://www.arcgis.com/sharing/rest/content/users/user";
     "https://www.arcgis.com/sharing/rest/content/users/user/createFolder";
     "https://www.arcgis.com/sharing/rest/content/users/user"].
Proof. vm_compute. repeat split; reflexivity. Qed.

(** ** Column names *)

Lemma prefix_empty (s : string) : String.prefix EmptyString s = true.
Proof. destruct s; reflexivity. Qed.

(** Replacing one character by nothing filters it out. *)
Lemma replace_char_filter (c : ascii) (s : string) :
  list_ascii_of_string (str_replace (String c EmptyString) EmptyString s) =
  List.filter (fun d => negb (Ascii.eqb c d)) (list_ascii_of_string s).
Proof.
  unfold str_replace.
  induction s as [|a s IH]; [reflexivity|].
  cbn [replace_from String.prefix String.length Nat.sub list_ascii_of_string List.filter].
  destruct (ascii_dec c a) as [->|Hne].
  - rewrite prefix_empty, Ascii.eqb_refl. cbn. exact IH.
  - apply Ascii.eqb_neq in Hne. rewrite Hne. cbn. now rewrite IH.
Qed.

Lemma filter_filter_andb {A : Type} (f g : A -> bool) (l : list A) :
  List.filter f (List.filter g l) = List.filter (fun x => g x && f x) l.
Proof.
  induction l as [|x l IH]; [reflexivity|].
  cbn. destruct (g x); cbn; [destruct (f x)|]; now rewrite IH.
Qed.

Lemma clean_name_filter (name : string) :
  list_ascii_of_string (clean_name name) =
  List.filter (fun c => negb (is_special c)) (list_ascii_of_string name).
Proof.
  unfold clean_name, special_chars. cbn [fold_left].
  rewrite !replace_char_filter, !filter_filter_andb.
  apply List.filter_ext. intros c.
  unfold is_special, special_chars. cbn [existsb String.eqb].
  repeat match goal with
         | |- context [Ascii.eqb ?a c] => destruct (Ascii.eqb a c)
         end; reflexivity.
Qed.

(** ** Rows of a filtered frame *)

Lemma rename_clean (table : DataFrame) :
  rename_columns (map clean_name (columns table)) table = Ok (with_clean_names table).
Proof.
  unfold rename_columns, columns, with_clean_names.
  rewrite !length_map, Nat.eqb_refl. do 2 f_equal.
  induction (df_cols table) as [|c l IH]; [reflexivity|].
  cbn. now rewrite IH.
Qed.

Lemma nonzero_from_map_seq (p : nat -> bool) (k n : nat) :
  nonzero_from k (map p (seq k n)) = List.filter p (seq k n).
Proof.
  revert k. induction n as [|n IH]; intros k; [reflexivity|].
  cbn. rewrite IH. reflexivity.
Qed.

Lemma imap_seq_lookup {A C : Type} `{Inhabited A} (f : nat -> A -> C) (l : list A) :
  imap f l = map (fun i => f i (l !!! i)) (seq 0 (length l)).
Proof.
  revert f. induction l as [|x l IH]; intros f; [reflexivity|].
  cbn [imap length seq map]. f_equal.
  rewrite IH, <- seq_shift, map_map. reflexivity.
Qed.

Lemma take_list_cons {A : Type} `{Inhabited A} (p : nat) (ps : list nat) (l : list A) :
  (p < length l)%nat -> take_list (p :: ps) l = l !!! p :: take_list ps l.
Proof.
  intros Hp. unfold take_list. cbn.
  destruct (lookup_lt_is_Some_2 l p Hp) as [x Hx].
  rewrite Hx. cbn. f_equal. symmetry. apply list_lookup_total_correct. exact Hx.
Qed.

Lemma length_take_list {A : Type} (ps : list nat) (l : list A) :
  Forall (fun p => (p < length l)%nat) ps -> length (take_list ps l) = length ps.
Proof.
  induction 1 as [|p ps Hp _ IH]; [reflexivity|].
  unfold take_list in *. cbn.
  destruct (lookup_lt_is_Some_2 l p Hp) as [x Hx]. rewrite Hx. cbn. now rewrite IH.
Qed.

Lemma row_at_take_rows_0 (table : DataFrame) (p : nat) (ps : list nat) :
  well_formed table -> (p < nrows table)%nat ->
  row_at (take_rows (p :: ps) table) 0 = row_at table p.
Proof.
  intros Hwf Hp. unfold row_at, take_rows. cbn [df_cols].
  rewrite map_map. apply map_ext_Forall.
  eapply Forall_impl; [exact Hwf|]. intros [name s] Hlen.
  cbn [fst snd s_values s_dtype] in *.
  rewrite take_list_cons by lia. reflexivity.
Qed.

Lemma row_at_take_rows_S (table : DataFrame) (p : nat) (ps : list nat) (i : nat) :
  well_formed table -> (p < nrows table)%nat ->
  row_at (take_rows (p :: ps) table) (S i) = row_at (take_rows ps table) i.
Proof.
  intros Hwf Hp. unfold row_at, take_rows. cbn [df_cols].
  rewrite !map_map. apply map_ext_Forall.
  eapply Forall_impl; [exact Hwf|]. intros [name s] Hlen.
  cbn [fst snd s_values s_dtype] in *.
  rewrite take_list_cons by lia. reflexivity.
Qed.

Lemma iterrows_take_rows (table : DataFrame) (ps : list nat) :
  well_formed table ->
  Forall (fun p => (p < nrows table)%nat) ps ->
  iterrows (take_rows ps table) =
  map (fun p => (df_index table !!! p, row_at table p)) ps.
Proof.
  intros Hwf Hps. unfold iterrows.
  induction Hps as [|p ps Hp Hps IH]; [reflexivity|].
  cbn [take_rows df_index] in *.
  rewrite take_list_cons by exact Hp.
  cbn [imap map]. rewrite row_at_take_rows_0 by assumption. f_equal.
  rewrite <- IH. apply imap_ext. intros i x _. unfold compose.
  now rewrite row_at_take_rows_S.
Qed.

Lemma iterrows_seq (table : DataFrame) :
  iterrows table =
  map (fun p => (df_index table !!! p, row_at table p)) (seq 0 (nrows table)).
Proof. unfold iterrows, nrows. now rewrite imap_seq_lookup. Qed.

Lemma length_iterrows (table : DataFrame) : length (iterrows table) = nrows table.
Proof. unfold iterrows. apply length_imap. Qed.

Lemma filter_map_comm {A C : Type} (f : A -> C) (q : C -> bool) (l : list A) :
  List.filter q (map f l) = map f (List.filter (fun x => q (f x)) l).
Proof.
  induction l as [|x l IH]; [reflexivity|].
  cbn. destruct (q (f x)); cbn; now rewrite IH.
Qed.

Lemma filter_split_length {A : Type} (q : A -> bool) (l : list A) :
  (length (List.filter q l) + length (List.filter (fun x => negb (q x)) l))%nat = length l.
Proof.
  induction l as [|x l IH]; [reflexivity|].
  cbn. destruct (q x); cbn; lia.
Qed.

(** The mask of [dropna] on [LatLongSource], row by row. *)
Lemma notna_provenance (table : DataFrame) (i : nat) (label : Z) :
  forallb (fun c => negb (isna (s_values (snd c) !!! i)))
    (List.filter (has_label "LatLongSource") (df_cols table)) =
  negb (provenance_isna (label, row_at table i)).
Proof.
  unfold provenance_isna, row_at. cbn [snd].
  induction (df_cols table) as [|[name s] l IH]; [reflexivity|].
  cbn [List.filter map existsb fst snd]. unfold has_label at 1. cbn [fst].
  destruct (String.eqb name "LatLongSource"); cbn [forallb andb orb].
  - rewrite IH, negb_orb. reflexivity.
  - exact IH.
Qed.

Lemma dropna_provenance_rows (table : DataFrame) :
  well_formed table ->
  In "LatLongSource" (columns table) ->
  exists out,
    dropna_frame ["LatLongSource"] table = Ok out /\
    columns out = columns table /\
    well_formed out /\
    iterrows out = List.filter (fun row => negb (provenance_isna row)) (iterrows table).
Proof.
  intros Hwf Hin. unfold dropna_frame.
  assert (Hex : existsb (has_label "LatLongSource") (df_cols table) = true).
  { apply existsb_exists. unfold columns in Hin. apply in_map_iff in Hin.
    destruct Hin as [c [Hc Hin]]. exists c. split; [exact Hin|].
    unfold has_label. now rewrite Hc, String.eqb_refl. }
  cbn [List.filter flat_map]. rewrite Hex. cbn [negb]. rewrite app_nil_r.
  eexists. split; [reflexivity|].
  unfold notna_all, nonzero. rewrite nonzero_from_map_seq.
  set (keep := fun i : nat => forallb _ _).
  assert (Hps : Forall (fun p => (p < nrows table)%nat) (List.filter keep (seq 0 (nrows table)))).
  { apply List.Forall_forall. intros p Hp. apply filter_In in Hp. destruct Hp as [Hp _].
    apply in_seq in Hp. lia. }
  repeat split.
  - unfold columns, take_rows. cbn. rewrite map_map. reflexivity.
  - unfold well_formed, take_rows, nrows. cbn [df_cols df_index].
    rewrite length_take_list by exact Hps.
    apply List.Forall_forall. intros c Hc. apply in_map_iff in Hc.
    destruct Hc as [c0 [<- Hc0]]. cbn.
    apply length_take_list.
    assert (Hlen : length (s_values (snd c0)) = nrows table).
    { unfold well_formed in Hwf. rewrite List.Forall_forall in Hwf. now apply Hwf. }
    rewrite Hlen. exact Hps.
  - rewrite iterrows_take_rows by assumption.
    rewrite (iterrows_seq table), filter_map_comm. f_equal.
    apply List.filter_ext. intros i. unfold keep. apply notna_provenance.
Qed.

(** ** The sanitizer on the heap *)

Lemma dropna_frame_columns (subset : list string) (table out : DataFrame) :
  dropna_frame subset table = Ok out -> columns out = columns table.
Proof.
  unfold dropna_frame. destruct (List.filter _ subset); [|discriminate].
  intros [= <-]. unfold columns, take_rows. cbn. now rewrite map_map.
Qed.

Lemma columns_with_clean_names (table : DataFrame) :
  columns (with_clean_names table) = map clean_name (columns table).
Proof. unfold columns, with_clean_names. cbn. now rewrite !map_map. Qed.

Lemma well_formed_with_clean_names (table : DataFrame) :
  well_formed table -> well_formed (with_clean_names table).
Proof.
  unfold well_formed, with_clean_names, nrows. cbn. intros Hwf.
  apply Forall_map. eapply Forall_impl; [exact Hwf|]. now intros [name s].
Qed.

(** What one call does to the heap: the copy, renamed, stays behind as
    garbage and the result of [dropna] is one more new object. *)
Lemma prepare_df_for_ago_run (h : heap) (df : nat) (table : DataFrame) :
  h !! df = Some table ->
  prepare_df_for_ago df h =
  let h1 := <[fresh (dom h) := with_clean_names table]> h in
  match dropna_frame ["LatLongSource"] (with_clean_names table) with
  | Ok out => (Ok (fresh (dom h1)), <[fresh (dom h1) := out]> h1)
  | Raise e => (Raise e, h1)
  end.
Proof.
  intros Hdf.
  unfold prepare_df_for_ago, df_copy, set_columns, dropna, load, alloc, store, lift.
  unfold mbind, M_bind, mret, M_ret. rewrite Hdf.
  rewrite !lookup_insert_eq. rewrite rename_clean.
  rewrite insert_insert_eq, lookup_insert_eq.
  destruct (dropna_frame _ _); reflexivity.
Qed.

Lemma fresh_not_allocated (h : heap) (r : nat) (table : DataFrame) :
  h !! r = Some table -> fresh (dom h) <> r.
Proof.
  intros Hr Heq. apply (is_fresh (dom h)). rewrite Heq.
  apply elem_of_dom. eauto.
Qed.

(** A successful call: the new object, its content, and the old objects. *)
Lemma prepare_df_for_ago_ok (h : heap) (df : nat) (table : DataFrame) :
  h !! df = Some table ->
  In "LatLongSource" (map clean_name (columns table)) ->
  exists out h' table',
    prepare_df_for_ago df h = (Ok out, h') /\
    dropna_frame ["LatLongSource"] (with_clean_names table) = Ok table' /\
    h' !! out = Some table' /\
    out <> df /\
    forall r t, h !! r = Some t -> h' !! r = Some t.
Proof.
  intros Hdf Hin. rewrite (prepare_df_for_ago_run h df table Hdf). cbn zeta.
  set (h1 := <[fresh (dom h) := with_clean_names table]> h).
  assert (Hkeep : forall r t, h !! r = Some t -> h1 !! r = Some t).
  { intros r t Hr. unfold h1. rewrite lookup_insert_ne; [exact Hr|].
    now apply (fresh_not_allocated h r t). }
  destruct (dropna_frame ["LatLongSource"] (with_clean_names table)) as [out|e] eqn:Hdrop.
  - exists (fresh (dom h1)), (<[fresh (dom h1) := out]> h1), out.
    split; [reflexivity|]. split; [reflexivity|].
    split; [apply lookup_insert_eq|].
    split; [apply (fresh_not_allocated h1 df table); now apply Hkeep|].
    intros r t Hr. rewrite lookup_insert_ne; [now apply Hkeep|].
    apply (fresh_not_allocated h1 r t). now apply Hkeep.
  - exfalso. unfold dropna_frame in Hdrop.
    rewrite <- columns_with_clean_names in Hin.
    assert (Hex : existsb (has_label "LatLongSource") (df_cols (with_clean_names table)) = true).
    { apply existsb_exists. unfold columns in Hin. apply in_map_iff in Hin.
      destruct Hin as [c [Hc Hin]]. exists c. split; [exact Hin|].
      unfold has_label. now rewrite Hc, String.eqb_refl. }
    cbn [List.filter] in Hdrop. rewrite Hex in Hdrop. cbn in Hdrop. discriminate.
Qed.

(** C2.  One pass of [clean_name] keeps exactly the characters that are not
    among ( ) # - space and apostrophe, in their original order, so none of
    the six occurs in the result; and the table [prepare_df_for_ago]
    returns carries, column by column, the cleaned input names. *)
Theorem sanitizer_strips_special_characters :
  (forall name : string,
     list_ascii_of_string (clean_name name) =
       List.filter (fun c => negb (is_special c)) (list_ascii_of_string name) /\
     forall c : ascii,
       In (String c EmptyString) special_chars ->
       ~ In c (list_ascii_of_string (clean_name name))) /\
  (forall (h : heap) (df : nat) (table : DataFrame) (out : nat) (h' : heap),
     h !! df = Some table ->
     prepare_df_for_ago df h = (Ok out, h') ->
     exists table',
       h' !! out = Some table' /\ columns table' = map clean_name (columns table)).
Proof.
  split.
  - intros name. split; [apply clean_name_filter|].
    intros c Hc Hin. rewrite clean_name_filter in Hin.
    apply filter_In in Hin. destruct Hin as [_ Hkeep].
    assert (Hs : is_special c = true).
    { unfold is_special. apply existsb_exists.
      exists (String c EmptyString). split; [exact Hc|apply String.eqb_refl]. }
    rewrite Hs in Hkeep. discriminate.
  - intros h df table out h' Hdf Hrun.
    rewrite (prepare_df_for_ago_run h df table Hdf) in Hrun. cbn zeta in Hrun.
    destruct (dropna_frame _ _) as [table'|e] eqn:Hdrop; [|discriminate].
    injection Hrun as <- <-. exists table'. split; [apply lookup_insert_eq|].
    rewrite (dropna_frame_columns _ _ _ Hdrop). apply columns_with_clean_names.
Qed.

Lemma sanitizer_strips_special_characters_witness :
  exists table',
    snd (prepare_df_for_ago 0%nat (one_table survey)) !! 2%nat = Some table' /\
    columns table' = map clean_name (columns survey).
Proof.
  apply (proj2 sanitizer_strips_special_characters (one_table survey) 0%nat survey 2%nat).
  - reflexivity.
  - vm_compute. reflexivity.
Defined.

(** C3.  For a table whose cleaned labels include LatLongSource the call
    succeeds, and the rows of the returned table are the rows of the input
    (under the cleaned labels) whose provenance is not missing, in order:
    exactly the rows with a missing provenance are gone, and the row count
    is the input row count minus their number. *)
Theorem sanitizer_drops_rows_without_provenance
    (h : heap) (df : nat) (table : DataFrame) :
  h !! df = Some table ->
  well_formed table ->
  In "LatLongSource" (map clean_name (columns table)) ->
  exists out h' table',
    prepare_df_for_ago df h = (Ok out, h') /\
    h' !! out = Some table' /\
    iterrows table' =
      List.filter (fun row => negb (provenance_isna row))
        (iterrows (with_clean_names table)) /\
    (length (List.filter provenance_isna (iterrows (with_clean_names table)))
       <= nrows table)%nat /\
    nrows table' =
      (nrows table
       - length (List.filter provenance_isna (iterrows (with_clean_names table))))%nat.
Proof.
  intros Hdf Hwf Hin.
  destruct (prepare_df_for_ago_ok h df table Hdf Hin)
    as (out & h' & table' & Hrun & Hdrop & Hout & _ & _).
  exists out, h', table'. split; [exact Hrun|]. split; [exact Hout|].
  destruct (dropna_provenance_rows (with_clean_names table)) as (out' & Hdrop' & _ & _ & Hrows).
  { now apply well_formed_with_clean_names. }
  { now rewrite columns_with_clean_names. }
  rewrite Hdrop in Hdrop'. injection Hdrop' as <-.
  split; [exact Hrows|].
  pose proof (filter_split_length provenance_isna (iterrows (with_clean_names table))) as Hsplit.
  rewrite length_iterrows in Hsplit.
  assert (Hn : nrows (with_clean_names table) = nrows table) by reflexivity.
  assert (Hlen : nrows table' =
                 length (List.filter (fun row => negb (provenance_isna row))
                           (iterrows (with_clean_names table)))).
  { rewrite <- Hrows. symmetry. apply length_iterrows. }
  lia.
Qed.

Lemma sanitizer_drops_rows_without_provenance_witness :
  exists out h' table',
    prepare_df_for_ago 0%nat (one_table survey) = (Ok out, h') /\
    h' !! out = Some table' /\
    iterrows table' =
      List.filter (fun row => negb (provenance_isna row))
        (iterrows (with_clean_names survey)) /\
    (length (List.filter provenance_isna (iterrows (with_clean_names survey)))
       <= nrows survey)%nat /\
    nrows table' =
      (nrows survey
       - length (List.filter provenance_isna (iterrows (with_clean_names survey))))%nat.
Proof.
  apply (sanitizer_drops_rows_without_provenance (one_table survey) 0%nat survey).
  - reflexivity.
  - unfold well_formed, survey. cbn. repeat constructor.
  - vm_compute. tauto.
Defined.

(** ** The input object and a second pass *)

(** C9, as the code has it.  [prepare_df_for_ago] works on a copy: whether
    it returns or raises, the caller's table and every other object alive
    before the call are left as they were; the renamed columns and the
    filtered rows are those of the returned table, a different object. *)
Theorem sanitizer_leaves_input_unchanged
    (h : heap) (df : nat) (table : DataFrame) (res : result nat) (h' : heap) :
  h !! df = Some table ->
  prepare_df_for_ago df h = (res, h') ->
  h' !! df = Some table /\
  (forall r t, h !! r = Some t -> h' !! r = Some t) /\
  (forall out, res = Ok out ->
     out <> df /\
     exists table',
       h' !! out = Some table' /\
       dropna_frame ["LatLongSource"] (with_clean_names table) = Ok table' /\
       columns table' = map clean_name (columns table)).
Proof.
  intros Hdf Hrun.
  rewrite (prepare_df_for_ago_run h df table Hdf) in Hrun. cbn zeta in Hrun.
  set (h1 := <[fresh (dom h) := with_clean_names table]> h) in *.
  assert (Hkeep : forall r t, h !! r = Some t -> h1 !! r = Some t).
  { intros r t Hr. unfold h1. rewrite lookup_insert_ne; [exact Hr|].
    now apply (fresh_not_allocated h r t). }
  destruct (dropna_frame ["LatLongSource"] (with_clean_names table)) as [table'|e] eqn:Hdrop;
    injection Hrun as <- <-.
  - assert (Hkeep' : forall r t, h !! r = Some t ->
                                 <[fresh (dom h1) := table']> h1 !! r = Some t).
    { intros r t Hr. rewrite lookup_insert_ne; [now apply Hkeep|].
      apply (fresh_not_allocated h1 r t). now apply Hkeep. }
    split; [now apply Hkeep'|]. split; [exact Hkeep'|].
    intros out [= <-]. split.
    + apply (fresh_not_allocated h1 df table). now apply Hkeep.
    + exists table'. split; [apply lookup_insert_eq|]. split; [reflexivity|].
      rewrite (dropna_frame_columns _ _ _ Hdrop). apply columns_with_clean_names.
  - split; [now apply Hkeep|]. split; [exact Hkeep|]. intros out [=].
Qed.

Lemma sanitizer_leaves_input_unchanged_witness :
  snd (prepare_df_for_ago 0%nat (one_table survey)) !! 0%nat = Some survey.
Proof.
  refine (proj1 (sanitizer_leaves_input_unchanged (one_table survey) 0%nat survey
                   (fst (prepare_df_for_ago 0%nat (one_table survey)))
                   (snd (prepare_df_for_ago 0%nat (one_table survey))) _ _)).
  - reflexivity.
  - apply surjective_pairing.
Defined.

(** C9 as stated fails on the survey table: after the call the input
    object still holds the survey, whose labels and row count are not those
    of the returned table. *)
Lemma sanitizer_in_place_counterexample :
  exists out h' table',
    prepare_df_for_ago 0%nat (one_table survey) = (Ok out, h') /\
    h' !! out = Some table' /\
    h' !! 0%nat = Some survey /\
    columns survey <> columns table' /\
    nrows survey <> nrows table'.
Proof.
  destruct (prepare_df_for_ago 0%nat (one_table survey)) as [res h'] eqn:Hrun.
  vm_compute in Hrun. injection Hrun as <- <-.
  eexists _, _, _. split; [reflexivity|].
  split; [vm_compute; reflexivity|].
  split; [vm_compute; reflexivity|].
  split; vm_compute; discriminate.
Qed.

Lemma clean_name_idempotent (name : string) :
  clean_name (clean_name name) = clean_name name.
Proof.
  rewrite <- (string_of_list_ascii_of_string (clean_name (clean_name name))).
  rewrite <- (string_of_list_ascii_of_string (clean_name name)) at 2.
  f_equal. rewrite (clean_name_filter (clean_name name)), clean_name_filter.
  rewrite filter_filter_andb. apply List.filter_ext. intros c. now destruct (is_special c).
Qed.

Lemma with_clean_names_fixed (table : DataFrame) :
  Forall (fun name => clean_name name = name) (columns table) ->
  with_clean_names table = table.
Proof.
  destruct table as [idx cols]. unfold with_clean_names, columns. cbn.
  intros Hclean. f_equal.
  induction cols as [|[name s] cols IH]; [reflexivity|].
  cbn in *. inversion Hclean as [|? ? Hname Hrest]; subst.
  rewrite Hname, IH by exact Hrest. reflexivity.
Qed.

Lemma take_list_all_from {A : Type} (pre l : list A) :
  take_list (seq (length pre) (length l)) (pre ++ l) = l.
Proof.
  revert pre. induction l as [|x l IH]; intros pre; [reflexivity|].
  unfold take_list in *. cbn.
  rewrite list_lookup_middle by reflexivity. cbn. f_equal.
  specialize (IH (pre ++ [x])). rewrite length_app, <- app_assoc in IH.
  cbn in IH. rewrite Nat.add_1_r in IH. exact IH.
Qed.

Lemma take_list_all {A : Type} (l : list A) : take_list (seq 0 (length l)) l = l.
Proof. exact (take_list_all_from [] l). Qed.

Lemma take_rows_all (table : DataFrame) :
  well_formed table -> take_rows (seq 0 (nrows table)) table = table.
Proof.
  destruct table as [idx cols]. unfold well_formed, take_rows, nrows.
  cbn [df_index df_cols].
  intros Hwf. f_equal; [apply take_list_all|].
  induction Hwf as [|[name [dt vs]] cols Hlen _ IH]; [reflexivity|].
  cbn [map fst snd s_values s_dtype] in *.
  rewrite IH. rewrite <- Hlen, take_list_all. reflexivity.
Qed.

Lemma filter_all_true {A : Type} (q : A -> bool) (l : list A) :
  (forall x, In x l -> q x = true) -> List.filter q l = l.
Proof.
  induction l as [|x l IH]; [reflexivity|]. intros Hq.
  cbn. rewrite (Hq x) by (now left). f_equal. apply IH. intros y Hy. apply Hq. now right.
Qed.

(** A frame without a missing provenance loses nothing under [dropna]. *)
Lemma dropna_frame_fixed (table : DataFrame) :
  well_formed table ->
  In "LatLongSource" (columns table) ->
  Forall (fun row => provenance_isna row = false) (iterrows table) ->
  dropna_frame ["LatLongSource"] table = Ok table.
Proof.
  intros Hwf Hin Hrows. unfold dropna_frame.
  assert (Hex : existsb (has_label "LatLongSource") (df_cols table) = true).
  { apply existsb_exists. unfold columns in Hin. apply in_map_iff in Hin.
    destruct Hin as [c [Hc Hin]]. exists c. split; [exact Hin|].
    unfold has_label. now rewrite Hc, String.eqb_refl. }
  cbn [List.filter flat_map]. rewrite Hex. cbn [negb]. rewrite app_nil_r.
  unfold notna_all, nonzero. rewrite nonzero_from_map_seq.
  rewrite filter_all_true; [now rewrite take_rows_all|].
  intros i Hi. rewrite (notna_provenance table i (df_index table !!! i)).
  rewrite iterrows_seq in Hrows. rewrite List.Forall_forall in Hrows.
  rewrite (Hrows (df_index table !!! i, row_at table i)); [reflexivity|].
  apply in_map_iff. now exists i.
Qed.

(** C10.  For a table whose cleaned labels include LatLongSource, a second
    pass over the returned table succeeds and returns a table with the same
    content, the first result being left as it was: cleaned names are
    already clean, and no row is left to drop. *)
Theorem sanitizer_idempotent (h : heap) (df : nat) (table : DataFrame) :
  h !! df = Some table ->
  well_formed table ->
  In "LatLongSource" (map clean_name (columns table)) ->
  exists out h1 table1,
    prepare_df_for_ago df h = (Ok out, h1) /\
    h1 !! out = Some table1 /\
    exists out2 h2,
      prepare_df_for_ago out h1 = (Ok out2, h2) /\
      h2 !! out2 = Some table1 /\
      h2 !! out = Some table1.
Proof.
  intros Hdf Hwf Hin.
  destruct (prepare_df_for_ago_ok h df table Hdf Hin)
    as (out & h1 & table1 & Hrun & Hdrop & Hout & _ & _).
  exists out, h1, table1. split; [exact Hrun|]. split; [exact Hout|].
  destruct (dropna_provenance_rows (with_clean_names table))
    as (out' & Hdrop' & Hcols & Hwf1 & Hrows).
  { now apply well_formed_with_clean_names. }
  { now rewrite columns_with_clean_names. }
  rewrite Hdrop in Hdrop'. injection Hdrop' as <-.
  rewrite columns_with_clean_names in Hcols.
  assert (Hfixed : with_clean_names table1 = table1).
  { apply with_clean_names_fixed. rewrite Hcols.
    apply List.Forall_forall. intros name Hname. apply in_map_iff in Hname.
    destruct Hname as [name0 [<- _]]. apply clean_name_idempotent. }
  assert (Hagain : dropna_frame ["LatLongSource"] table1 = Ok table1).
  { apply dropna_frame_fixed; [exact Hwf1|now rewrite Hcols|].
    rewrite Hrows. apply List.Forall_forall. intros row Hrow.
    apply filter_In in Hrow. destruct Hrow as [_ Hrow].
    now destruct (provenance_isna row). }
  rewrite (prepare_df_for_ago_run h1 out table1 Hout). cbn zeta.
  rewrite Hfixed, Hagain. eexists _, _. split; [reflexivity|].
  split; [apply lookup_insert_eq|].
  set (h1' := <[fresh (dom h1) := table1]> h1).
  assert (Hout' : h1' !! out = Some table1).
  { unfold h1'. rewrite lookup_insert_ne; [exact Hout|].
    now apply (fresh_not_allocated h1 out table1). }
  rewrite lookup_insert_ne; [exact Hout'|].
  now apply (fresh_not_allocated h1' out table1).
Qed.

Lemma sanitizer_idempotent_witness :
  exists out h1 table1,
    prepare_df_for_ago 0%nat (one_table survey) = (Ok out, h1) /\
    h1 !! out = Some table1 /\
    exists out2 h2,
      prepare_df_for_ago out h1 = (Ok out2, h2) /\
      h2 !! out2 = Some table1 /\
      h2 !! out = Some table1.
Proof.
  apply (sanitizer_idempotent (one_table survey) 0%nat survey).
  - reflexivity.
  - unfold well_formed, survey. cbn. repeat constructor.
  - vm_compute. tauto.
Defined.

(** ** The geometry builder *)

Lemma filter_has_label_nil (label : string) (cols : list (string * Series)) :
  List.filter (has_label label) cols = [] -> ~ In label (map fst cols).
Proof.
  induction cols as [|[name s] cols IH]; [intros _ []|].
  cbn. unfold has_label at 1. cbn.
  destruct (String.eqb name label) eqn:E; [discriminate|].
  intros Hnil [Hhd|Htl]; [|now apply IH].
  subst. rewrite String.eqb_refl in E. discriminate.
Qed.

Lemma filter_has_label_not_in (label : string) (cols : list (string * Series)) :
  ~ In label (map fst cols) -> List.filter (has_label label) cols = [].
Proof.
  induction cols as [|[name s] cols IH]; [reflexivity|].
  cbn. intros Hnot. unfold has_label at 1. cbn.
  destruct (String.eqb name label) eqn:E.
  - apply String.eqb_eq in E. tauto.
  - apply IH. tauto.
Qed.

(** Under distinct labels a label selects at most its own column. *)
Lemma filter_has_label_unique (label : string) (s : Series) (cols : list (string * Series)) :
  NoDup (map fst cols) -> In (label, s) cols ->
  List.filter (has_label label) cols = [(label, s)].
Proof.
  induction cols as [|[name s0] cols IH]; [intros _ []|].
  cbn. intros Hnd Hin. apply NoDup_cons in Hnd. destruct Hnd as [Hfresh Hnd].
  rewrite list_elem_of_In in Hfresh.
  unfold has_label at 1. cbn. destruct Hin as [[= -> ->]|Hin].
  - rewrite String.eqb_refl. f_equal. now apply filter_has_label_not_in.
  - destruct (String.eqb name label) eqn:E.
    + apply String.eqb_eq in E. subst. exfalso. apply Hfresh.
      apply in_map_iff. now exists (label, s).
    + now apply IH.
Qed.

Lemma getitem_unique (df : DataFrame) (label : string) (s : Series) :
  NoDup (columns df) -> In (label, s) (df_cols df) ->
  getitem df label = Ok (Column s).
Proof.
  intros Hnd Hin. unfold getitem.
  now rewrite (filter_has_label_unique label s (df_cols df) Hnd Hin).
Qed.

Lemma getitem_column_in (df : DataFrame) (label : string) (s : Series) :
  getitem df label = Ok (Column s) -> In (label, s) (df_cols df).
Proof.
  unfold getitem. destruct (List.filter _ _) as [|c [|c' l]] eqn:E; try discriminate.
  intros [= <-].
  assert (Hc : In c (List.filter (has_label label) (df_cols df))) by (rewrite E; now left).
  apply filter_In in Hc. destruct Hc as [Hc Hl]. unfold has_label in Hl.
  apply String.eqb_eq in Hl. destruct c as [name s]. cbn in *. now subst.
Qed.

Lemma columns_setitem (df : DataFrame) (label : string) (s : Series) :
  columns (setitem df label s) =
  if existsb (has_label label) (df_cols df) then columns df else columns df ++ [label].
Proof.
  unfold columns, setitem. cbn. destruct (existsb _ _).
  - rewrite map_map. apply map_ext. intros c. now destruct (has_label label c).
  - now rewrite map_app.
Qed.

Lemma NoDup_columns_setitem (df : DataFrame) (label : string) (s : Series) :
  NoDup (columns df) -> NoDup (columns (setitem df label s)).
Proof.
  intros Hnd. rewrite columns_setitem.
  destruct (existsb (has_label label) (df_cols df)) eqn:E; [exact Hnd|].
  apply NoDup_app. split; [exact Hnd|]. split; [|apply NoDup_singleton].
  intros name Hname Hin. apply list_elem_of_In in Hname, Hin.
  destruct Hin as [->|[]].
  assert (Hex : existsb (has_label name) (df_cols df) = true); [|congruence].
  apply existsb_exists. unfold columns in Hname. apply in_map_iff in Hname.
  destruct Hname as [c [Hc Hin]]. exists c. split; [exact Hin|].
  unfold has_label. now rewrite Hc, String.eqb_refl.
Qed.

Lemma setitem_other (df : DataFrame) (label other : string) (s s' : Series) :
  other <> label -> In (other, s') (df_cols df) ->
  In (other, s') (df_cols (setitem df label s)).
Proof.
  intros Hne Hin. unfold setitem. cbn. destruct (existsb _ _).
  - apply in_map_iff. exists (other, s'). split; [|exact Hin].
    unfold has_label. cbn. destruct (String.eqb other label) eqn:E; [|reflexivity].
    apply String.eqb_eq in E. contradiction.
  - apply in_or_app. now left.
Qed.

Lemma setitem_self (df : DataFrame) (label : string) (s : Series) :
  In (label, s) (df_cols (setitem df label s)).
Proof.
  unfold setitem. cbn. destruct (existsb _ _) eqn:E.
  - apply existsb_exists in E. destruct E as [c [Hin Hl]].
    apply in_map_iff. exists c. split; [|exact Hin]. rewrite Hl.
    unfold has_label in Hl. apply String.eqb_eq in Hl. now rewrite Hl.
  - apply in_or_app. right. now left.
Qed.

Lemma comprehension_lookup {A C : Type} (f : A -> result C) (l : list A) (r : list C)
    (i : nat) (a : A) :
  comprehension f l = Ok r -> l !! i = Some a ->
  exists b, r !! i = Some b /\ f a = Ok b.
Proof.
  revert r i. induction l as [|x l IH]; intros r i Hr Hi; [discriminate|].
  cbn in Hr. unfold mbind, result_bind in Hr.
  destruct (f x) as [y|] eqn:Hx; [|discriminate].
  destruct (comprehension f l) as [ys|] eqn:Hl; [|discriminate].
  injection Hr as <-. destruct i as [|i]; cbn in *.
  - injection Hi as <-. now exists y.
  - now apply (IH ys i).
Qed.

Lemma comprehension_fails {A C : Type} (f : A -> result C) (l : list A) (i : nat)
    (a : A) (e : exn) :
  l !! i = Some a -> f a = Raise e -> exists e', comprehension f l = Raise e'.
Proof.
  revert i. induction l as [|x l IH]; intros i Hi Ha; [discriminate|].
  cbn. unfold mbind, result_bind. destruct i as [|i]; cbn in Hi.
  - injection Hi as ->. rewrite Ha. eauto.
  - destruct (f x); [|eauto]. destruct (IH i Hi Ha) as [e' ->]. eauto.
Qed.

Lemma comprehension_total {A C : Type} (f : A -> result C) (l : list A) :
  Forall (fun a => exists b, f a = Ok b) l ->
  exists r, comprehension f l = Ok r /\ length r = length l.
Proof.
  induction 1 as [|x l [y Hy] _ [ys [Hys Hlen]]]; [now exists []|].
  exists (y :: ys). cbn. unfold mbind, result_bind. rewrite Hy, Hys.
  split; [reflexivity|]. cbn. now rewrite Hlen.
Qed.

Lemma comprehension_length {A C : Type} (f : A -> result C) (l : list A) (r : list C) :
  comprehension f l = Ok r -> length r = length l.
Proof.
  revert r. induction l as [|x l IH]; intros r Hr; cbn in Hr.
  - now injection Hr as <-.
  - unfold mbind, result_bind in Hr.
    destruct (f x); [|discriminate]. destruct (comprehension f l); [|discriminate].
    injection Hr as <-. cbn. f_equal. now apply IH.
Qed.

Lemma map_fixed {A : Type} (f : A -> A) (l : list A) :
  (forall x, In x l -> f x = x) -> map f l = l.
Proof.
  induction l as [|x l IH]; [reflexivity|]. intros Hf.
  cbn. rewrite (Hf x) by (now left). f_equal. apply IH. intros y Hy. apply Hf. now right.
Qed.

Lemma length_datetime_astype_str (vs : list value) :
  length (datetime_astype_str vs) = length vs.
Proof. unfold datetime_astype_str. cbn zeta. apply length_map. Qed.

Section GeometryBuilder.
Context `{PyLib}.

Lemma as_text_idempotent (s : Series) : as_text (as_text s) = as_text s.
Proof. unfold as_text. destruct s as [[] vs]; reflexivity. Qed.

(** One turn of the loop, whatever the labels: the column is converted
    when it alone carries the label. *)
Lemma sole_label_map (g : string * Series -> string * Series)
    (cols : list (string * Series)) (label : string) :
  (forall c, fst (g c) = fst c) ->
  sole_label (map g cols) label = sole_label cols label.
Proof.
  intros Hg. unfold sole_label. rewrite filter_map_comm, length_map.
  f_equal. f_equal. apply filter_ext. intros c. unfold has_label. now rewrite Hg.
Qed.

Lemma stringify_datetime_at (idx : list Z) (cols : list (string * Series)) (label : string) :
  stringify_datetime {| df_index := idx; df_cols := cols |} label =
  {| df_index := idx;
     df_cols := map (fun c => if has_label label c && sole_label cols label
                              then (fst c, as_text (snd c)) else c) cols |}.
Proof.
  unfold stringify_datetime, getitem, sole_label. cbn [df_cols].
  destruct (List.filter (has_label label) cols) as [|[name s] [|c' l]] eqn:E.
  - f_equal. symmetry. apply map_fixed. intros c Hc. cbn. now rewrite andb_false_r.
  - assert (Hin : In (name, s) (List.filter (has_label label) cols)) by (rewrite E; now left).
    apply filter_In in Hin. destruct Hin as [Hin Hl].
    unfold has_label in Hl. cbn in Hl. apply String.eqb_eq in Hl. subst name.
    assert (Hone : forall c, In c cols -> has_label label c = true -> c = (label, s)).
    { intros c Hc Hlc.
      assert (Hc' : In c (List.filter (has_label label) cols)) by (apply filter_In; tauto).
      rewrite E in Hc'. destruct Hc' as [<-|[]]. reflexivity. }
    cbn [snd length Nat.eqb]. destruct (is_datetime64_any_dtype (Column s)) eqn:Hdt.
    + unfold setitem. cbn [df_index df_cols].
      assert (Hex : existsb (has_label label) cols = true).
      { apply existsb_exists. exists (label, s). split; [exact Hin|].
        unfold has_label. cbn. apply String.eqb_refl. }
      rewrite Hex. f_equal. apply map_ext_in. intros c Hc. rewrite andb_true_r.
      destruct (has_label label c) eqn:Hl; [|reflexivity].
      rewrite (Hone c Hc Hl). cbn. unfold as_text. now rewrite Hdt.
    + f_equal. symmetry. apply map_fixed.
      intros c Hc. rewrite andb_true_r.
      destruct (has_label label c) eqn:Hl; [|reflexivity].
      rewrite (Hone c Hc Hl). cbn. unfold as_text. now rewrite Hdt.
  - f_equal. symmetry. apply map_fixed. intros c Hc. cbn. now rewrite andb_false_r.
Qed.

Lemma fold_stringify_datetime_at (labels : list string) (idx : list Z)
    (cols : list (string * Series)) :
  fold_left stringify_datetime labels {| df_index := idx; df_cols := cols |} =
  {| df_index := idx;
     df_cols := map (fun c => if existsb (String.eqb (fst c)) labels
                                 && sole_label cols (fst c)
                              then (fst c, as_text (snd c)) else c) cols |}.
Proof.
  revert cols. induction labels as [|label labels IH]; intros cols.
  - cbn. f_equal. symmetry. apply map_fixed. now intros c.
  - cbn [fold_left]. rewrite stringify_datetime_at.
    set (g := fun c : string * Series =>
                if has_label label c && sole_label cols label
                then (fst c, as_text (snd c)) else c).
    assert (Hg : forall c, fst (g c) = fst c).
    { intros c. unfold g. now destruct (has_label label c && sole_label cols label). }
    rewrite IH. f_equal. rewrite map_map. apply map_ext. intros c.
    rewrite (sole_label_map g cols _ Hg), Hg.
    unfold g, has_label. cbn [existsb].
    destruct (String.eqb (fst c) label) eqn:E1; cbn [andb orb]; [|reflexivity].
    apply String.eqb_eq in E1. subst label.
    destruct (sole_label cols (fst c)); cbn [andb fst snd].
    + rewrite andb_true_r. rewrite as_text_idempotent.
      now destruct (existsb (String.eqb (fst c)) labels).
    + now rewrite andb_false_r.
Qed.

(** The loop over the frame's own labels. *)
Lemma fold_stringify_columns (frame : DataFrame) :
  fold_left stringify_datetime (columns frame) frame =
  {| df_index := df_index frame;
     df_cols := map (converted (df_cols frame)) (df_cols frame) |}.
Proof.
  destruct frame as [idx cols]. unfold columns. cbn [df_index df_cols].
  rewrite fold_stringify_datetime_at. f_equal.
  apply map_ext_in. intros c Hc. unfold converted.
  assert (Hex : existsb (String.eqb (fst c)) (map fst cols) = true); [|now rewrite Hex].
  apply existsb_exists. exists (fst c). split; [now apply in_map|apply String.eqb_refl].
Qed.

Lemma fst_converted (cols : list (string * Series)) (c : string * Series) :
  fst (converted cols c) = fst c.
Proof. unfold converted. now destruct (sole_label cols (fst c)). Qed.

(** [frame[label]] once the loop is done. *)
Lemma getitem_converted (idx : list Z) (cols : list (string * Series)) (label : string) :
  getitem {| df_index := idx; df_cols := map (converted cols) cols |} label =
  match List.filter (has_label label) cols with
  | [] => Raise (KeyError (PStr label))
  | [c] => Ok (Column (as_text (snd c)))
  | sub => Ok (Frame sub)
  end.
Proof.
  unfold getitem. cbn [df_cols]. rewrite filter_map_comm.
  rewrite (filter_ext (fun x => has_label label (converted cols x)) (has_label label))
    by (intros c; unfold has_label; now rewrite fst_converted).
  assert (Hlabel : forall c, In c (List.filter (has_label label) cols) -> fst c = label).
  { intros c Hc. apply filter_In in Hc. destruct Hc as [_ Hl].
    unfold has_label in Hl. now apply String.eqb_eq in Hl. }
  pose proof (eq_refl (sole_label cols label)) as Hsole. unfold sole_label at 2 in Hsole.
  destruct (List.filter (has_label label) cols) as [|c [|c' l]] eqn:E.
  - reflexivity.
  - cbn [map]. unfold converted. rewrite (Hlabel c) by (now left).
    rewrite Hsole. reflexivity.
  - assert (Hsame : map (converted cols) (c :: c' :: l) = c :: c' :: l).
    { apply map_fixed. intros x Hx. unfold converted.
      rewrite (Hlabel x Hx), Hsole. reflexivity. }
    rewrite Hsame. reflexivity.
Qed.


Lemma filter_setitem_self (df : DataFrame) (label : string) (s : Series) :
  List.filter (has_label label) (df_cols (setitem df label s)) =
  match List.filter (has_label label) (df_cols df) with
  | [] => [(label, s)]
  | sub => map (fun c => (fst c, s)) sub
  end.
Proof.
  unfold setitem. cbn [df_cols].
  destruct (existsb (has_label label) (df_cols df)) eqn:Hex.
  - rewrite filter_map_comm.
    rewrite (filter_ext _ (has_label label))
      by (intros c; unfold has_label;
          destruct (String.eqb (fst c) label) eqn:E; cbn [fst]; now rewrite ?E).
    assert (Hmap : map (fun c => if has_label label c then (fst c, s) else c)
                     (List.filter (has_label label) (df_cols df))
                   = map (fun c => (fst c, s)) (List.filter (has_label label) (df_cols df))).
    { apply map_ext_in. intros c Hc. apply filter_In in Hc. now rewrite (proj2 Hc). }
    rewrite Hmap.
    destruct (List.filter (has_label label) (df_cols df)) eqn:E; [|reflexivity].
    apply existsb_exists in Hex. destruct Hex as [c [Hc Hl]].
    assert (Hin : In c (List.filter (has_label label) (df_cols df))) by (apply filter_In; tauto).
    rewrite E in Hin. destruct Hin.
  - assert (Hnone : List.filter (has_label label) (df_cols df) = []).
    { destruct (List.filter (has_label label) (df_cols df)) as [|c l] eqn:E; [reflexivity|].
      assert (Hin : In c (List.filter (has_label label) (df_cols df))) by (rewrite E; now left).
      apply filter_In in Hin.
      assert (Htrue : existsb (has_label label) (df_cols df) = true)
        by (apply existsb_exists; now exists c).
      congruence. }
    rewrite List.filter_app, Hnone. cbn. unfold has_label. cbn.
    now rewrite String.eqb_refl.
Qed.

(** What a successful [df_to_gdf] went through, and the frame it returns. *)
Lemma df_to_gdf_run (df : DataFrame) (lat_col lon_col : string) (crs : Z)
    (gdf : GeoDataFrame) :
  df_to_gdf df lat_col lon_col crs = Ok gdf ->
  exists lon lat geometry,
    getitem df lon_col = Ok lon /\
    getitem df lat_col = Ok lat /\
    comprehension Point (combine (py_iter lon) (py_iter lat)) = Ok geometry /\
    length geometry = nrows df /\
    (length (List.filter (has_label "geometry") (df_cols df)) <= 1)%nat /\
    epsg_known crs = true /\
    gdf_crs gdf = Some crs /\
    let frame := setitem df "geometry" {| s_dtype := Geometry; s_values := geometry |} in
    gdf_frame gdf =
      {| df_index := df_index df;
         df_cols := map (converted (df_cols frame)) (df_cols frame) |}.
Proof.
  intros Hrun. unfold df_to_gdf in Hrun. unfold mbind, result_bind in Hrun.
  destruct (getitem df lon_col) as [lon|] eqn:Hlon; [|discriminate].
  destruct (getitem df lat_col) as [lat|] eqn:Hlat; [|discriminate].
  destruct (comprehension Point _) as [geometry|] eqn:Hgeo; [|discriminate].
  unfold GeoDataFrame_init, set_crs in Hrun.
  destruct (Nat.ltb 1 _) eqn:Hmany; [discriminate|].
  apply Nat.ltb_ge in Hmany.
  destruct (Nat.eqb (length geometry) (nrows df)) eqn:Hlen; [|discriminate].
  apply Nat.eqb_eq in Hlen.
  destruct (epsg_known crs) eqn:Hcrs; [|discriminate].
  injection Hrun as <-.
  exists lon, lat, geometry. repeat (split; [reflexivity || assumption|]).
  cbn zeta. cbn [gdf_frame]. now rewrite fold_stringify_columns.
Qed.

(** When it does return. *)
Lemma df_to_gdf_returns (df : DataFrame) (lat_col lon_col : string) (crs : Z)
    (lon lat : selection) (geometry : list value) :
  getitem df lon_col = Ok lon ->
  getitem df lat_col = Ok lat ->
  comprehension Point (combine (py_iter lon) (py_iter lat)) = Ok geometry ->
  length geometry = nrows df ->
  (length (List.filter (has_label "geometry") (df_cols df)) <= 1)%nat ->
  epsg_known crs = true ->
  exists gdf, df_to_gdf df lat_col lon_col crs = Ok gdf.
Proof.
  intros Hlon Hlat Hgeo Hlen Hone Hcrs.
  unfold df_to_gdf, mbind, result_bind. rewrite Hlon, Hlat, Hgeo.
  unfold GeoDataFrame_init, set_crs.
  apply Nat.ltb_ge in Hone. rewrite Hone.
  apply Nat.eqb_eq in Hlen. rewrite Hlen, Hcrs. eauto.
Qed.

(** Under distinct labels every column is the only one of its label. *)
Lemma converted_distinct (cols : list (string * Series)) :
  NoDup (map fst cols) ->
  map (converted cols) cols = map (fun c => (fst c, as_text (snd c))) cols.
Proof.
  intros Hnd. apply map_ext_in. intros [name s] Hc. unfold converted, sole_label.
  cbn [fst snd]. now rewrite (filter_has_label_unique name s cols Hnd Hc).
Qed.

Lemma distinct_labels_once (label : string) (cols : list (string * Series)) :
  NoDup (map fst cols) ->
  (length (List.filter (has_label label) cols) <= 1)%nat.
Proof.
  intros Hnd.
  destruct (List.filter (has_label label) cols) as [|[name s] l] eqn:E; [cbn; lia|].
  assert (Hin : In (name, s) (List.filter (has_label label) cols)) by (rewrite E; now left).
  apply filter_In in Hin. destruct Hin as [Hin Hl].
  unfold has_label in Hl. cbn in Hl. apply String.eqb_eq in Hl. subst name.
  rewrite (filter_has_label_unique label s cols Hnd Hin) in E.
  injection E as <-. cbn. lia.
Qed.

(** The frame a successful [df_to_gdf] returns when the labels are
    distinct. *)
Lemma df_to_gdf_frame (df : DataFrame) (lat_col lon_col : string) (crs : Z)
    (gdf : GeoDataFrame) :
  NoDup (columns df) ->
  df_to_gdf df lat_col lon_col crs = Ok gdf ->
  exists lon lat geometry,
    getitem df lon_col = Ok lon /\
    getitem df lat_col = Ok lat /\
    comprehension Point (combine (py_iter lon) (py_iter lat)) = Ok geometry /\
    length geometry = nrows df /\
    gdf_crs gdf = Some crs /\
    let frame := setitem df "geometry" {| s_dtype := Geometry; s_values := geometry |} in
    NoDup (columns frame) /\
    gdf_frame gdf =
      {| df_index := df_index df;
         df_cols := map (fun c => (fst c, as_text (snd c))) (df_cols frame) |}.
Proof.
  intros Hnd Hrun.
  destruct (df_to_gdf_run df lat_col lon_col crs gdf Hrun)
    as (lon & lat & geometry & Hlon & Hlat & Hgeo & Hlen & _ & _ & Hcrs & Hframe).
  exists lon, lat, geometry. repeat (split; [assumption|]).
  cbn zeta in *. split; [now apply NoDup_columns_setitem|].
  rewrite Hframe. f_equal. apply converted_distinct.
  now apply (NoDup_columns_setitem df "geometry").
Qed.

(** The points end up under the label geometry. *)
Lemma df_to_gdf_geometry (df : DataFrame) (lat_col lon_col : string) (crs : Z)
    (gdf : GeoDataFrame) :
  df_to_gdf df lat_col lon_col crs = Ok gdf ->
  exists lon lat geometry,
    getitem df lon_col = Ok lon /\
    getitem df lat_col = Ok lat /\
    comprehension Point (combine (py_iter lon) (py_iter lat)) = Ok geometry /\
    length geometry = nrows df /\
    getitem (gdf_frame gdf) "geometry" =
      Ok (Column {| s_dtype := Geometry; s_values := geometry |}).
Proof.
  intros Hrun.
  destruct (df_to_gdf_run df lat_col lon_col crs gdf Hrun)
    as (lon & lat & geometry & Hlon & Hlat & Hgeo & Hlen & Hone & _ & _ & Hframe).
  exists lon, lat, geometry. repeat (split; [assumption|]).
  cbn zeta in Hframe. rewrite Hframe, getitem_converted, filter_setitem_self.
  destruct (List.filter (has_label "geometry") (df_cols df)) as [|c [|c' l]];
    [reflexivity|reflexivity|cbn in Hone; lia].
Qed.






End GeometryBuilder.

Section GeometryBuilderClaims.
Context `{PyLib}.

(** C1, as the code has it.  Whenever [df_to_gdf] returns, the geometry
    column has one entry per row and, at every row whose longitude and
    latitude cells are floats, that entry is the point with x the
    longitude and y the latitude, bit for bit.  It returns when every cell
    of the two columns is a float, the table is well formed with at most
    one column labelled geometry, and the EPSG code is known.  It returns
    nothing for any row when [Point] rejects the coordinates of one row,
    or when the EPSG code is unknown. *)
Theorem df_to_gdf_point_is_lon_lat
    (df : DataFrame) (lat_col lon_col : string) (crs : Z) (lon lat : Series) :
  getitem df lon_col = Ok (Column lon) ->
  getitem df lat_col = Ok (Column lat) ->
  (forall gdf,
     df_to_gdf df lat_col lon_col crs = Ok gdf ->
     length (geometry_of gdf) = nrows df /\
     forall (i : nat) (x y : spec_float),
       s_values lon !! i = Some (VFloat x) ->
       s_values lat !! i = Some (VFloat y) ->
       geometry_of gdf !! i = Some (VPoint x y)) /\
  (well_formed df ->
   (length (List.filter (has_label "geometry") (df_cols df)) <= 1)%nat ->
   epsg_known crs = true ->
   (forall v, In v (s_values lon ++ s_values lat) -> exists f, v = VFloat f) ->
   exists gdf, df_to_gdf df lat_col lon_col crs = Ok gdf) /\
  (forall (i : nat) (a b : value) (e : exn),
     s_values lon !! i = Some a ->
     s_values lat !! i = Some b ->
     Point (a, b) = Raise e ->
     exists e', df_to_gdf df lat_col lon_col crs = Raise e') /\
  (epsg_known crs = false ->
   exists e', df_to_gdf df lat_col lon_col crs = Raise e').
Proof.
  intros Hlon Hlat. split; [|split; [|split]].
  - intros gdf Hrun.
    destruct (df_to_gdf_geometry df lat_col lon_col crs gdf Hrun)
      as (lon' & lat' & geometry & Hlon' & Hlat' & Hgeo & Hlen & Hcol).
    rewrite Hlon in Hlon'. rewrite Hlat in Hlat'.
    injection Hlon' as <-. injection Hlat' as <-. cbn [py_iter] in Hgeo.
    unfold geometry_of. rewrite Hcol. cbn [py_iter s_values].
    split; [exact Hlen|]. intros i x y Hx Hy.
    destruct (comprehension_lookup Point _ geometry i (VFloat x, VFloat y) Hgeo)
      as (p & Hp & Hpoint).
    { apply lookup_zip_with_Some. eauto. }
    cbn in Hpoint. injection Hpoint as <-. exact Hp.
  - intros Hwf Hone Hcrs Hfloats.
    destruct (comprehension_total Point (combine (s_values lon) (s_values lat)))
      as (geometry & Hgeo & Hlen).
    { apply List.Forall_forall. intros [a b] Hab.
      destruct (Hfloats a) as [x ->].
      { apply in_or_app. left. eapply in_combine_l. exact Hab. }
      destruct (Hfloats b) as [y ->].
      { apply in_or_app. right. eapply in_combine_r. exact Hab. }
      now exists (VPoint x y). }
    apply (df_to_gdf_returns df lat_col lon_col crs (Column lon) (Column lat) geometry
             Hlon Hlat Hgeo); [|exact Hone|exact Hcrs].
    rewrite Hlen, length_combine.
    apply getitem_column_in in Hlon, Hlat.
    unfold well_formed in Hwf. rewrite List.Forall_forall in Hwf.
    pose proof (Hwf _ Hlon) as Hl1. pose proof (Hwf _ Hlat) as Hl2.
    cbn [snd] in Hl1, Hl2. lia.
  - intros i a b e Ha Hb Hpoint.
    unfold df_to_gdf, mbind, result_bind. rewrite Hlon, Hlat. cbn [py_iter].
    destruct (comprehension_fails Point (combine (s_values lon) (s_values lat)) i (a, b) e)
      as [e' ->]; [|exact Hpoint|eauto].
    apply lookup_zip_with_Some. eauto.
  - intros Hcrs.
    destruct (df_to_gdf df lat_col lon_col crs) as [gdf|e'] eqn:Hrun; [|eauto].
    destruct (df_to_gdf_run df lat_col lon_col crs gdf Hrun)
      as (_ & _ & _ & _ & _ & _ & _ & _ & Hknown & _).
    congruence.
Qed.


End GeometryBuilderClaims.

Lemma visits_distinct_labels : NoDup (columns visits).
Proof. apply (bool_decide_unpack _). vm_compute. reflexivity. Qed.

Lemma df_to_gdf_point_is_lon_lat_witness :
  exists gdf,
    @df_to_gdf ref_lib visits "Lat" "Lon" default_crs = Ok gdf /\
    geometry_of gdf !! 0%nat = Some (VPoint (flt (-247) (-1)) (flt 193 (-2))).
Proof.
  destruct (@df_to_gdf_point_is_lon_lat ref_lib visits "Lat" "Lon" default_crs
              {| s_dtype := Float64; s_values := [VFloat (flt (-247) (-1))] |}
              {| s_dtype := Float64; s_values := [VFloat (flt 193 (-2))] |})
    as (Hpoint & Hruns & _).
  - reflexivity.
  - reflexivity.
  - destruct Hruns as [gdf Hrun].
    + unfold well_formed, visits. cbn. repeat constructor.
    + cbn. lia.
    + reflexivity.
    + cbn. intros v [<-|[<-|[]]]; eauto.
    + exists gdf. split; [exact Hrun|].
      apply (proj2 (Hpoint gdf Hrun) 0%nat); reflexivity.
Defined.

(** C1 as stated fails on the three sites: the first and the third row
    hold floats in both columns, the second has no longitude, and the call
    raises, so that no row gets a point.  It fails too on tables whose
    every row is valid: when the EPSG code is none that is known, and
    when two columns are labelled geometry. *)
Lemma df_to_gdf_valid_rows_counterexample :
  (getitem sites "Lon" =
     Ok (Column {| s_dtype := Object;
                   s_values := [VFloat (flt (-247) (-1)); VNone; VFloat (flt (-491) (-2))] |}) /\
   getitem sites "Lat" =
     Ok (Column {| s_dtype := Float64;
                   s_values := [VFloat (flt 193 (-2)); VFloat (flt 97 (-1));
                                VFloat (flt 49 0)] |}) /\
   @df_to_gdf ref_lib sites "Lat" "Lon" default_crs = Raise TypeError) /\
  @df_to_gdf ref_lib visits "Lat" "Lon" 0 = Raise CRSError /\
  (getitem retagged "Lon" =
     Ok (Column {| s_dtype := Float64; s_values := [VFloat (flt (-247) (-1))] |}) /\
   getitem retagged "Lat" =
     Ok (Column {| s_dtype := Float64; s_values := [VFloat (flt 193 (-2))] |}) /\
   @df_to_gdf ref_lib retagged "Lat" "Lon" default_crs = Raise ValueError).
Proof. repeat split; vm_compute; reflexivity. Qed.



(** ** Text replacement *)

Lemma prefix_append (t s : string) : String.prefix t (String.append t s) = true.
Proof.
  induction t as [|c t IH]; [apply prefix_empty|].
  change (String.prefix (String c t) (String c (String.append t s)) = true).
  cbn [String.prefix]. destruct (ascii_dec c c) as [_|Hne]; [exact IH|now destruct Hne].
Qed.

Lemma replace_from_skip (old new t s : string) :
  replace_from old new (String.length t) (String.append t s) = replace_from old new 0 s.
Proof. induction t as [|c t IH]; [reflexivity|exact IH]. Qed.






Lemma str_contains_append (old x y : string) :
  str_contains old (String.append x y) = false -> str_contains old y = false.
Proof.
  induction x as [|d x IH]; [trivial|].
  change (String.append (String d x) y) with (String d (String.append x y)).
  cbn [str_contains]. intros Habsent. apply orb_false_iff in Habsent. now apply IH.
Qed.



(** ** The service provisioner *)



(** ** What the JSON accessors raise *)

Lemma py_in_raise (key : string) (j : json) (e : exn) :
  py_in key j = Raise e -> is_RequestException e = false.
Proof. destruct j; cbn; intros [=]; now subst. Qed.

Lemma subscript_raise (j : json) (key : string) (e : exn) :
  subscript j key = Raise e -> is_RequestException e = false.
Proof.
  destruct j; cbn; try (intros [=]; now subst).
  destruct (members !! key); intros [=]; now subst.
Qed.

Lemma json_iter_raise (j : json) (e : exn) :
  json_iter j = Raise e -> is_RequestException e = false.
Proof. destruct j; cbn; intros [=]; now subst. Qed.

Lemma dict_get_raise (j : json) (key : string) (fallback : json) (e : exn) :
  dict_get j key fallback = Raise e -> e = AttributeError.
Proof. destruct j; cbn; intros [=]; now subst. Qed.

Lemma flags_raise (items : list json) (e : exn) :
  comprehension (fun result => dict_get result "success" (JBool false)) items = Raise e ->
  is_RequestException e = false.
Proof.
  induction items as [|x items IH]; [discriminate|].
  cbn. unfold mbind, result_bind.
  destruct (dict_get x "success" (JBool false)) eqn:Hx.
  - destruct (comprehension _ items); [discriminate|]. intros [= <-]. now apply IH.
  - intros [= <-]. now rewrite (dict_get_raise _ _ _ _ Hx).
Qed.

(** ** The feature uploader *)

Section Uploader.
Context `{PyLib}.
Variable B : Type.
Variable handle : request -> B -> outcome * B.

(** The world once the loop over the rows is done. *)
Lemma collect_features_run (cols : list string) (latcol longcol : string)
    (rows : list (Z * Row)) (features : list Feature) (w : world B) :
  let outcomes := map (fun r => (fst r, build_feature cols latcol longcol (snd r))) rows in
  collect_features B cols latcol longcol rows features w =
  (Ok (features ++ successes outcomes),
   {| backend := backend w; sent := sent w;
      logged := logged w ++ map (fun f => row_error (fst f) (snd f)) (failures outcomes) |}).
Proof.
  cbn zeta. revert features w.
  induction rows as [|[index row] rows IH]; intros features w.
  - cbn. rewrite !app_nil_r. now destruct w.
  - cbn [collect_features map fst snd]. unfold successes, failures in *.
    destruct (build_feature cols latcol longcol row) as [feature|e].
    + rewrite IH. cbn. now rewrite <- app_assoc.
    + unfold mbind, M_bind, logging. cbn [fst snd]. rewrite IH. cbn.
      now rewrite <- app_assoc.
Qed.

Lemma length_successes_failures (outcomes : list (Z * result Feature)) :
  (length (successes outcomes) + length (failures outcomes))%nat = length outcomes.
Proof.
  unfold successes, failures.
  induction outcomes as [|[index [f|e]] rest IH]; cbn; lia.
Qed.

Lemma length_row_outcomes (df : DataFrame) (latcol longcol : string) :
  length (row_outcomes df latcol longcol) = nrows df.
Proof. unfold row_outcomes. now rewrite length_map, length_iterrows. Qed.

(** [add_features] from the features on. *)
Lemma add_features_run (token service_url : string) (df : DataFrame)
    (latcol longcol : string) (w : world B) :
  let outcomes := row_outcomes df latcol longcol in
  let w0 := {| backend := backend w; sent := sent w;
               logged := logged w ++ map (fun f => row_error (fst f) (snd f))
                                         (failures outcomes) |} in
  add_features B handle token service_url df latcol longcol w =
  match successes outcomes with
  | [] => (Ok (JArr []),
           {| backend := backend w0; sent := sent w0;
              logged := logged w0 ++ [(ERROR, [Lit "No valid features to add"])] |})
  | _ :: _ =>
      match dumps_features (successes outcomes) with
      | Raise e => (Raise e, w0)
      | Ok dumped =>
          match handle (add_features_request token service_url dumped) (backend w) with
          | (out, b') =>
              let w1 := {| backend := b';
                           sent := sent w ++ [add_features_request token service_url dumped];
                           logged := logged w0 |} in
              let failed e :=
                (Ok (JArr []),
                 {| backend := b'; sent := sent w1;
                    logged := logged w0 ++ [(ERROR, [Lit "Request failed: "; Val (PExn e)])] |}) in
              match transport_failure out with
              | Some e => failed e
              | None =>
                  match out with
                  | Failed => failed ConnectionError
                  | Answered r =>
                      match decode_json r with
                      | Raise e => failed e
                      | Ok response_json =>
                          match py_in "addResults" response_json with
                          | Raise e => (Raise e, w1)
                          | Ok false =>
                              (Ok (JArr []),
                               {| backend := b'; sent := sent w1;
                                  logged := logged w0 ++
                                    [(ERROR, [Lit "Error adding features: ";
                                              Val (PJson response_json)])] |})
                          | Ok true =>
                              match
                                (results ← subscript response_json "addResults";
                                 items ← json_iter results;
                                 flags ← comprehension
                                           (fun result => dict_get result "success" (JBool false))
                                           items;
                                 Ok (results, flags))
                              with
                              | Raise e => (Raise e, w1)
                              | Ok (results, flags) =>
                                  (Ok results,
                                   {| backend := b'; sent := sent w1;
                                      logged := logged w0 ++
                                        [(INFO,
                                          [Lit "...";
                                           Val (PInt (Z.of_nat (length (List.filter truthy flags))));
                                           Lit " out of ";
                                           Val (PInt (Z.of_nat (length (successes outcomes))));
                                           Lit " features added successfully"])] |})
                              end
                          end
                      end
                  end
              end
          end
      end
  end.
Proof.
  cbn zeta. unfold add_features. unfold mbind at 1. unfold M_bind at 1.
  rewrite collect_features_run. cbn [app]. fold (row_outcomes df latcol longcol).
  destruct (successes (row_outcomes df latcol longcol)) as [|f fs] eqn:Hfs.
  - reflexivity.
  - unfold mbind at 1. unfold M_bind at 1. unfold lift at 1.
    destruct (dumps_features (f :: fs)) as [dumped|e]; [|reflexivity].
    unfold try_except_RequestException, transport_failure.
    unfold mbind, M_bind, requests_post, lift, logging, mret, M_ret, result_bind.
    cbn [backend sent logged].
    destruct (handle _ _) as [[|r] b']; [reflexivity|].
    destruct (raise_for_status r) as [[]|e] eqn:Hstatus.
    + destruct (decode_json r) as [response_json|e] eqn:Hjson.
      * destruct (py_in "addResults" response_json) as [[|]|e] eqn:Hin; [|reflexivity|].
        -- destruct (subscript response_json "addResults") as [results|e] eqn:Hsub.
           ++ destruct (json_iter results) as [items|e] eqn:Hiter.
              ** destruct (comprehension _ items) as [flags|e] eqn:Hflags.
                 --- reflexivity.
                 --- cbn. now rewrite (flags_raise _ _ Hflags).
              ** cbn. now rewrite (json_iter_raise _ _ Hiter).
           ++ cbn. now rewrite (subscript_raise _ _ _ Hsub).
        -- cbn. now rewrite (py_in_raise _ _ _ Hin).
      * unfold decode_json in Hjson. destruct (body r); [discriminate|].
        injection Hjson as <-. reflexivity.
    + unfold raise_for_status in Hstatus.
      destruct (_ && _); [|discriminate]. injection Hstatus as <-. reflexivity.
Qed.

End Uploader.

Section UploaderClaims.
Context `{PyLib}.
Variable B : Type.
Variable handle : request -> B -> outcome * B.

(** C7, as the code has it.  Of the N rows, the K that raise in the [try]
    body are each logged with their label and exception, in row order, and
    none of them stops the loop: the batch is the N-K features of the
    other rows, in row order.  A row fails when its attributes cannot be
    built, and also when they can but [float] rejects its longitude or its
    latitude cell.  A batch that is not empty and that [json.dumps]
    accepts is sent in one POST, feature by feature; one that [json.dumps]
    rejects makes the call raise with nothing sent, and an empty one is
    not sent either. *)
Theorem add_features_skips_failed_rows
    (token service_url : string) (df : DataFrame) (latcol longcol : string)
    (w : world B) (res : result json) (w' : world B) :
  add_features B handle token service_url df latcol longcol w = (res, w') ->
  let outcomes := row_outcomes df latcol longcol in
  let features := successes outcomes in
  let errors := failures outcomes in
  (length errors <= nrows df)%nat /\
  length features = (nrows df - length errors)%nat /\
  (exists rest,
     logged w' = logged w ++ map (fun f => row_error (fst f) (snd f)) errors ++ rest /\
     (length rest <= 1)%nat) /\
  (features = [] -> res = Ok (JArr []) /\ sent w' = sent w) /\
  (features <> [] ->
   forall docs,
     comprehension dumps_feature features = Ok docs ->
     length docs = length features /\
     sent w' = sent w ++ [add_features_request token service_url (JArr docs)] /\
     submits_batch (sent w') (nrows df - length errors)) /\
  (features <> [] ->
   forall e,
     comprehension dumps_feature features = Raise e ->
     res = Raise e /\ sent w' = sent w) /\
  (forall failure, In failure (attribute_failures df) -> In failure errors) /\
  (forall (row : Row) (e : exn),
     build_feature (columns df) latcol longcol row = Raise e <->
     build_attributes (columns df) row [] = Raise e \/
     exists attrs,
       build_attributes (columns df) row [] = Ok attrs /\
       (row_float row longcol = Raise e \/
        exists x, row_float row longcol = Ok x /\ row_float row latcol = Raise e)).
Proof.
  intros Hrun. cbn zeta.
  assert (Hbody : forall (row : Row) (e : exn),
            build_feature (columns df) latcol longcol row = Raise e <->
            build_attributes (columns df) row [] = Raise e \/
            exists attrs,
              build_attributes (columns df) row [] = Ok attrs /\
              (row_float row longcol = Raise e \/
               exists x, row_float row longcol = Ok x /\ row_float row latcol = Raise e)).
  { intros row e. unfold build_feature, mbind, result_bind.
    destruct (build_attributes (columns df) row []) as [attrs|e0].
    - destruct (row_float row longcol) as [x|e1].
      + destruct (row_float row latcol) as [y|e2].
        * split; [discriminate|].
          intros [[=]|(attrs' & _ & [[=]|(x' & _ & [=])])].
        * split.
          -- intros [= <-]. right. exists attrs. split; [reflexivity|]. right. now exists x.
          -- intros [[=]|(attrs' & _ & [[=]|(x' & _ & [= <-])])]. reflexivity.
      + split.
        * intros [= <-]. right. exists attrs. split; [reflexivity|]. now left.
        * intros [[=]|(attrs' & _ & [[= <-]|(x' & [=] & _)])]. reflexivity.
    - split.
      + intros [= <-]. now left.
      + intros [[= <-]|(attrs' & [=] & _)]. reflexivity. }
  assert (Hattrs : forall failure,
            In failure (attribute_failures df) ->
            In failure (failures (row_outcomes df latcol longcol))).
  { intros failure Hin. unfold attribute_failures in Hin.
    apply list_elem_of_In, list_elem_of_omap in Hin. destruct Hin as [r [Hr Hfail]].
    destruct (build_attributes (columns df) (snd r) []) as [attrs|e] eqn:Hb; [discriminate|].
    injection Hfail as <-.
    unfold failures, row_outcomes. apply list_elem_of_In, list_elem_of_omap.
    exists (fst r, build_feature (columns df) latcol longcol (snd r)). split.
    - apply list_elem_of_In, in_map_iff. exists r. split; [reflexivity|].
      now apply list_elem_of_In.
    - cbn [fst snd]. unfold build_feature, mbind, result_bind. now rewrite Hb. }
  pose proof (length_successes_failures (row_outcomes df latcol longcol)) as Hlen.
  rewrite length_row_outcomes in Hlen.
  split; [lia|]. split; [lia|].
  rewrite add_features_run in Hrun. cbn zeta in Hrun.
  set (features := successes (row_outcomes df latcol longcol)) in *.
  set (errors := failures (row_outcomes df latcol longcol)) in *.
  destruct features as [|f fs] eqn:Hfs.
  { injection Hrun as <- <-. cbn [logged sent].
    split; [eexists; rewrite <- app_assoc; split; [reflexivity|cbn; lia]|].
    split; [tauto|]. split; [intros Hne; now destruct Hne|].
    split; [intros Hne; now destruct Hne|]. split; [exact Hattrs|exact Hbody]. }
  unfold dumps_features in Hrun. unfold mbind, result_bind in Hrun.
  destruct (comprehension dumps_feature (f :: fs)) as [docs|e] eqn:Hdocs.
  2:{ injection Hrun as <- <-. cbn [logged sent].
      split; [exists []; rewrite app_nil_r; split; [reflexivity|cbn; lia]|].
      split; [discriminate|]. split; [discriminate|].
      split; [intros _ e' [= <-]; tauto|]. split; [exact Hattrs|exact Hbody]. }
  assert (Hsent : sent w' = sent w ++ [add_features_request token service_url (JArr docs)] /\
                  exists rest,
                    logged w' = logged w ++ map (fun f => row_error (fst f) (snd f)) errors ++ rest /\
                    (length rest <= 1)%nat).
  { destruct (handle _ _) as [out b'].
    repeat match type of Hrun with
           | (match ?x with _ => _ end) = _ => destruct x
           | (let '(_, _) := ?x in _) = _ => destruct x
           end;
      injection Hrun as <- <-; cbn [logged sent];
      (split; [reflexivity|]);
      first [ exists []; rewrite app_nil_r; split; [reflexivity|cbn; lia]
            | eexists; rewrite <- app_assoc; split; [reflexivity|cbn; lia] ]. }
  destruct Hsent as [Hsent Hlog].
  split; [exact Hlog|]. split; [discriminate|]. split; [|split; [|split]].
  - intros _ docs' [= <-].
    assert (Hdocs' : length docs = length (f :: fs))
      by now apply (comprehension_length dumps_feature (f :: fs)).
    split; [exact Hdocs'|]. split; [exact Hsent|].
    exists (add_features_request token service_url (JArr docs)), docs.
    split; [rewrite Hsent; apply in_or_app; right; now left|].
    split; [cbn; tauto|]. rewrite Hdocs'. lia.
  - intros _ e [=].
  - exact Hattrs.
  - exact Hbody.
Qed.

End UploaderClaims.

Lemma add_features_skips_failed_rows_witness :
  length (successes (@row_outcomes ref_lib sites "Lat" "Lon")) =
    (nrows sites - length (failures (@row_outcomes ref_lib sites "Lat" "Lon")))%nat /\
  failures (@row_outcomes ref_lib sites "Lat" "Lon") = [(11, TypeError)].
Proof.
  split; [|vm_compute; reflexivity].
  refine (proj1 (proj2 (@add_features_skips_failed_rows ref_lib unit (always partly_added)
                          "token" layer_url sites "Lat" "Lon" (start tt)
                          (fst (@add_features ref_lib unit (always partly_added)
                                  "token" layer_url sites "Lat" "Lon" (start tt)))
                          (snd (@add_features ref_lib unit (always partly_added)
                                  "token" layer_url sites "Lat" "Lon" (start tt)))
                          _))).
  apply surjective_pairing.
Defined.

(** C7 as stated fails on the three sites: the attributes of every row
    are built, so that K = 0 of N = 3 rows fail attribute construction,
    and yet the one POST carries two features, the second row being lost
    to [float] on its longitude.  It fails too on the frame the geometry
    builder returns for the one visit: N = 1 and K = 0, and no batch is
    submitted, [json.dumps] raising on the point among the attributes. *)
Lemma add_features_attribute_claim_counterexample :
  (nrows sites = 3%nat /\
   @attribute_failures ref_lib sites = [] /\
   failures (@row_outcomes ref_lib sites "Lat" "Lon") = [(11, TypeError)] /\
   batch_sizes (sent (snd (@add_features ref_lib unit (always partly_added)
                             "token" layer_url sites "Lat" "Lon" (start tt))))
   = [Some 2%nat]) /\
  (nrows published = 1%nat /\
   @attribute_failures ref_lib published = [] /\
   failures (@row_outcomes ref_lib published "Lat" "Lon") = [] /\
   @add_features ref_lib unit (always (added 200))
     "token" layer_url published "Lat" "Lon" (start tt)
   = (Raise TypeError, start tt)).
Proof. repeat split; vm_compute; reflexivity. Qed.

Lemma dumps_features_raise (features : list Feature) (e : exn) :
  dumps_features features = Raise e -> e = TypeError.
Proof.
  unfold dumps_features, mbind, result_bind.
  destruct (comprehension dumps_feature features) as [docs|e'] eqn:Hdocs; [discriminate|].
  intros [= <-]. revert Hdocs.
  induction features as [|f fs IH]; [discriminate|].
  cbn. unfold mbind, result_bind.
  destruct (dumps_feature f) as [doc|e''] eqn:Hf.
  - destruct (comprehension dumps_feature fs); [discriminate|].
    intros [= <-]. now apply IH.
  - intros [= <-]. unfold dumps_feature, mbind, result_bind in Hf.
    destruct (comprehension _ (attributes f)) as [attrs|e0] eqn:Hattrs; [discriminate|].
    injection Hf as <-. revert Hattrs.
    induction (attributes f) as [|[k v] kvs IHk]; [discriminate|].
    cbn. unfold mbind, result_bind.
    destruct (dumps_value v) as [j|e1] eqn:Hv.
    + destruct (comprehension _ kvs); [discriminate|]. intros [= <-]. now apply IHk.
    + intros [= <-]. destruct v; cbn in Hv; congruence.
Qed.

Lemma flags_of_objects (items : list json) :
  forallb is_object items = true ->
  exists flags,
    comprehension (fun result => dict_get result "success" (JBool false)) items = Ok flags.
Proof.
  induction items as [|x items IH]; [now exists []|].
  cbn. intros Hall. apply andb_prop in Hall. destruct Hall as [Hx Hall].
  destruct (IH Hall) as [flags Hflags]. destruct x; try discriminate.
  cbn. unfold mbind, result_bind. rewrite Hflags. eauto.
Qed.

Section UploaderFailures.
Context `{PyLib}.
Variable B : Type.
Variable handle : request -> B -> outcome * B.

(** C8, as the code has it.  With a batch sent: when the POST finds no
    connection, is answered with a 4xx or 5xx status, or with a body that
    is not JSON, [add_features] logs the failure and returns the empty
    list; when the answer is an object whose addResults is a list of
    objects, that list is returned as it is, whatever the success flags.
    An exception leaves [add_features] only as a [TypeError] or an
    [AttributeError], from [json.dumps] on the batch or from an answer
    that came through but has another shape; never from the transport. *)
Theorem add_features_swallows_transport_failures
    (token service_url : string) (df : DataFrame) (latcol longcol : string)
    (w : world B) :
  let features := successes (row_outcomes df latcol longcol) in
  (forall dumped out b',
     features <> [] ->
     dumps_features features = Ok dumped ->
     handle (add_features_request token service_url dumped) (backend w) = (out, b') ->
     (forall e,
        transport_failure out = Some e ->
        exists w',
          add_features B handle token service_url df latcol longcol w = (Ok (JArr []), w') /\
          last (logged w') = Some (ERROR, [Lit "Request failed: "; Val (PExn e)])) /\
     (forall r members items,
        out = Answered r ->
        transport_failure out = None ->
        body r = Some (JObj members) ->
        members !! "addResults" = Some (JArr items) ->
        forallb is_object items = true ->
        exists w',
          add_features B handle token service_url df latcol longcol w
            = (Ok (JArr items), w'))) /\
  (forall e w',
     add_features B handle token service_url df latcol longcol w = (Raise e, w') ->
     (e = TypeError \/ e = AttributeError) /\
     (dumps_features features = Raise e \/
      exists dumped out b',
        dumps_features features = Ok dumped /\
        handle (add_features_request token service_url dumped) (backend w) = (out, b') /\
        transport_failure out = None)).
Proof.
  cbn zeta. split.
  - intros dumped out b' Hne Hdumped Hpost. split.
    + intros e Hfail. rewrite add_features_run. cbn zeta.
      destruct (successes (row_outcomes df latcol longcol)) as [|f fs]; [now destruct Hne|].
      rewrite Hdumped, Hpost, Hfail. eexists. split; [reflexivity|].
      cbn [logged]. apply last_snoc.
    + intros r members items -> Hfine Hbody Hresults Hobjects.
      rewrite add_features_run. cbn zeta.
      destruct (successes (row_outcomes df latcol longcol)) as [|f fs]; [now destruct Hne|].
      rewrite Hdumped, Hpost, Hfine.
      unfold decode_json. rewrite Hbody. cbn [py_in subscript].
      rewrite Hresults. rewrite bool_decide_eq_true_2 by eauto.
      destruct (flags_of_objects items Hobjects) as [flags Hflags].
      unfold mbind, result_bind. cbn [json_iter]. rewrite Hflags.
      eexists. reflexivity.
  - intros e w' Hrun. rewrite add_features_run in Hrun. cbn zeta in Hrun.
    destruct (successes (row_outcomes df latcol longcol)) as [|f fs]; [discriminate|].
    destruct (dumps_features (f :: fs)) as [dumped|e'] eqn:Hdumped.
    2:{ injection Hrun as <- <-. rewrite (dumps_features_raise _ _ Hdumped). tauto. }
    destruct (handle _ _) as [out b'] eqn:Hpost.
    destruct (transport_failure out) eqn:Hfail; [discriminate|].
    assert (Hshape : e = TypeError \/ e = AttributeError).
    { destruct out as [|r]; [discriminate|].
      destruct (decode_json r) as [response_json|]; [|discriminate].
      destruct response_json as [|flag|n|x|text|items|members];
        cbn in Hrun; try (injection Hrun as <- <-; tauto).
      - destruct (str_contains _ text); [|discriminate]. injection Hrun as <- <-. tauto.
      - destruct (existsb _ items); [|discriminate]. injection Hrun as <- <-. tauto.
      - destruct (members !! "addResults") as [results|] eqn:Hresults.
        + rewrite bool_decide_eq_true_2 in Hrun by eauto.
          unfold mbind, result_bind in Hrun.
          destruct (json_iter results) as [items|e0] eqn:Hiter.
          * destruct (comprehension _ items) as [flags|e1] eqn:Hflags; [discriminate|].
            injection Hrun as <- <-. right. clear -Hflags. revert Hflags.
            induction items as [|x items IH]; [discriminate|].
            cbn. unfold mbind, result_bind.
            destruct (dict_get x "success" (JBool false)) eqn:Hx.
            -- destruct (comprehension _ items); [discriminate|].
               intros [= <-]. now apply IH.
            -- intros [= <-]. now apply (dict_get_raise _ _ _ _ Hx).
          * injection Hrun as <- <-. left.
            destruct results; cbn in Hiter; congruence.
        + rewrite bool_decide_eq_false_2 in Hrun by (intros [? [=]]). discriminate. }
    split; [exact Hshape|]. right. now exists dumped, out, b'.
Qed.

End UploaderFailures.

Lemma add_features_swallows_transport_failures_witness :
  exists w',
    @add_features ref_lib unit (always Failed) "token" layer_url sites "Lat" "Lon" (start tt)
      = (Ok (JArr []), w') /\
    last (logged w') = Some (ERROR, [Lit "Request failed: "; Val (PExn ConnectionError)]).
Proof.
  pose proof (proj1 (@add_features_swallows_transport_failures ref_lib unit (always Failed)
                       "token" layer_url sites "Lat" "Lon" (start tt))) as Hsent.
  cbn zeta in Hsent.
  destruct (dumps_features (successes (@row_outcomes ref_lib sites "Lat" "Lon")))
    as [dumped|e] eqn:Hdumped; [|vm_compute in Hdumped; discriminate].
  destruct (Hsent dumped Failed tt) as [Hfailed _].
  - vm_compute. discriminate.
  - reflexivity.
  - reflexivity.
  - apply Hfailed. reflexivity.
Defined.

(** C8 as stated fails twice.  A 302 is not a 2xx status, yet the list in
    its body is returned, not the empty list; and the table that
    [df_to_gdf] returned makes [add_features] raise, with nothing wrong in
    the transport, because its geometry column is not serialisable. *)
Lemma add_features_failure_claim_counterexample :
  fst (@add_features ref_lib unit (always (added 302))
         "token" layer_url visits "Lat" "Lon" (start tt))
    = Ok (JArr [obj [("success", JBool true)]]) /\
  fst (@add_features ref_lib unit (always (added 200))
         "token" layer_url published "Lat" "Lon" (start tt))
    = Raise TypeError.
Proof. split; vm_compute; reflexivity. Qed.

(** ** The folder resolver *)

Section Resolver.
Variable B : Type.
Variable handle : request -> B -> outcome * B.

Lemma subscript_folder_title (f : string * json) :
  subscript (folder_json f) "title" = Ok (JStr (fst f)).
Proof. unfold subscript, folder_json, obj. cbn. now rewrite lookup_insert_eq. Qed.

Lemma subscript_folder_id (f : string * json) :
  subscript (folder_json f) "id" = Ok (snd f).
Proof.
  unfold subscript, folder_json, obj. cbn.
  rewrite lookup_insert_ne by discriminate. now rewrite lookup_insert_eq.
Qed.

Lemma dict_get_listing (folders : list (string * json)) :
  dict_get (listing_json folders) "folders" (JArr []) = Ok (JArr (map folder_json folders)).
Proof. unfold dict_get, listing_json, obj. cbn. now rewrite lookup_insert_eq. Qed.

(** The loop over a listing stops at the first folder with the title. *)
Lemma scan_folders_listing (folders : list (string * json)) (folder_name : string)
    (w : world B) :
  scan_folders B (map folder_json folders) folder_name w =
  match List.find (matches folder_name) folders with
  | Some f =>
      (Ok (Some (snd f)),
       {| backend := backend w; sent := sent w;
          logged := logged w ++
            [(INFO, [Lit "...folder '"; Val (PStr folder_name); Lit "' already exists."])] |})
  | None => (Ok None, w)
  end.
Proof.
  induction folders as [|f folders IH]; [reflexivity|].
  cbn [map scan_folders List.find].
  unfold mbind at 1. unfold M_bind at 1. unfold lift at 1.
  rewrite subscript_folder_title. cbn [eq_text]. unfold matches in *.
  destruct (String.eqb (fst f) folder_name); [|exact IH].
  unfold mbind, M_bind, logging, lift, mret, M_ret.
  now rewrite subscript_folder_id.
Qed.

Lemma find_app_last (folders : list (string * json)) (folder_name : string) (id : json) :
  List.find (matches folder_name) folders = None ->
  List.find (matches folder_name) (folders ++ [(folder_name, id)]) = Some (folder_name, id).
Proof.
  induction folders as [|f folders IH]; cbn.
  - intros _. now rewrite String.eqb_refl.
  - destruct (matches folder_name f); [discriminate|exact IH].
Qed.

End Resolver.

(** C5.  Against a service that lists the folders of the account and
    files a created folder last: the call returns the id of the first
    listed folder with exactly the title and sends the listing POST alone
    when there is one, and sends the creation POST after the listing POST,
    returning the new id, when there is none; a second call with the same
    title then returns the same id and sends the listing POST alone. *)
Theorem get_ago_folderID_finds_or_creates
    (B : Type) (handle : request -> B -> outcome * B)
    (folders : B -> list (string * json))
    (token username folder_name : string) (w : world B) :
  folder_service handle folders ->
  exists id w1 w2,
    get_ago_folderID B handle token username folder_name w = (Ok id, w1) /\
    (forall f,
       List.find (matches folder_name) (folders (backend w)) = Some f ->
       id = snd f /\
       sent w1 = sent w ++ [list_folders_request token username]) /\
    (List.find (matches folder_name) (folders (backend w)) = None ->
     sent w1 = sent w ++ [list_folders_request token username;
                          create_folder_request token username folder_name]) /\
    (In (create_folder_request token username folder_name)
        (drop (length (sent w)) (sent w1)) <->
     List.find (matches folder_name) (folders (backend w)) = None) /\
    get_ago_folderID B handle token username folder_name w1 = (Ok id, w2) /\
    sent w2 = sent w1 ++ [list_folders_request token username].
Proof.
  intros [Hlist Hcreate].
  assert (Hcall : forall w0 : world B,
            (forall f,
               List.find (matches folder_name) (folders (backend w0)) = Some f ->
               get_ago_folderID B handle token username folder_name w0 =
               (Ok (snd f),
                {| backend := backend w0;
                   sent := sent w0 ++ [list_folders_request token username];
                   logged := logged w0 ++
                     [(INFO, [Lit "...folder '"; Val (PStr folder_name);
                              Lit "' already exists."])] |})) /\
            (List.find (matches folder_name) (folders (backend w0)) = None ->
             exists id b',
               folders b' = folders (backend w0) ++ [(folder_name, id)] /\
               get_ago_folderID B handle token username folder_name w0 =
               (Ok id,
                {| backend := b';
                   sent := sent w0 ++ [list_folders_request token username;
                                       create_folder_request token username folder_name];
                   logged := logged w0 ++
                     [(INFO, [Lit "...folder '"; Val (PStr folder_name);
                              Lit "' created successfully."])] |}))).
  { intros w0. destruct (Hlist token username (backend w0)) as (r & Hpost & Hstatus & Hbody).
    assert (Hscan : get_ago_folderID B handle token username folder_name w0 =
              try_except_RequestException B
                (found ← scan_folders B (map folder_json (folders (backend w0))) folder_name;
                 match found with
                 | Some id => mret id
                 | None =>
                     create_response ← requests_post B handle
                                         (create_folder_request token username folder_name);
                     lift (raise_for_status create_response);;
                     logging B INFO [Lit "...folder '"; Val (PStr folder_name);
                                     Lit "' created successfully."];;
                     created ← lift (decode_json create_response);
                     folder ← lift (dict_get created "folder" JNull);
                     lift (dict_get folder "id" JNull)
                 end)
                (fun e =>
                   logging B ERROR [Lit "...failed to create or get folder: "; Val (PExn e)];;
                   lift (Raise e))
                {| backend := backend w0;
                   sent := sent w0 ++ [list_folders_request token username];
                   logged := logged w0 |}).
    { unfold get_ago_folderID, try_except_RequestException.
      unfold mbind at 1 3. unfold M_bind at 1 3. unfold requests_post at 1 3. rewrite Hpost.
      unfold mbind at 1 3. unfold M_bind at 1 3. unfold lift at 1 5. rewrite Hstatus.
      unfold mbind at 1 3. unfold M_bind at 1 3. unfold lift at 1 5.
      unfold decode_json at 1 3. rewrite Hbody.
      unfold mbind at 1 3. unfold M_bind at 1 3. unfold lift at 1 5. rewrite dict_get_listing.
      unfold mbind at 1 3. unfold M_bind at 1 3. unfold lift at 1 5. cbn [json_iter].
      reflexivity. }
    rewrite Hscan. unfold try_except_RequestException. split.
    - intros f Hfind. unfold mbind at 1. unfold M_bind at 1.
      rewrite scan_folders_listing. cbn [backend sent logged].
      rewrite Hfind. reflexivity.
    - intros Hfind. unfold mbind at 1. unfold M_bind at 1.
      rewrite scan_folders_listing. cbn [backend sent logged].
      rewrite Hfind.
      destruct (Hcreate token username folder_name (backend w0))
        as (r' & b' & created & folder & id & Hpost' & Hstatus' & Hbody' & Hfolder & Hid & Hnew).
      exists id, b'. split; [exact Hnew|].
      unfold mbind, M_bind, requests_post, lift, logging, mret, M_ret.
      cbn [backend sent logged]. rewrite Hpost', Hstatus'.
      unfold decode_json. rewrite Hbody', Hfolder, Hid. cbn.
      now rewrite <- app_assoc. }
  assert (Hneq : create_folder_request token username folder_name
                 <> list_folders_request token username).
  { unfold create_folder_request, list_folders_request. intros Heq. discriminate Heq. }
  destruct (List.find (matches folder_name) (folders (backend w))) as [f|] eqn:Hfind.
  - (* a folder with the title is listed *)
    pose proof (proj1 (Hcall w) f Hfind) as Hfirst.
    eexists _, _, _. split; [exact Hfirst|].
    split; [intros f' [= <-]; split; reflexivity|].
    split; [discriminate|]. cbn [sent backend].
    split.
    { rewrite drop_app_length. split; [|discriminate].
      intros [Hin|[]]. now destruct Hneq. }
    split; [apply (proj1 (Hcall _) f); exact Hfind|reflexivity].
  - (* no folder with the title: one is created *)
    destruct (proj2 (Hcall w) Hfind) as (id & b' & Hnew & Hfirst).
    eexists id, _, _. split; [exact Hfirst|].
    split; [discriminate|]. split; [reflexivity|]. cbn [sent backend].
    split.
    { rewrite drop_app_length. split; [reflexivity|]. intros _. right. now left. }
    split; [apply (proj1 (Hcall _) (folder_name, id)); cbn [backend];
            rewrite Hnew; now apply find_app_last|reflexivity].
Qed.

(** The mock keeps to what the resolver relies on. *)
Lemma mock_folders_service : folder_service mock_folders (fun folders => folders).
Proof.
  split.
  - intros token username b. eexists. split; [reflexivity|]. split; reflexivity.
  - intros token username title b.
    exists {| status_code := 200;
              body := Some (obj [("success", JBool true);
                                 ("folder", folder_json (title, fresh_id b))]) |},
           (b ++ [(title, fresh_id b)]),
           (obj [("success", JBool true); ("folder", folder_json (title, fresh_id b))]),
           (folder_json (title, fresh_id b)), (fresh_id b).
    split; [reflexivity|]. split; [reflexivity|]. split; [reflexivity|].
    split; [|split; [|reflexivity]].
    + unfold dict_get, obj. cbn. rewrite lookup_insert_ne by discriminate.
      now rewrite lookup_insert_eq.
    + unfold dict_get, folder_json, obj. cbn. rewrite lookup_insert_ne by discriminate.
      now rewrite lookup_insert_eq.
Qed.

Lemma get_ago_folderID_finds_or_creates_witness :
  exists id w1 w2,
    get_ago_folderID _ mock_folders "token" "user" "sites" (start []) = (Ok id, w1) /\
    get_ago_folderID _ mock_folders "token" "user" "sites" w1 = (Ok id, w2) /\
    sent w2 = sent w1 ++ [list_folders_request "token" "user"].
Proof.
  destruct (get_ago_folderID_finds_or_creates _ mock_folders (fun folders => folders)
              "token" "user" "sites" (start []) mock_folders_service)
    as (id & w1 & w2 & Hfirst & _ & _ & _ & Hsecond & Hsent).
  exists id, w1, w2. split; [exact Hfirst|]. split; [exact Hsecond|exact Hsent].
Defined.

(** * Further properties of the recipes *)

(** ** More on text replacement *)

(** X1.  [str.replace] leaves a text without an occurrence of [old] as it
    is; so a service URL without /rest/ is its own admin URL, and a name
    without a special character is kept by each pass of [clean_name]. *)
Theorem str_replace_absent (old new s : string) :
  str_contains old s = false -> str_replace old new s = s.
Proof.
  intros Habsent. unfold str_replace. destruct old as [|c old].
  - destruct s; discriminate.
  - induction s as [|a s IH]; [reflexivity|].
    cbn [str_contains] in Habsent. apply orb_false_iff in Habsent.
    destruct Habsent as [Hhere Hlater].
    cbn [replace_from]. rewrite Hhere. f_equal. now apply IH.
Qed.

Lemma str_replace_absent_witness :
  str_replace "/rest/" "/rest/admin/" "https://example.org/arcgis/services"
  = "https://example.org/arcgis/services".
Proof. apply str_replace_absent. reflexivity. Defined.

(** X2.  An occurrence of a non-empty [old] at the start is replaced by
    [new] and the scan goes on after the occurrence: what [new] itself
    contains is not looked at again, so /rest/admin/ keeps its /rest/. *)
Theorem str_replace_at_start (old new s : string) :
  old <> EmptyString ->
  str_replace old new (String.append old s) = String.append new (str_replace old new s).
Proof.
  intros Hold. destruct old as [|c old]; [now destruct Hold|].
  unfold str_replace.
  change (String.append (String c old) s) with (String c (String.append old s)).
  cbn [replace_from].
  change (String c (String.append old s)) with (String.append (String c old) s).
  rewrite prefix_append. f_equal.
  cbn [String.length]. rewrite Nat.sub_1_r. cbn [Nat.pred].
  apply replace_from_skip.
Qed.

Lemma str_replace_at_start_witness :
  str_replace "/rest/" "/rest/admin/" (String.append "/rest/" "services/a/rest/b")
  = String.append "/rest/admin/" (str_replace "/rest/" "/rest/admin/" "services/a/rest/b").
Proof. apply str_replace_at_start. discriminate. Defined.

Lemma filter_fixed_all {A : Type} (q : A -> bool) (l : list A) :
  List.filter q l = l -> forall x, In x l -> q x = true.
Proof.
  induction l as [|a l IH]; [intros _ x []|].
  cbn. destruct (q a) eqn:Ha.
  - intros [= Hl] x [<-|Hx]; [exact Ha|now apply IH].
  - intros Hl. exfalso.
    assert (Hlen : (length (List.filter q l) <= length l)%nat) by apply List.filter_length_le.
    rewrite Hl in Hlen. cbn in Hlen. lia.
Qed.

(** X3.  [clean_name] returns a name as it is exactly when the name has
    none of the six special characters. *)
Theorem clean_name_fixed_iff (name : string) :
  clean_name name = name <->
  forall c, In c (list_ascii_of_string name) -> is_special c = false.
Proof.
  split.
  - intros Hfixed c Hc.
    pose proof (clean_name_filter name) as Hfilter. rewrite Hfixed in Hfilter.
    symmetry in Hfilter.
    pose proof (filter_fixed_all _ _ Hfilter c Hc) as Hkeep. cbn beta in Hkeep.
    destruct (is_special c); [discriminate Hkeep|reflexivity].
  - intros Hplain.
    rewrite <- (string_of_list_ascii_of_string (clean_name name)).
    rewrite <- (string_of_list_ascii_of_string name) at 2.
    f_equal. rewrite clean_name_filter. apply filter_all_true.
    intros c Hc. now rewrite (Hplain c Hc).
Qed.

Lemma clean_name_fixed_iff_witness : clean_name "LatLongSource" = "LatLongSource".
Proof.
  apply (proj2 (clean_name_fixed_iff "LatLongSource")).
  cbn. intros c Hc.
  repeat (destruct Hc as [<-|Hc]; [reflexivity|]). destruct Hc.
Defined.

(** ** More on the sanitizer *)

Lemma prepare_df_for_ago_without_column (h : heap) (df : nat) (table : DataFrame) :
  h !! df = Some table ->
  ~ In "LatLongSource" (map clean_name (columns table)) ->
  fst (prepare_df_for_ago df h) = Raise (KeyError (PStrList ["LatLongSource"])).
Proof.
  intros Hdf Hnot. rewrite (prepare_df_for_ago_run h df table Hdf). cbn zeta.
  unfold dropna_frame. cbn [List.filter].
  assert (Hex : existsb (has_label "LatLongSource") (df_cols (with_clean_names table)) = false).
  { apply not_true_is_false. intros Hex. apply Hnot.
    apply existsb_exists in Hex. destruct Hex as [c [Hc Hl]].
    rewrite <- columns_with_clean_names. unfold columns. apply in_map_iff.
    exists c. split; [|exact Hc]. unfold has_label in Hl. now apply String.eqb_eq in Hl. }
  rewrite Hex. reflexivity.
Qed.

(** X4.  [prepare_df_for_ago] raises [KeyError(['LatLongSource'])] exactly
    when no cleaned label is LatLongSource; the error comes from [dropna],
    after the copy has been renamed. *)
Theorem prepare_df_for_ago_needs_provenance_column
    (h : heap) (df : nat) (table : DataFrame) :
  h !! df = Some table ->
  (~ In "LatLongSource" (map clean_name (columns table)) <->
   fst (prepare_df_for_ago df h) = Raise (KeyError (PStrList ["LatLongSource"]))).
Proof.
  intros Hdf. split.
  - now apply prepare_df_for_ago_without_column.
  - intros Hraise Hin.
    destruct (prepare_df_for_ago_ok h df table Hdf Hin) as (out & h' & table' & Hrun & _).
    rewrite Hrun in Hraise. discriminate.
Qed.

Lemma prepare_df_for_ago_needs_provenance_column_witness :
  fst (prepare_df_for_ago 0%nat (one_table sites))
  = Raise (KeyError (PStrList ["LatLongSource"])).
Proof.
  apply (proj1 (prepare_df_for_ago_needs_provenance_column (one_table sites) 0%nat sites eq_refl)).
  vm_compute. intuition discriminate.
Defined.

Lemma fst_iterrows (table : DataFrame) : map fst (iterrows table) = df_index table.
Proof.
  unfold iterrows. generalize (row_at table). induction (df_index table) as [|x l IH];
    intros f; [reflexivity|].
  cbn. f_equal. apply IH.
Qed.

Lemma sublist_List_filter {A : Type} (q : A -> bool) (l : list A) :
  sublist (List.filter q l) l.
Proof.
  induction l as [|x l IH]; [constructor|].
  cbn. destruct (q x); now constructor.
Qed.

Lemma sublist_map {A C : Type} (f : A -> C) (l1 l2 : list A) :
  sublist l1 l2 -> sublist (map f l1) (map f l2).
Proof. induction 1; cbn; now constructor. Qed.

(** X5.  The table [prepare_df_for_ago] returns is well formed, has the
    dtype of every input column, and its row labels are the labels of the
    retained rows as they were: a sub-sequence of the input index, not a
    fresh numbering. *)
Theorem prepare_df_for_ago_keeps_shape
    (h : heap) (df : nat) (table : DataFrame) (out : nat) (h' : heap) :
  h !! df = Some table ->
  well_formed table ->
  prepare_df_for_ago df h = (Ok out, h') ->
  exists table',
    h' !! out = Some table' /\
    well_formed table' /\
    map (fun c => s_dtype (snd c)) (df_cols table')
      = map (fun c => s_dtype (snd c)) (df_cols table) /\
    sublist (df_index table') (df_index table).
Proof.
  intros Hdf Hwf Hrun.
  assert (Hin : In "LatLongSource" (map clean_name (columns table))).
  { destruct (in_dec string_dec "LatLongSource" (map clean_name (columns table)))
      as [Hin|Hnot]; [exact Hin|].
    apply (prepare_df_for_ago_without_column h df table Hdf) in Hnot.
    rewrite Hrun in Hnot. discriminate. }
  destruct (prepare_df_for_ago_ok h df table Hdf Hin)
    as (out0 & h0 & table' & Hrun0 & Hdrop & Hout & _ & _).
  rewrite Hrun in Hrun0. injection Hrun0 as <- <-.
  exists table'. split; [exact Hout|].
  destruct (dropna_provenance_rows (with_clean_names table))
    as (out' & Hdrop' & _ & Hwf' & Hrows).
  { now apply well_formed_with_clean_names. }
  { now rewrite columns_with_clean_names. }
  rewrite Hdrop in Hdrop'. injection Hdrop' as <-.
  split; [exact Hwf'|]. split.
  - unfold dropna_frame in Hdrop. destruct (List.filter _ _); [|discriminate].
    injection Hdrop as <-. unfold take_rows, with_clean_names. cbn [df_cols].
    rewrite !map_map. reflexivity.
  - rewrite <- (fst_iterrows table'), Hrows.
    change (df_index table) with (df_index (with_clean_names table)).
    rewrite <- (fst_iterrows (with_clean_names table)).
    apply sublist_map. apply sublist_List_filter.
Qed.

Lemma prepare_df_for_ago_keeps_shape_witness :
  exists table',
    snd (prepare_df_for_ago 0%nat (one_table survey)) !! 2%nat = Some table' /\
    well_formed table' /\
    map (fun c => s_dtype (snd c)) (df_cols table')
      = map (fun c => s_dtype (snd c)) (df_cols survey) /\
    sublist (df_index table') (df_index survey).
Proof.
  apply (prepare_df_for_ago_keeps_shape (one_table survey) 0%nat survey 2%nat).
  - reflexivity.
  - unfold well_formed, survey. cbn. repeat constructor.
  - vm_compute. reflexivity.
Defined.

(** ** More on the geometry builder *)

Lemma getitem_absent (df : DataFrame) (label : string) :
  ~ In label (columns df) -> getitem df label = Raise (KeyError (PStr label)).
Proof.
  intros Hnot. unfold getitem.
  now rewrite (filter_has_label_not_in label (df_cols df) Hnot).
Qed.

Lemma getitem_present (df : DataFrame) (label : string) :
  In label (columns df) -> exists sel, getitem df label = Ok sel.
Proof.
  intros Hin. unfold getitem.
  destruct (List.filter (has_label label) (df_cols df)) as [|c [|c' l]] eqn:E; eauto.
  exfalso. now apply (filter_has_label_nil label (df_cols df) E).
Qed.

Section GeometryBuilderMore.
Context `{PyLib}.

(** X6.  A missing column is a [KeyError] naming it, the longitude column
    being looked up first: without the longitude label the error names
    [lon_col] whatever [lat_col] is, and with it but without the latitude
    label the error names [lat_col]. *)
Theorem df_to_gdf_missing_column
    (df : DataFrame) (lat_col lon_col : string) (crs : Z) :
  (~ In lon_col (columns df) ->
   df_to_gdf df lat_col lon_col crs = Raise (KeyError (PStr lon_col))) /\
  (In lon_col (columns df) -> ~ In lat_col (columns df) ->
   df_to_gdf df lat_col lon_col crs = Raise (KeyError (PStr lat_col))).
Proof.
  split.
  - intros Hlon. unfold df_to_gdf, mbind, result_bind.
    now rewrite (getitem_absent df lon_col Hlon).
  - intros Hlon Hlat. unfold df_to_gdf, mbind, result_bind.
    destruct (getitem_present df lon_col Hlon) as [sel ->].
    now rewrite (getitem_absent df lat_col Hlat).
Qed.

(** X7.  One coordinate that [Point] cannot take makes the whole call
    raise: no geo-frame is returned for the other rows. *)
Theorem df_to_gdf_aborts_on_bad_coordinate
    (df : DataFrame) (lat_col lon_col : string) (crs : Z) (lon lat : Series)
    (i : nat) (a b : value) (e : exn) :
  getitem df lon_col = Ok (Column lon) ->
  getitem df lat_col = Ok (Column lat) ->
  s_values lon !! i = Some a ->
  s_values lat !! i = Some b ->
  Point (a, b) = Raise e ->
  exists e', df_to_gdf df lat_col lon_col crs = Raise e'.
Proof.
  intros Hlon Hlat Ha Hb Hpoint.
  unfold df_to_gdf, mbind, result_bind. rewrite Hlon, Hlat. cbn [py_iter].
  destruct (comprehension_fails Point (combine (s_values lon) (s_values lat)) i (a, b) e)
    as [e' ->]; [|exact Hpoint|eauto].
  apply lookup_zip_with_Some. eauto.
Qed.

(** X8.  On a well-formed table with distinct labels, none of them
    geometry, the frame returned keeps the row labels and the columns in
    their order, has the geometry column appended last, is well formed,
    and records the CRS code given. *)
Theorem df_to_gdf_keeps_shape
    (df : DataFrame) (lat_col lon_col : string) (crs : Z) (gdf : GeoDataFrame) :
  NoDup (columns df) ->
  well_formed df ->
  ~ In "geometry" (columns df) ->
  df_to_gdf df lat_col lon_col crs = Ok gdf ->
  df_index (gdf_frame gdf) = df_index df /\
  columns (gdf_frame gdf) = columns df ++ ["geometry"] /\
  well_formed (gdf_frame gdf) /\
  gdf_crs gdf = Some crs.
Proof.
  intros Hnd Hwf Hgeo Hrun.
  destruct (df_to_gdf_frame df lat_col lon_col crs gdf Hnd Hrun)
    as (_ & _ & geometry & _ & _ & _ & Hlen & Hcrs & _ & Hframe).
  assert (Hex : existsb (has_label "geometry") (df_cols df) = false).
  { apply not_true_is_false. intros Hex. apply Hgeo.
    apply existsb_exists in Hex. destruct Hex as [c [Hc Hl]].
    unfold columns. apply in_map_iff. exists c. split; [|exact Hc].
    unfold has_label in Hl. now apply String.eqb_eq in Hl. }
  unfold setitem in Hframe. cbn [df_cols df_index] in Hframe. rewrite Hex in Hframe.
  rewrite Hframe. cbn [df_index]. split; [reflexivity|].
  split; [|split; [|exact Hcrs]].
  - unfold columns. cbn [df_cols]. rewrite map_map. cbn [fst].
    now rewrite map_app.
  - unfold well_formed, nrows. cbn [df_cols df_index].
    apply Forall_map. apply Forall_app. split.
    + eapply Forall_impl; [exact Hwf|]. intros [name [dt vs]] Hc.
      unfold nrows in Hc. cbn [fst snd s_values] in *.
      unfold as_text, astype_str.
      destruct dt; cbn [is_datetime64_any_dtype s_values]; try exact Hc.
      now rewrite length_map, length_datetime_astype_str.
    + constructor; [|constructor]. cbn. exact Hlen.
Qed.

End GeometryBuilderMore.

Lemma df_to_gdf_aborts_on_bad_coordinate_witness :
  exists e', @df_to_gdf ref_lib no_longitude "Lat" "Lon" default_crs = Raise e'.
Proof.
  apply (@df_to_gdf_aborts_on_bad_coordinate ref_lib no_longitude "Lat" "Lon" default_crs
           {| s_dtype := Object; s_values := [VNone] |}
           {| s_dtype := Object; s_values := [VFloat (flt 193 (-2))] |}
           0%nat VNone (VFloat (flt 193 (-2))) TypeError); reflexivity.
Defined.

Lemma df_to_gdf_missing_column_witness :
  @df_to_gdf ref_lib visits "Lat" "Long" default_crs = Raise (KeyError (PStr "Long")).
Proof.
  apply (proj1 (@df_to_gdf_missing_column ref_lib visits "Lat" "Long" default_crs)).
  vm_compute. intuition discriminate.
Defined.

Lemma df_to_gdf_keeps_shape_witness :
  exists gdf,
    @df_to_gdf ref_lib visits "Lat" "Lon" default_crs = Ok gdf /\
    columns (gdf_frame gdf) = columns visits ++ ["geometry"] /\
    well_formed (gdf_frame gdf).
Proof.
  eexists. split; [vm_compute; reflexivity|].
  refine (let H := @df_to_gdf_keeps_shape ref_lib visits "Lat" "Lon" default_crs _
                     visits_distinct_labels _ _ eq_refl in
          conj (proj1 (proj2 H)) (proj1 (proj2 (proj2 H)))).
  - unfold well_formed, visits. cbn. repeat constructor.
  - vm_compute. intuition discriminate.
Defined.

(** ** More on the feature uploader *)

Lemma filter_key_absent {A : Type} (k : string) (l : list (string * A)) :
  ~ In k (map fst l) -> List.filter (fun c => String.eqb (fst c) k) l = [].
Proof.
  induction l as [|[name v] l IH]; [reflexivity|].
  cbn. intros Hnot. destruct (String.eqb name k) eqn:E.
  - apply String.eqb_eq in E. tauto.
  - apply IH. tauto.
Qed.

Lemma filter_key_unique {A : Type} (k : string) (v : A) (l : list (string * A)) :
  NoDup (map fst l) -> In (k, v) l ->
  List.filter (fun c => String.eqb (fst c) k) l = [(k, v)].
Proof.
  induction l as [|[name v0] l IH]; [intros _ []|].
  cbn. intros Hnd Hin. apply NoDup_cons in Hnd. destruct Hnd as [Hfresh Hnd].
  rewrite list_elem_of_In in Hfresh. destruct Hin as [[= -> ->]|Hin].
  - rewrite String.eqb_refl. f_equal. now apply filter_key_absent.
  - destruct (String.eqb name k) eqn:E.
    + apply String.eqb_eq in E. subst. exfalso. apply Hfresh.
      apply in_map_iff. now exists (k, v).
    + now apply IH.
Qed.

Lemma dict_set_fresh (k : string) (v : value) (d : list (string * value)) :
  ~ In k (map fst d) -> dict_set k v d = d ++ [(k, v)].
Proof.
  induction d as [|[name old] d IH]; [reflexivity|].
  cbn. intros Hnot. destruct (String.eqb name k) eqn:E.
  - apply String.eqb_eq in E. tauto.
  - f_equal. apply IH. tauto.
Qed.

Lemma fst_row_at (df : DataFrame) (i : nat) : map fst (row_at df i) = columns df.
Proof. unfold row_at, columns. rewrite map_map. reflexivity. Qed.

Lemma row_getitem_scalar_in (row : Row) (label : string) (v : value) :
  row_getitem row label = Ok (Scalar v) -> In (label, v) row.
Proof.
  unfold row_getitem.
  destruct (List.filter _ row) as [|[name v0] [|c' l]] eqn:E; try discriminate.
  intros [= <-].
  assert (Hc : In (name, v0) (List.filter (fun cell => String.eqb (fst cell) label) row))
    by (rewrite E; now left).
  apply filter_In in Hc. destruct Hc as [Hc Hl]. cbn in Hl.
  apply String.eqb_eq in Hl. now subst.
Qed.

Lemma in_iterrows (df : DataFrame) (r : Z * Row) :
  In r (iterrows df) -> exists i, snd r = row_at df i.
Proof.
  rewrite iterrows_seq. intros Hr. apply in_map_iff in Hr.
  destruct Hr as [i [<- _]]. now exists i.
Qed.

Section UploaderMore.
Context `{PyLib}.
Variable B : Type.
Variable handle : request -> B -> outcome * B.

Lemma attribute_value_scalar (v : value) :
  attribute_value (Scalar v) = Ok (stored_value v).
Proof. unfold attribute_value, stored_value. now destruct (is_datetime v), (isna v). Qed.

Lemma build_attributes_distinct (pre suf : Row) :
  NoDup (map fst (pre ++ suf)) ->
  build_attributes (map fst suf) (pre ++ suf)
    (map (fun cell => (fst cell, stored_value (snd cell))) pre)
  = Ok (map (fun cell => (fst cell, stored_value (snd cell))) (pre ++ suf)).
Proof.
  revert pre. induction suf as [|[k v] suf IH]; intros pre Hnd.
  - cbn. now rewrite app_nil_r.
  - cbn [map fst build_attributes]. unfold mbind, result_bind.
    unfold row_getitem.
    rewrite (filter_key_unique k v (pre ++ (k, v) :: suf) Hnd)
      by (apply in_or_app; right; now left).
    cbn [snd]. rewrite attribute_value_scalar.
    rewrite dict_set_fresh.
    + specialize (IH (pre ++ [(k, v)])).
      rewrite <- app_assoc in IH. cbn [app] in IH.
      replace (map (fun cell => (fst cell, stored_value (snd cell))) pre
               ++ [(k, stored_value v)])
        with (map (fun cell : string * value => (fst cell, stored_value (snd cell)))
                (pre ++ [(k, v)]))
        by (now rewrite map_app).
      apply IH. exact Hnd.
    + rewrite map_map. cbn [fst]. intros Hk.
      rewrite map_app in Hnd. apply NoDup_app in Hnd. destruct Hnd as (_ & Hdisj & _).
      apply (Hdisj k); apply list_elem_of_In; [exact Hk|]. cbn. now left.
Qed.

Lemma row_float_cell (row : Row) (label : string) (x : spec_float) :
  row_float row label = Ok x -> exists a, In (label, a) row /\ py_float a = Ok x.
Proof.
  unfold row_float, mbind, result_bind.
  destruct (row_getitem row label) as [[a|vs]|e] eqn:Hsel; try discriminate.
  intros Ha. exists a. split; [now apply row_getitem_scalar_in|exact Ha].
Qed.

Lemma build_feature_attributes
    (df : DataFrame) (latcol longcol : string) (i : nat) (f : Feature) :
  NoDup (columns df) ->
  build_feature (columns df) latcol longcol (row_at df i) = Ok f ->
  attributes f = map (fun cell => (fst cell, stored_value (snd cell))) (row_at df i).
Proof.
  intros Hnd Hbuild. unfold build_feature, mbind, result_bind in Hbuild.
  pose proof (build_attributes_distinct [] (row_at df i)) as Hattrs.
  cbn [app map] in Hattrs. rewrite fst_row_at in Hattrs.
  rewrite Hattrs in Hbuild by exact Hnd.
  destruct (row_float (row_at df i) longcol); [|discriminate].
  destruct (row_float (row_at df i) latcol); [|discriminate].
  now injection Hbuild as <-.
Qed.

(** X9.  For a table with distinct labels, a feature that is built has one
    attribute per column, in column order and under the column's label,
    holding the cell in its stored form (timestamps as ISO text, missing
    values as [None]); its x and y are [float] of the row's longitude and
    latitude cells. *)
Theorem build_feature_contents
    (df : DataFrame) (latcol longcol : string) (i : nat) (f : Feature) :
  NoDup (columns df) ->
  build_feature (columns df) latcol longcol (row_at df i) = Ok f ->
  attributes f = map (fun cell => (fst cell, stored_value (snd cell))) (row_at df i) /\
  map fst (attributes f) = columns df /\
  exists a b,
    In (longcol, a) (row_at df i) /\ In (latcol, b) (row_at df i) /\
    py_float a = Ok (geometry_x f) /\ py_float b = Ok (geometry_y f).
Proof.
  intros Hnd Hbuild. unfold build_feature, mbind, result_bind in Hbuild.
  pose proof (build_attributes_distinct [] (row_at df i)) as Hattrs.
  cbn [app map] in Hattrs. rewrite fst_row_at in Hattrs.
  rewrite Hattrs in Hbuild by exact Hnd.
  destruct (row_float (row_at df i) longcol) as [x|] eqn:Hx; [|discriminate].
  destruct (row_float (row_at df i) latcol) as [y|] eqn:Hy; [|discriminate].
  injection Hbuild as <-. cbn [attributes geometry_x geometry_y].
  split; [reflexivity|]. split; [rewrite map_map; cbn [fst]; apply fst_row_at|].
  destruct (row_float_cell _ _ _ Hx) as (a & Ha & Hfa).
  destruct (row_float_cell _ _ _ Hy) as (b & Hb & Hfb).
  now exists a, b.
Qed.

(** X10.  A table without rows is answered with the empty list: nothing is
    sent, and the only record logged is that there is nothing to add. *)
Theorem add_features_empty_table
    (token service_url : string) (df : DataFrame) (latcol longcol : string)
    (w : world B) :
  df_index df = [] ->
  add_features B handle token service_url df latcol longcol w =
  (Ok (JArr []),
   {| backend := backend w; sent := sent w;
      logged := logged w ++ [(ERROR, [Lit "No valid features to add"])] |}).
Proof.
  intros Hempty. rewrite add_features_run. cbn zeta.
  unfold row_outcomes, iterrows. rewrite Hempty. cbn. now rewrite app_nil_r.
Qed.

Lemma all_failed (outcomes : list (Z * result Feature)) :
  Forall (fun o => exists e, snd o = Raise e) outcomes ->
  successes outcomes = [] /\ length (failures outcomes) = length outcomes.
Proof.
  unfold successes, failures.
  induction 1 as [|[index r] l [e He] _ [IH1 IH2]]; [now split|].
  cbn in He. subst r. cbn. rewrite IH1, IH2. now split.
Qed.

(** X11.  When the latitude or the longitude label is not a column, every
    row fails and is logged, nothing is sent, and the empty list is
    returned. *)
Theorem add_features_missing_column
    (token service_url : string) (df : DataFrame) (latcol longcol : string)
    (w : world B) :
  ~ In latcol (columns df) \/ ~ In longcol (columns df) ->
  let errors := failures (row_outcomes df latcol longcol) in
  length errors = nrows df /\
  add_features B handle token service_url df latcol longcol w =
  (Ok (JArr []),
   {| backend := backend w; sent := sent w;
      logged := logged w ++ map (fun f => row_error (fst f) (snd f)) errors
                  ++ [(ERROR, [Lit "No valid features to add"])] |}).
Proof.
  intros Hmissing. cbn zeta.
  assert (Hget : forall i label, ~ In label (columns df) ->
            row_float (row_at df i) label = Raise (KeyError (PStr label))).
  { intros i label Hnot. unfold row_float, row_getitem, mbind, result_bind.
    rewrite filter_key_absent; [reflexivity|]. now rewrite fst_row_at. }
  assert (Hall : Forall (fun o => exists e, snd o = Raise e) (row_outcomes df latcol longcol)).
  { unfold row_outcomes. apply List.Forall_forall. intros o Ho.
    apply in_map_iff in Ho. destruct Ho as [r [<- Hr]].
    destruct (in_iterrows df r Hr) as [i ->]. cbn [snd].
    unfold build_feature, mbind, result_bind.
    destruct (build_attributes _ _ _); [|eauto].
    destruct Hmissing as [Hlat|Hlon].
    - destruct (row_float (row_at df i) longcol); [|eauto].
      rewrite (Hget i latcol Hlat). eauto.
    - rewrite (Hget i longcol Hlon). eauto. }
  destruct (all_failed _ Hall) as [Hnone Hcount].
  split; [now rewrite Hcount, length_row_outcomes|].
  rewrite add_features_run. cbn zeta. rewrite Hnone. cbn [backend sent logged].
  now rewrite <- app_assoc.
Qed.

(** X12.  When the batch has been sent and the answer is a JSON object
    without addResults, the empty list is returned and the answer is
    logged as an error; nothing is raised. *)
Theorem add_features_without_addResults
    (token service_url : string) (df : DataFrame) (latcol longcol : string)
    (w : world B) (dumped : json) (r : Response) (b' : B) (members : gmap string json) :
  successes (row_outcomes df latcol longcol) <> [] ->
  dumps_features (successes (row_outcomes df latcol longcol)) = Ok dumped ->
  handle (add_features_request token service_url dumped) (backend w) = (Answered r, b') ->
  raise_for_status r = Ok tt ->
  body r = Some (JObj members) ->
  members !! "addResults" = None ->
  exists w',
    add_features B handle token service_url df latcol longcol w = (Ok (JArr []), w') /\
    sent w' = sent w ++ [add_features_request token service_url dumped] /\
    last (logged w') =
      Some (ERROR, [Lit "Error adding features: "; Val (PJson (JObj members))]).
Proof.
  intros Hne Hdumped Hpost Hstatus Hbody Hnone.
  rewrite add_features_run. cbn zeta.
  destruct (successes (row_outcomes df latcol longcol)) as [|f fs]; [now destruct Hne|].
  rewrite Hdumped, Hpost. unfold transport_failure, decode_json.
  rewrite Hstatus, Hbody. cbn [py_in]. rewrite Hnone.
  rewrite bool_decide_eq_false_2 by (intros [? [=]]).
  eexists. split; [reflexivity|]. cbn [sent logged]. split; [reflexivity|].
  apply last_snoc.
Qed.

End UploaderMore.

Lemma build_feature_contents_witness :
  exists f,
    @build_feature ref_lib (columns visits) "Lat" "Lon" (row_at visits 0) = Ok f /\
    map fst (attributes f) = columns visits /\
    In ("Visited", VStr "2023-05-01T00:00:00") (attributes f).
Proof.
  destruct (@build_feature ref_lib (columns visits) "Lat" "Lon" (row_at visits 0))
    as [f|e] eqn:Hf; [|vm_compute in Hf; discriminate].
  exists f. split; [reflexivity|].
  destruct (@build_feature_contents ref_lib visits "Lat" "Lon" 0%nat f
              visits_distinct_labels Hf) as (Hattrs & Hkeys & _).
  split; [exact Hkeys|]. rewrite Hattrs. vm_compute. tauto.
Defined.

Lemma add_features_empty_table_witness :
  @add_features ref_lib unit (always (added 200)) "token" layer_url no_rows "Lat" "Lon" (start tt)
  = (Ok (JArr []),
     {| backend := tt; sent := [];
        logged := [(ERROR, [Lit "No valid features to add"])] |}).
Proof.
  apply (@add_features_empty_table ref_lib unit (always (added 200))
           "token" layer_url no_rows "Lat" "Lon" (start tt)).
  reflexivity.
Defined.

Lemma add_features_missing_column_witness :
  length (failures (@row_outcomes ref_lib sites "Latitude" "Lon")) = nrows sites /\
  fst (@add_features ref_lib unit (always (added 200))
         "token" layer_url sites "Latitude" "Lon" (start tt)) = Ok (JArr []).
Proof.
  destruct (@add_features_missing_column ref_lib unit (always (added 200))
              "token" layer_url sites "Latitude" "Lon" (start tt)) as [Hcount Hrun].
  - left. vm_compute. intuition discriminate.
  - split; [exact Hcount|]. now rewrite Hrun.
Defined.

Lemma add_features_without_addResults_witness :
  exists w',
    @add_features ref_lib unit (always (Answered refusal))
      "token" layer_url sites "Lat" "Lon" (start tt) = (Ok (JArr []), w') /\
    last (logged w') =
      Some (ERROR, [Lit "Error adding features: ";
                    Val (PJson (obj [("error", obj [("code", JInt 400)])]))]).
Proof.
  destruct (dumps_features (successes (@row_outcomes ref_lib sites "Lat" "Lon")))
    as [dumped|e] eqn:Hdumped; [|vm_compute in Hdumped; discriminate].
  destruct (@add_features_without_addResults ref_lib unit (always (Answered refusal))
              "token" layer_url sites "Lat" "Lon" (start tt) dumped refusal tt
              (list_to_map [("error", obj [("code", JInt 400)])]))
    as (w' & Hrun & _ & Hlog).
  - vm_compute. discriminate.
  - exact Hdumped.
  - reflexivity.
  - reflexivity.
  - reflexivity.
  - vm_compute. reflexivity.
  - exists w'. split; [exact Hrun|exact Hlog].
Defined.

Section UploaderSerialisation.
Context `{PyLib}.

Lemma stored_value_dumps (v : value) :
  (forall x y, v <> VPoint x y) -> exists j, dumps_value (stored_value v) = Ok j.
Proof.
  intros Hv. unfold stored_value.
  destruct v as [| |f|s|t|x y]; cbn; eauto.
  - destruct f; cbn; eauto.
  - now destruct (Hv x y).
Qed.

Lemma dict_set_Forall (P : string * value -> Prop) (k : string) (v : value)
    (d : list (string * value)) :
  P (k, v) -> Forall P d -> Forall P (dict_set k v d).
Proof.
  intros Hv. induction 1 as [|[name old] d Hold Hd IH]; cbn.
  - now repeat constructor.
  - destruct (String.eqb name k) eqn:E.
    + apply String.eqb_eq in E. subst. now constructor.
    + now constructor.
Qed.

Lemma build_attributes_dumps (cols : list string) (row : Row)
    (acc attrs : list (string * value)) :
  (forall cell, In cell row -> forall x y, snd cell <> VPoint x y) ->
  Forall (fun kv => exists j, dumps_value (snd kv) = Ok j) acc ->
  build_attributes cols row acc = Ok attrs ->
  Forall (fun kv => exists j, dumps_value (snd kv) = Ok j) attrs.
Proof.
  intros Hrow. revert acc. induction cols as [|col cols IH]; intros acc Hacc Hbuild.
  - cbn in Hbuild. now injection Hbuild as <-.
  - cbn in Hbuild. unfold mbind, result_bind in Hbuild.
    destruct (row_getitem row col) as [[v|vs]|e] eqn:Hsel; try discriminate.
    rewrite attribute_value_scalar in Hbuild.
    apply (IH (dict_set col (stored_value v) acc)); [|exact Hbuild].
    apply dict_set_Forall; [|exact Hacc]. cbn.
    apply stored_value_dumps.
    apply (Hrow (col, v)). now apply row_getitem_scalar_in.
Qed.

(** X13.  On a table that holds no geometry object, [json.dumps] accepts
    the batch whatever rows succeeded: timestamps and missing values have
    been replaced while the attributes were built. *)
Theorem add_features_batch_is_serialisable
    (df : DataFrame) (latcol longcol : string) :
  (forall c v, In c (df_cols df) -> In v (s_values (snd c)) ->
               forall x y, v <> VPoint x y) ->
  exists dumped,
    dumps_features (successes (row_outcomes df latcol longcol)) = Ok dumped.
Proof.
  intros Hplain.
  assert (Hcells : forall i cell, In cell (row_at df i) ->
                                  forall x y, snd cell <> VPoint x y).
  { intros i cell Hcell x y. unfold row_at in Hcell. apply in_map_iff in Hcell.
    destruct Hcell as [c [<- Hc]]. cbn [snd].
    rewrite list_lookup_total_alt.
    destruct (s_values (snd c) !! i) as [v|] eqn:Hv; cbn; [|discriminate].
    apply (Hplain c v Hc). apply list_elem_of_In. eapply list_elem_of_lookup_2. exact Hv. }
  assert (Hfeatures : Forall (fun f => exists j, dumps_feature f = Ok j)
                        (successes (row_outcomes df latcol longcol))).
  { unfold successes, row_outcomes. apply List.Forall_forall. intros f Hf.
    apply list_elem_of_In in Hf. apply list_elem_of_omap in Hf.
    destruct Hf as [[index r] [Ho Hr]]. cbn [snd] in Hr.
    destruct r as [f'|]; [|discriminate]. injection Hr as ->.
    apply list_elem_of_In in Ho. apply in_map_iff in Ho.
    destruct Ho as [row [[= _ Hbuild] Hrow]].
    destruct (in_iterrows df row Hrow) as [i Hi]. rewrite Hi in Hbuild.
    unfold build_feature, mbind, result_bind in Hbuild.
    destruct (build_attributes _ _ _) as [attrs|] eqn:Hattrs; [|discriminate].
    destruct (row_float _ longcol); [|discriminate].
    destruct (row_float _ latcol); [|discriminate].
    injection Hbuild as <-.
    pose proof (build_attributes_dumps _ _ _ _ (Hcells i) (List.Forall_nil _) Hattrs) as Hdumps.
    unfold dumps_feature. cbn [attributes geometry_x geometry_y].
    destruct (comprehension_total
                (fun kv => j ← dumps_value (snd kv); Ok (fst kv, j)) attrs)
      as [docs [Hdocs _]].
    - eapply Forall_impl; [exact Hdumps|]. intros kv [j Hj].
      unfold mbind, result_bind. rewrite Hj. eauto.
    - rewrite Hdocs. cbn. eauto. }
  destruct (comprehension_total dumps_feature _ Hfeatures) as [docs [Hdocs _]].
  unfold dumps_features, mbind, result_bind. rewrite Hdocs. eauto.
Qed.

End UploaderSerialisation.

Lemma add_features_batch_is_serialisable_witness :
  exists dumped,
    dumps_features (successes (@row_outcomes ref_lib visits "Lat" "Lon")) = Ok dumped.
Proof.
  apply (@add_features_batch_is_serialisable ref_lib visits "Lat" "Lon").
  cbn. intros c v Hc Hv x y.
  repeat (destruct Hc as [<-|Hc]; [cbn in Hv; destruct Hv as [<-|[]]; discriminate|]).
  destruct Hc.
Defined.

(** ** The token client *)

Lemma raise_for_status_raise (r : Response) (e : exn) :
  raise_for_status r = Raise e -> e = HTTPError (status_code r).
Proof. unfold raise_for_status. destruct (_ && _); intros [=]; now subst. Qed.

(** The [RequestException] of a POST that found no connection or was
    answered with a 4xx or 5xx status. *)
Lemma post_failure_is_RequestException (out : outcome) (e : exn) :
  (out = Failed /\ e = ConnectionError) \/
  (exists r, out = Answered r /\ raise_for_status r = Raise e) ->
  is_RequestException e = true.
Proof.
  intros [[_ ->]|[r [_ Hr]]]; [reflexivity|].
  now rewrite (raise_for_status_raise r e Hr).
Qed.

Section TokenClient.
Variable B : Type.
Variable handle : request -> B -> outcome * B.

(** X14.  When the token POST finds no connection or is answered with a 4xx
    or 5xx status, [get_ago_token] logs one error record naming the
    exception and raises that same exception; the success record is not
    logged. *)
Theorem get_ago_token_reraises
    (TOKEN_URL HOST USERNAME PASSWORD : string) (w : world B)
    (out : outcome) (b' : B) (e : exn) :
  handle (token_request TOKEN_URL HOST USERNAME PASSWORD) (backend w) = (out, b') ->
  (out = Failed /\ e = ConnectionError) \/
  (exists r, out = Answered r /\ raise_for_status r = Raise e) ->
  get_ago_token B handle TOKEN_URL HOST USERNAME PASSWORD w =
  (Raise e,
   {| backend := b';
      sent := sent w ++ [token_request TOKEN_URL HOST USERNAME PASSWORD];
      logged := logged w ++
        [(ERROR, [Lit "...failed to obtain access token: "; Val (PExn e)])] |}).
Proof.
  intros Hpost Hfail.
  pose proof (post_failure_is_RequestException out e Hfail) as Hreq.
  unfold get_ago_token, try_except_RequestException.
  unfold mbind, M_bind, requests_post, lift, logging, mret, M_ret.
  rewrite Hpost. destruct Hfail as [[-> ->]|[r [-> Hr]]].
  - reflexivity.
  - rewrite Hr, Hreq. reflexivity.
Qed.

(** X15.  When the token POST is answered with another status and a JSON
    object, [get_ago_token] logs success and returns the token member of
    the object, [None] when there is none: an answer without a token is
    not an error here. *)
Theorem get_ago_token_returns_token_member
    (TOKEN_URL HOST USERNAME PASSWORD : string) (w : world B)
    (r : Response) (b' : B) (members : gmap string json) :
  handle (token_request TOKEN_URL HOST USERNAME PASSWORD) (backend w) = (Answered r, b') ->
  raise_for_status r = Ok tt ->
  body r = Some (JObj members) ->
  get_ago_token B handle TOKEN_URL HOST USERNAME PASSWORD w =
  (Ok (default JNull (members !! "token")),
   {| backend := b';
      sent := sent w ++ [token_request TOKEN_URL HOST USERNAME PASSWORD];
      logged := logged w ++
        [(INFO, [Lit "...successfully obtained AGO access token."])] |}).
Proof.
  intros Hpost Hstatus Hbody.
  unfold get_ago_token, try_except_RequestException.
  unfold mbind, M_bind, requests_post, lift, logging, mret, M_ret, decode_json.
  rewrite Hpost, Hstatus, Hbody. reflexivity.
Qed.

End TokenClient.

Lemma get_ago_token_reraises_witness :
  fst (get_ago_token unit (always Failed) "https://www.arcgis.com/sharing/rest/generateToken"
         "https://www.arcgis.com" "user" "secret" (start tt))
  = Raise ConnectionError.
Proof.
  rewrite (get_ago_token_reraises unit (always Failed)
             "https://www.arcgis.com/sharing/rest/generateToken"
             "https://www.arcgis.com" "user" "secret" (start tt) Failed tt ConnectionError).
  - reflexivity.
  - reflexivity.
  - left. split; reflexivity.
Defined.

Lemma get_ago_token_returns_token_member_witness :
  fst (get_ago_token unit (always (Answered refusal))
         "https://www.arcgis.com/sharing/rest/generateToken"
         "https://www.arcgis.com" "user" "wrong" (start tt))
  = Ok JNull /\
  fst (get_ago_token unit (always (token_answer "abc"))
         "https://www.arcgis.com/sharing/rest/generateToken"
         "https://www.arcgis.com" "user" "secret" (start tt))
  = Ok (JStr "abc").
Proof.
  split.
  - rewrite (get_ago_token_returns_token_member unit (always (Answered refusal))
               "https://www.arcgis.com/sharing/rest/generateToken"
               "https://www.arcgis.com" "user" "wrong" (start tt) refusal tt
               (list_to_map [("error", obj [("code", JInt 400)])]));
      [vm_compute; reflexivity|reflexivity|reflexivity|reflexivity].
  - rewrite (get_ago_token_returns_token_member unit (always (token_answer "abc"))
               "https://www.arcgis.com/sharing/rest/generateToken"
               "https://www.arcgis.com" "user" "secret" (start tt)
               {| status_code := 200; body := Some (obj [("token", JStr "abc")]) |} tt
               (list_to_map [("token", JStr "abc")]));
      [vm_compute; reflexivity|reflexivity|reflexivity|reflexivity].
Defined.

(** ** More on the folder resolver *)

Section ResolverFailures.
Variable B : Type.
Variable handle : request -> B -> outcome * B.

(** X16.  When the listing POST finds no connection or is answered with a
    4xx or 5xx status, [get_ago_folderID] logs the error and raises it
    again; the creation POST is not sent. *)
Theorem get_ago_folderID_listing_fails
    (token username folder_name : string) (w : world B)
    (out : outcome) (b' : B) (e : exn) :
  handle (list_folders_request token username) (backend w) = (out, b') ->
  (out = Failed /\ e = ConnectionError) \/
  (exists r, out = Answered r /\ raise_for_status r = Raise e) ->
  get_ago_folderID B handle token username folder_name w =
  (Raise e,
   {| backend := b';
      sent := sent w ++ [list_folders_request token username];
      logged := logged w ++
        [(ERROR, [Lit "...failed to create or get folder: "; Val (PExn e)])] |}).
Proof.
  intros Hpost Hfail.
  pose proof (post_failure_is_RequestException out e Hfail) as Hreq.
  unfold get_ago_folderID, try_except_RequestException.
  unfold mbind at 1. unfold M_bind at 1. unfold requests_post at 1.
  rewrite Hpost. destruct Hfail as [[-> ->]|[r [-> Hr]]].
  - reflexivity.
  - unfold mbind at 1. unfold M_bind at 1. unfold lift at 1.
    rewrite Hr, Hreq. reflexivity.
Qed.

(** After a listing in which no folder has the title, the call goes on
    with the creation POST. *)
Lemma get_ago_folderID_goes_on_to_create
    (token username folder_name : string) (w : world B)
    (r : Response) (b1 : B) (members : gmap string json)
    (folders : list (string * json)) :
  handle (list_folders_request token username) (backend w) = (Answered r, b1) ->
  raise_for_status r = Ok tt ->
  body r = Some (JObj members) ->
  default (JArr []) (members !! "folders") = JArr (map folder_json folders) ->
  List.find (matches folder_name) folders = None ->
  get_ago_folderID B handle token username folder_name w =
  try_except_RequestException B
    (create_response ← requests_post B handle
                         (create_folder_request token username folder_name);
     lift (raise_for_status create_response);;
     logging B INFO [Lit "...folder '"; Val (PStr folder_name);
                     Lit "' created successfully."];;
     created ← lift (decode_json create_response);
     folder ← lift (dict_get created "folder" JNull);
     lift (dict_get folder "id" JNull))
    (fun e =>
       logging B ERROR [Lit "...failed to create or get folder: "; Val (PExn e)];;
       lift (Raise e))
    {| backend := b1;
       sent := sent w ++ [list_folders_request token username];
       logged := logged w |}.
Proof.
  intros Hpost Hstatus Hbody Hfolders Hfind.
  unfold get_ago_folderID, try_except_RequestException.
  unfold mbind at 1 3. unfold M_bind at 1 3. unfold requests_post at 1 3. rewrite Hpost.
  unfold mbind at 1 3. unfold M_bind at 1 3. unfold lift at 1 5. rewrite Hstatus.
  unfold mbind at 1 3. unfold M_bind at 1 3. unfold lift at 1 5.
  unfold decode_json at 1 3. rewrite Hbody.
  unfold mbind at 1 3. unfold M_bind at 1 3. unfold lift at 1 5.
  cbn [dict_get]. rewrite Hfolders.
  unfold mbind at 1 3. unfold M_bind at 1 3. unfold lift at 1 5. cbn [json_iter].
  unfold mbind at 1 3. unfold M_bind at 1 3.
  rewrite scan_folders_listing. cbn [backend sent logged]. rewrite Hfind.
  reflexivity.
Qed.

(** X17.  A listing without a folders member counts as an account without
    folders: the creation POST is sent, and with a proper answer the new
    id is returned. *)
Theorem get_ago_folderID_listing_without_folders
    (token username folder_name : string) (w : world B)
    (r r' : Response) (b1 b2 : B) (members : gmap string json)
    (created folder id : json) :
  handle (list_folders_request token username) (backend w) = (Answered r, b1) ->
  raise_for_status r = Ok tt ->
  body r = Some (JObj members) ->
  members !! "folders" = None ->
  handle (create_folder_request token username folder_name) b1 = (Answered r', b2) ->
  raise_for_status r' = Ok tt ->
  body r' = Some created ->
  dict_get created "folder" JNull = Ok folder ->
  dict_get folder "id" JNull = Ok id ->
  exists w',
    get_ago_folderID B handle token username folder_name w = (Ok id, w') /\
    sent w' = sent w ++ [list_folders_request token username;
                         create_folder_request token username folder_name].
Proof.
  intros Hpost Hstatus Hbody Hnone Hpost' Hstatus' Hbody' Hfolder Hid.
  rewrite (get_ago_folderID_goes_on_to_create token username folder_name w r b1 members []
             Hpost Hstatus Hbody); [|now rewrite Hnone|reflexivity].
  unfold try_except_RequestException.
  unfold mbind, M_bind, requests_post, lift, logging, mret, M_ret, decode_json.
  cbn [backend sent logged]. rewrite Hpost', Hstatus', Hbody', Hfolder, Hid.
  eexists. split; [reflexivity|]. cbn [sent]. now rewrite <- app_assoc.
Qed.

(** X18.  When no listed folder has the title and the creation POST finds
    no connection or is answered with a 4xx or 5xx status, the error is
    logged and raised again, both POSTs having been sent; the record that
    the folder was created is not logged. *)
Theorem get_ago_folderID_creation_fails
    (token username folder_name : string) (w : world B)
    (r : Response) (b1 b2 : B) (folders : list (string * json))
    (out : outcome) (e : exn) :
  handle (list_folders_request token username) (backend w) = (Answered r, b1) ->
  raise_for_status r = Ok tt ->
  body r = Some (listing_json folders) ->
  List.find (matches folder_name) folders = None ->
  handle (create_folder_request token username folder_name) b1 = (out, b2) ->
  (out = Failed /\ e = ConnectionError) \/
  (exists r', out = Answered r' /\ raise_for_status r' = Raise e) ->
  get_ago_folderID B handle token username folder_name w =
  (Raise e,
   {| backend := b2;
      sent := sent w ++ [list_folders_request token username;
                         create_folder_request token username folder_name];
      logged := logged w ++
        [(ERROR, [Lit "...failed to create or get folder: "; Val (PExn e)])] |}).
Proof.
  intros Hpost Hstatus Hbody Hfind Hpost' Hfail.
  pose proof (post_failure_is_RequestException out e Hfail) as Hreq.
  rewrite (get_ago_folderID_goes_on_to_create token username folder_name w r b1
             (list_to_map [("folders", JArr (map folder_json folders))]) folders
             Hpost Hstatus Hbody); [|cbn; now rewrite lookup_insert_eq|exact Hfind].
  unfold try_except_RequestException.
  unfold mbind, M_bind, requests_post, lift, logging, mret, M_ret.
  cbn [backend sent logged]. rewrite Hpost'.
  destruct Hfail as [[-> ->]|[r' [-> Hr]]].
  - cbn. now rewrite <- app_assoc.
  - rewrite Hr, Hreq. cbn. now rewrite <- app_assoc.
Qed.

(** X19.  When no listed folder has the title and the creation POST is
    answered with a JSON object without a folder member (the portal's way
    of refusing), [get_ago_folderID] raises [AttributeError]; the record
    that the folder was created has been logged by then, and no error
    record is. *)
Theorem get_ago_folderID_creation_refused
    (token username folder_name : string) (w : world B)
    (r r' : Response) (b1 b2 : B) (folders : list (string * json))
    (members : gmap string json) :
  handle (list_folders_request token username) (backend w) = (Answered r, b1) ->
  raise_for_status r = Ok tt ->
  body r = Some (listing_json folders) ->
  List.find (matches folder_name) folders = None ->
  handle (create_folder_request token username folder_name) b1 = (Answered r', b2) ->
  raise_for_status r' = Ok tt ->
  body r' = Some (JObj members) ->
  members !! "folder" = None ->
  get_ago_folderID B handle token username folder_name w =
  (Raise AttributeError,
   {| backend := b2;
      sent := sent w ++ [list_folders_request token username;
                         create_folder_request token username folder_name];
      logged := logged w ++
        [(INFO, [Lit "...folder '"; Val (PStr folder_name);
                 Lit "' created successfully."])] |}).
Proof.
  intros Hpost Hstatus Hbody Hfind Hpost' Hstatus' Hbody' Hnone.
  rewrite (get_ago_folderID_goes_on_to_create token username folder_name w r b1
             (list_to_map [("folders", JArr (map folder_json folders))]) folders
             Hpost Hstatus Hbody); [|cbn; now rewrite lookup_insert_eq|exact Hfind].
  unfold try_except_RequestException.
  unfold mbind, M_bind, requests_post, lift, logging, mret, M_ret, decode_json.
  cbn [backend sent logged]. rewrite Hpost', Hstatus', Hbody'.
  cbn [dict_get]. rewrite Hnone. cbn. now rewrite <- app_assoc.
Qed.

End ResolverFailures.

Lemma get_ago_folderID_listing_fails_witness :
  fst (get_ago_folderID unit (always (Answered {| status_code := 403; body := None |}))
         "token" "user" "sites" (start tt))
  = Raise (HTTPError 403).
Proof.
  rewrite (get_ago_folderID_listing_fails unit
             (always (Answered {| status_code := 403; body := None |}))
             "token" "user" "sites" (start tt)
             (Answered {| status_code := 403; body := None |}) tt (HTTPError 403)).
  - reflexivity.
  - reflexivity.
  - right. eexists. split; reflexivity.
Defined.

Lemma get_ago_folderID_listing_without_folders_witness :
  exists w',
    get_ago_folderID unit
      (portal (answered (obj [("username", JStr "user")]))
              (answered (obj [("folder", obj [("id", JStr "f7")])])))
      "token" "user" "sites" (start tt) = (Ok (JStr "f7"), w') /\
    sent w' = [list_folders_request "token" "user";
               create_folder_request "token" "user" "sites"].
Proof.
  apply (get_ago_folderID_listing_without_folders unit
           (portal (answered (obj [("username", JStr "user")]))
                   (answered (obj [("folder", obj [("id", JStr "f7")])])))
           "token" "user" "sites" (start tt)
           {| status_code := 200; body := Some (obj [("username", JStr "user")]) |}
           {| status_code := 200;
              body := Some (obj [("folder", obj [("id", JStr "f7")])]) |}
           tt tt (list_to_map [("username", JStr "user")])
           (obj [("folder", obj [("id", JStr "f7")])])
           (obj [("id", JStr "f7")]) (JStr "f7"));
    reflexivity.
Defined.

Lemma get_ago_folderID_creation_fails_witness :
  fst (get_ago_folderID unit (portal (answered (listing_json [("maps", JStr "f0")])) Failed)
         "token" "user" "sites" (start tt))
  = Raise ConnectionError.
Proof.
  rewrite (get_ago_folderID_creation_fails unit
             (portal (answered (listing_json [("maps", JStr "f0")])) Failed)
             "token" "user" "sites" (start tt)
             {| status_code := 200; body := Some (listing_json [("maps", JStr "f0")]) |}
             tt tt [("maps", JStr "f0")] Failed ConnectionError);
    try reflexivity.
  left. split; reflexivity.
Defined.

Lemma get_ago_folderID_creation_refused_witness :
  fst (get_ago_folderID unit
         (portal (answered (listing_json [("maps", JStr "f0")])) (Answered refusal))
         "token" "user" "sites" (start tt))
  = Raise AttributeError.
Proof.
  rewrite (get_ago_folderID_creation_refused unit
             (portal (answered (listing_json [("maps", JStr "f0")])) (Answered refusal))
             "token" "user" "sites" (start tt)
             {| status_code := 200; body := Some (listing_json [("maps", JStr "f0")]) |}
             refusal tt tt [("maps", JStr "f0")]
             (list_to_map [("error", obj [("code", JInt 400)])]));
    reflexivity.
Defined.

(** ** More on the service provisioner *)

(** X20.  [create_feature_service] has no handler and checks no status: a
    POST that finds no connection raises [ConnectionError], and an answer
    whose body is not JSON raises the decoding error, in both cases with
    nothing logged. *)
Theorem create_feature_service_lets_failures_through
    (B : Type) (handle : request -> B -> outcome * B)
    (token username folder_id service_name : string) (w : world B)
    (out : outcome) (b' : B) :
  handle (create_service_request token username folder_id service_name) (backend w)
    = (out, b') ->
  let w' := {| backend := b';
               sent := sent w ++ [create_service_request token username folder_id service_name];
               logged := logged w |} in
  (out = Failed ->
   create_feature_service B handle token username folder_id service_name w
     = (Raise ConnectionError, w')) /\
  (forall r, out = Answered r -> body r = None ->
   create_feature_service B handle token username folder_id service_name w
     = (Raise JSONDecodeError, w')).
Proof.
  intros Hpost w'. split.
  - intros ->. unfold create_feature_service, mbind, M_bind, requests_post.
    rewrite Hpost. reflexivity.
  - intros r -> Hbody.
    unfold create_feature_service, mbind, M_bind, requests_post, lift, decode_json.
    rewrite Hpost, Hbody. reflexivity.
Qed.

Lemma create_feature_service_lets_failures_through_witness :
  create_feature_service unit (always Failed) "token" "user" "folder" "sites" (start tt)
  = (Raise ConnectionError,
     {| backend := tt;
        sent := [create_service_request "token" "user" "folder" "sites"];
        logged := [] |}).
Proof.
  apply (proj1 (create_feature_service_lets_failures_through unit (always Failed)
                  "token" "user" "folder" "sites" (start tt) Failed tt eq_refl)).
  reflexivity.
Defined.

(** ** The layer definer *)

Section LayerDefiner.
Variable B : Type.
Variable handle : request -> B -> outcome * B.
Variable col_min col_max : selection -> result row_selection.

(** X21.  [add_layer_to_service] reads the extent before it sends
    anything: without the longitude column it raises the [KeyError] naming
    it, and with it (and a minimum taken) but without the latitude column
    the one naming that, leaving nothing sent and nothing logged. *)
Theorem add_layer_to_service_missing_column
    (token admin_url : string) (df : DataFrame) (latcol longcol : string)
    (w : world B) :
  (~ In longcol (columns df) ->
   add_layer_to_service B handle col_min col_max token admin_url df latcol longcol w
     = (Raise (KeyError (PStr longcol)), w)) /\
  (forall sel xmin,
     getitem df longcol = Ok sel -> col_min sel = Ok xmin ->
     ~ In latcol (columns df) ->
     add_layer_to_service B handle col_min col_max token admin_url df latcol longcol w
       = (Raise (KeyError (PStr latcol)), w)).
Proof.
  split.
  - intros Hlon. unfold add_layer_to_service. cbn zeta.
    unfold mbind at 1. unfold M_bind at 1. unfold lift at 1.
    unfold mbind at 1. unfold result_bind at 1.
    now rewrite (getitem_absent df longcol Hlon).
  - intros sel xmin Hsel Hmin Hlat. unfold add_layer_to_service. cbn zeta.
    unfold mbind at 1. unfold M_bind at 1. unfold lift at 1.
    unfold mbind at 1. unfold result_bind at 1. rewrite Hsel, Hmin.
    unfold mbind at 1. unfold M_bind at 1. unfold lift at 1.
    unfold mbind at 1. unfold result_bind at 1.
    now rewrite (getitem_absent df latcol Hlat).
Qed.

(** X22.  With the extent taken and serialised, one POST goes to
    [admin_url]/addToDefinition.  Its definition has one layer, of point
    geometry, with the extent computed and with the fields: first the
    ObjectID field, neither nullable nor editable, then for each column,
    left to right, a nullable and editable string field named after it.
    Answered with a JSON object, the call returns [True] when the
    object's success member is truthy, and raises the exception carrying
    the answer when the member is missing or falsy.  The status of the
    answer plays no part. *)
Theorem add_layer_to_service_checks_success
    (token admin_url : string) (df : DataFrame) (latcol longcol : string)
    (w : world B) (lon lat : selection) (xmin ymin xmax ymax : row_selection)
    (x0 y0 x1 y1 : json) (r : Response) (b' : B) (members : gmap string json) :
  getitem df longcol = Ok lon -> getitem df latcol = Ok lat ->
  col_min lon = Ok xmin -> col_min lat = Ok ymin ->
  col_max lon = Ok xmax -> col_max lat = Ok ymax ->
  dumps_extreme xmin = Ok x0 -> dumps_extreme ymin = Ok y0 ->
  dumps_extreme xmax = Ok x1 -> dumps_extreme ymax = Ok y1 ->
  let req := add_to_definition_request token admin_url
               (layer_definition (layer_fields df) x0 y0 x1 y1) in
  handle req (backend w) = (Answered r, b') ->
  body r = Some (JObj members) ->
  (exists definition layer fields,
     req = {| url := String.append admin_url "/addToDefinition";
              data := [("f", Text "json"); ("token", Text token);
                       ("addToDefinition", Dumps definition)];
              verify := None |} /\
     subscript definition "layers" = Ok (JArr [layer]) /\
     subscript layer "geometryType" = Ok (JStr "esriGeometryPoint") /\
     subscript layer "extent" =
       Ok (obj [("xmin", x0); ("ymin", y0); ("xmax", x1); ("ymax", y1);
                ("spatialReference", obj [("wkid", JInt 4326)])]) /\
     subscript layer "fields" = Ok (JArr fields) /\
     length fields = S (length (columns df)) /\
     fields !! 0%nat =
       Some (obj [("name", JStr "ObjectID"); ("type", JStr "esriFieldTypeOID");
                  ("alias", JStr "ObjectID"); ("sqlType", JStr "sqlTypeOther");
                  ("nullable", JBool false); ("editable", JBool false);
                  ("domain", JNull); ("defaultValue", JNull)]) /\
     forall (i : nat) (col : string),
       columns df !! i = Some col ->
       fields !! S i =
         Some (obj [("name", JStr col); ("type", JStr "esriFieldTypeString");
                    ("alias", JStr col); ("sqlType", JStr "sqlTypeOther");
                    ("nullable", JBool true); ("editable", JBool true);
                    ("domain", JNull); ("defaultValue", JNull)])) /\
  (forall flag,
     members !! "success" = Some flag -> truthy flag = true ->
     add_layer_to_service B handle col_min col_max token admin_url df latcol longcol w
     = (Ok true,
        {| backend := b'; sent := sent w ++ [req];
           logged := logged w ++
             [(INFO, [Lit "...layer added to the feature service successfully"])] |})) /\
  (members !! "success" = None \/
   (exists flag, members !! "success" = Some flag /\ truthy flag = false) ->
   add_layer_to_service B handle col_min col_max token admin_url df latcol longcol w
   = (Raise (Exception_ [Lit "Error adding layer to feature service: ";
                         Val (PJson (JObj members))]),
      {| backend := b'; sent := sent w ++ [req]; logged := logged w |})).
Proof.
  intros Hlon Hlat Hx0 Hy0 Hx1 Hy1 Dx0 Dy0 Dx1 Dy1 req Hpost Hbody.
  assert (Hstart : forall k : json -> M (world B) bool,
            (xmin ← lift (sel ← getitem df longcol; col_min sel);
             ymin ← lift (sel ← getitem df latcol; col_min sel);
             xmax ← lift (sel ← getitem df longcol; col_max sel);
             ymax ← lift (sel ← getitem df latcol; col_max sel);
             definition ← lift (x0 ← dumps_extreme xmin; y0 ← dumps_extreme ymin;
                                x1 ← dumps_extreme xmax; y1 ← dumps_extreme ymax;
                                Ok (layer_definition (layer_fields df) x0 y0 x1 y1));
             response ← requests_post B handle
                          (add_to_definition_request token admin_url definition);
             response_json ← lift (decode_json response);
             k response_json) w =
            k (JObj members)
              {| backend := b'; sent := sent w ++ [req]; logged := logged w |}).
  { intros k. unfold mbind, M_bind, result_bind, lift, requests_post, decode_json.
    rewrite Hlon, Hlat, Hx0, Hy0, Hx1, Hy1, Dx0, Dy0, Dx1, Dy1.
    fold req. rewrite Hpost, Hbody. reflexivity. }
  split; [|split].
  - eexists _, _, (layer_fields df).
    split; [reflexivity|]. split; [vm_compute; reflexivity|].
    split; [vm_compute; reflexivity|]. split; [vm_compute; reflexivity|].
    split; [vm_compute; reflexivity|].
    unfold layer_fields. split; [cbn; now rewrite length_map|].
    split; [reflexivity|].
    intros i col Hcol.
    change ((map column_field (columns df)) !! i = Some (column_field col)).
    revert i Hcol. induction (columns df) as [|c cols IH]; intros [|i] Hcol;
      try discriminate.
    + now injection Hcol as ->.
    + now apply IH.
  - intros flag Hflag Htruthy. unfold add_layer_to_service. cbn zeta.
    rewrite Hstart.
    unfold mbind, M_bind, result_bind, lift, py_in, subscript, logging, mret, M_ret.
    rewrite Hflag. rewrite bool_decide_eq_true_2 by eauto. rewrite Htruthy. reflexivity.
  - intros Hbad. unfold add_layer_to_service. cbn zeta. rewrite Hstart.
    unfold mbind, M_bind, result_bind, lift, py_in, subscript.
    destruct Hbad as [Hnone|[flag [Hflag Hfalsy]]].
    + rewrite Hnone. rewrite bool_decide_eq_false_2 by (intros [? [=]]). reflexivity.
    + rewrite Hflag. rewrite bool_decide_eq_true_2 by eauto. rewrite Hfalsy. reflexivity.
Qed.

End LayerDefiner.

Lemma add_layer_to_service_missing_column_witness :
  add_layer_to_service unit (always layer_added) ref_min ref_max
    "token" layer_url sites "Lat" "Long" (start tt)
  = (Raise (KeyError (PStr "Long")), start tt).
Proof.
  apply (proj1 (add_layer_to_service_missing_column unit (always layer_added) ref_min ref_max
                  "token" layer_url sites "Lat" "Long" (start tt))).
  vm_compute. intuition discriminate.
Defined.

(** The three sites: the call succeeds, and the second field of the
    layer sent is the string field of the first column. *)
Lemma add_layer_to_service_checks_success_witness :
  fst (add_layer_to_service unit (always layer_added) ref_min ref_max
         "token" layer_url sites "Lat" "Lon" (start tt))
  = Ok true /\
  exists definition layer fields,
    sent (snd (add_layer_to_service unit (always layer_added) ref_min ref_max
                 "token" layer_url sites "Lat" "Lon" (start tt)))
    = [{| url := String.append layer_url "/addToDefinition";
          data := [("f", Text "json"); ("token", Text "token");
                   ("addToDefinition", Dumps definition)];
          verify := None |}] /\
    subscript definition "layers" = Ok (JArr [layer]) /\
    subscript layer "fields" = Ok (JArr fields) /\
    length fields = 4%nat /\
    fields !! 1%nat =
      Some (obj [("name", JStr "Name"); ("type", JStr "esriFieldTypeString");
                 ("alias", JStr "Name"); ("sqlType", JStr "sqlTypeOther");
                 ("nullable", JBool true); ("editable", JBool true);
                 ("domain", JNull); ("defaultValue", JNull)]).
Proof.
  destruct (add_layer_to_service_checks_success unit (always layer_added) ref_min ref_max
              "token" layer_url sites "Lat" "Lon" (start tt)
              (Column {| s_dtype := Object;
                         s_values := [VFloat (flt (-247) (-1)); VNone;
                                      VFloat (flt (-491) (-2))] |})
              (Column {| s_dtype := Float64;
                         s_values := [VFloat (flt 193 (-2)); VFloat (flt 97 (-1));
                                      VFloat (flt 49 0)] |})
              (Scalar (VFloat (flt (-247) (-1)))) (Scalar (VFloat (flt 193 (-2))))
              (Scalar (VFloat (flt (-491) (-2)))) (Scalar (VFloat (flt 49 0)))
              (JFloat (flt (-247) (-1))) (JFloat (flt 193 (-2)))
              (JFloat (flt (-491) (-2))) (JFloat (flt 49 0))
              {| status_code := 200; body := Some (obj [("success", JBool true)]) |} tt
              (list_to_map [("success", JBool true)]))
    as [(definition & layer & fields & Hreq & Hlayers & _ & _ & Hfields & Hlen & _ & Hcols)
          [Hok _]].
  1-12: reflexivity.
  rewrite (Hok (JBool true)) by reflexivity.
  split; [reflexivity|].
  exists definition, layer, fields. cbn [snd sent start app]. rewrite Hreq.
  split; [reflexivity|]. split; [exact Hlayers|]. split; [exact Hfields|].
  split; [exact Hlen|]. apply (Hcols 0%nat "Name"). reflexivity.
Defined.

(** ** The uploader on what the geometry builder returns *)

Lemma dumps_feature_rejects_point (f : Feature) (k : string) (x y : spec_float) :
  In (k, VPoint x y) (attributes f) -> dumps_feature f = Raise TypeError.
Proof.
  intros Hin. unfold dumps_feature.
  match goal with
  | |- context [comprehension ?g (attributes f)] =>
      assert (Hc : comprehension g (attributes f) = Raise TypeError)
  end.
  { induction (attributes f) as [|[k' v] l IH]; [destruct Hin|].
    cbn [comprehension]. unfold mbind, result_bind. cbn [fst snd].
    destruct (dumps_value v) as [j|e] eqn:Hv.
    - destruct Hin as [[= -> ->]|Hin]; [discriminate|].
      unfold mbind, result_bind in IH. now rewrite (IH Hin).
    - destruct v; cbn in Hv; congruence. }
  now rewrite Hc.
Qed.

Lemma in_iterrows_bound (df : DataFrame) (r : Z * Row) :
  In r (iterrows df) -> exists i, (i < nrows df)%nat /\ snd r = row_at df i.
Proof.
  rewrite iterrows_seq. intros Hr. apply in_map_iff in Hr.
  destruct Hr as [i [<- Hi]]. apply in_seq in Hi. exists i. split; [lia|reflexivity].
Qed.

Section UploaderAfterBuilder.
Context `{PyLib}.
Variable B : Type.
Variable handle : request -> B -> outcome * B.

Lemma points_only (coordinates : list (value * value)) (geometry : list value) (i : nat) :
  comprehension Point coordinates = Ok geometry ->
  (i < length geometry)%nat ->
  exists x y, geometry !!! i = VPoint x y.
Proof.
  intros Hgeo Hi.
  destruct (lookup_lt_is_Some_2 geometry i Hi) as [p Hp].
  rewrite (list_lookup_total_correct _ _ _ Hp).
  pose proof (comprehension_length _ _ _ Hgeo) as Hlen.
  destruct (lookup_lt_is_Some_2 coordinates i) as [ab Hab]; [lia|].
  destruct (comprehension_lookup Point coordinates geometry i ab Hgeo Hab)
    as (p' & Hp' & Hpoint).
  rewrite Hp in Hp'. injection Hp' as <-.
  unfold Point, mbind, result_bind in Hpoint.
  destruct (py_float (fst ab)); [|discriminate].
  destruct (py_float (snd ab)); [|discriminate].
  injection Hpoint as <-. eauto.
Qed.

(** X23.  The frame [df_to_gdf] returns cannot be uploaded as it is: as
    soon as one of its rows gives a feature, the geometry object among the
    attributes makes [json.dumps] raise [TypeError], before anything is
    sent. *)
Theorem add_features_rejects_geo_frame
    (df : DataFrame) (lat_col lon_col : string) (crs : Z) (gdf : GeoDataFrame)
    (token service_url latcol longcol : string) (w : world B) :
  NoDup (columns df) ->
  df_to_gdf df lat_col lon_col crs = Ok gdf ->
  successes (row_outcomes (gdf_frame gdf) latcol longcol) <> [] ->
  exists w',
    add_features B handle token service_url (gdf_frame gdf) latcol longcol w
      = (Raise TypeError, w') /\
    sent w' = sent w.
Proof.
  intros Hnd Hrun Hsome.
  destruct (df_to_gdf_frame df lat_col lon_col crs gdf Hnd Hrun)
    as (lon & lat & geometry & _ & _ & Hgeo & Hlen & _ & Hnd' & Hframe).
  set (G := {| s_dtype := Geometry; s_values := geometry |}) in *.
  assert (Hcols : NoDup (columns (gdf_frame gdf))).
  { rewrite Hframe. unfold columns. cbn [df_cols]. rewrite map_map. exact Hnd'. }
  assert (Hn : nrows (gdf_frame gdf) = length geometry).
  { rewrite Hframe. unfold nrows. cbn [df_index]. symmetry. exact Hlen. }
  assert (Hcell : forall i, (i < nrows (gdf_frame gdf))%nat ->
            exists x y, In ("geometry", VPoint x y) (row_at (gdf_frame gdf) i)).
  { intros i Hi. rewrite Hn in Hi.
    destruct (points_only _ geometry i Hgeo Hi) as (x & y & Hxy).
    exists x, y. unfold row_at. apply in_map_iff.
    exists ("geometry", G). cbn [fst snd]. split; [cbn; now rewrite Hxy|].
    rewrite Hframe. cbn [df_cols]. apply in_map_iff.
    exists ("geometry", G). split; [reflexivity|apply setitem_self]. }
  destruct (successes (row_outcomes (gdf_frame gdf) latcol longcol)) as [|f fs] eqn:Hfs;
    [now destruct Hsome|].
  assert (Hf : In f (successes (row_outcomes (gdf_frame gdf) latcol longcol)))
    by (rewrite Hfs; now left).
  unfold successes, row_outcomes in Hf.
  apply list_elem_of_In in Hf. apply list_elem_of_omap in Hf.
  destruct Hf as [[index r] [Ho Hr]]. cbn [snd] in Hr.
  destruct r as [f'|]; [|discriminate]. injection Hr as ->.
  apply list_elem_of_In in Ho. apply in_map_iff in Ho.
  destruct Ho as [row [[= _ Hbuild] Hrow]].
  destruct (in_iterrows_bound _ row Hrow) as (i & Hi & Hrowi). rewrite Hrowi in Hbuild.
  pose proof (build_feature_attributes _ latcol longcol i f Hcols Hbuild) as Hattrs.
  destruct (Hcell i Hi) as (x & y & Hpoint).
  assert (Hin : In ("geometry", VPoint x y) (attributes f)).
  { rewrite Hattrs. apply in_map_iff. exists ("geometry", VPoint x y).
    split; [reflexivity|exact Hpoint]. }
  assert (Hdumps : dumps_features (f :: fs) = Raise TypeError).
  { unfold dumps_features. cbn [comprehension].
    rewrite (dumps_feature_rejects_point f "geometry" x y Hin). reflexivity. }
  rewrite add_features_run. cbn zeta. rewrite Hfs, Hdumps.
  eexists. split; reflexivity.
Qed.

Lemma flags_count (items flags : list json) :
  comprehension (fun result => dict_get result "success" (JBool false)) items = Ok flags ->
  length (List.filter truthy flags) =
  length (List.filter (fun result =>
                         match dict_get result "success" (JBool false) with
                         | Ok flag => truthy flag
                         | Raise _ => false
                         end) items).
Proof.
  revert flags. induction items as [|x items IH]; intros flags Hflags.
  - now injection Hflags as <-.
  - cbn in Hflags. unfold mbind, result_bind in Hflags.
    destruct (dict_get x "success" (JBool false)) as [flag|] eqn:Hx; [|discriminate].
    destruct (comprehension _ items) as [rest|]; [|discriminate].
    injection Hflags as <-. cbn. rewrite Hx.
    destruct (truthy flag); cbn; now rewrite (IH rest).
Qed.

(** X24.  When the answer lists results that are objects, the record
    logged last counts the results whose success member is truthy (a
    result without the member counts as failed) against the number of
    features sent, and the list itself is returned. *)
Theorem add_features_counts_successes
    (token service_url : string) (df : DataFrame) (latcol longcol : string)
    (w : world B) (dumped : json) (r : Response) (b' : B)
    (members : gmap string json) (items : list json) :
  successes (row_outcomes df latcol longcol) <> [] ->
  dumps_features (successes (row_outcomes df latcol longcol)) = Ok dumped ->
  handle (add_features_request token service_url dumped) (backend w) = (Answered r, b') ->
  raise_for_status r = Ok tt ->
  body r = Some (JObj members) ->
  members !! "addResults" = Some (JArr items) ->
  forallb is_object items = true ->
  exists w',
    add_features B handle token service_url df latcol longcol w = (Ok (JArr items), w') /\
    last (logged w') =
      Some (INFO,
            [Lit "...";
             Val (PInt (Z.of_nat
                          (length (List.filter
                                     (fun result =>
                                        match dict_get result "success" (JBool false) with
                                        | Ok flag => truthy flag
                                        | Raise _ => false
                                        end) items))));
             Lit " out of ";
             Val (PInt (Z.of_nat (nrows df - length (failures (row_outcomes df latcol longcol)))));
             Lit " features added successfully"]).
Proof.
  intros Hne Hdumped Hpost Hstatus Hbody Hresults Hobjects.
  pose proof (length_successes_failures (row_outcomes df latcol longcol)) as Hlen.
  rewrite length_row_outcomes in Hlen.
  rewrite add_features_run. cbn zeta.
  destruct (successes (row_outcomes df latcol longcol)) as [|f fs] eqn:Hfs;
    [now destruct Hne|].
  rewrite Hdumped, Hpost. unfold transport_failure, decode_json.
  rewrite Hstatus, Hbody. cbn [py_in subscript]. rewrite Hresults.
  rewrite bool_decide_eq_true_2 by eauto.
  destruct (flags_of_objects items Hobjects) as [flags Hflags].
  unfold mbind, result_bind. cbn [json_iter]. rewrite Hflags.
  eexists. split; [reflexivity|]. cbn [logged]. rewrite last_snoc.
  rewrite (flags_count items flags Hflags).
  replace (nrows df - length (failures (row_outcomes df latcol longcol)))%nat
    with (length (f :: fs)) by lia.
  reflexivity.
Qed.

End UploaderAfterBuilder.

Lemma add_features_rejects_geo_frame_witness :
  exists w',
    @add_features ref_lib unit (always (added 200))
      "token" layer_url published "Lat" "Lon" (start tt) = (Raise TypeError, w') /\
    sent w' = [].
Proof.
  destruct (@df_to_gdf ref_lib visits "Lat" "Lon" default_crs) as [gdf|e] eqn:Hgdf;
    [|vm_compute in Hgdf; discriminate].
  assert (Hframe : published = gdf_frame gdf).
  { unfold published. now rewrite Hgdf. }
  rewrite Hframe.
  apply (@add_features_rejects_geo_frame ref_lib unit (always (added 200))
           visits "Lat" "Lon" default_crs gdf "token" layer_url "Lat" "Lon" (start tt)
           visits_distinct_labels Hgdf).
  rewrite <- Hframe. vm_compute. discriminate.
Defined.

Lemma add_features_counts_successes_witness :
  exists w',
    @add_features ref_lib unit (always partly_added)
      "token" layer_url sites "Lat" "Lon" (start tt)
    = (Ok (JArr [obj [("success", JBool true)]; obj [("success", JBool false)]]), w') /\
    last (logged w') =
      Some (INFO, [Lit "..."; Val (PInt 1); Lit " out of "; Val (PInt 2);
                   Lit " features added successfully"]).
Proof.
  destruct (dumps_features (successes (@row_outcomes ref_lib sites "Lat" "Lon")))
    as [dumped|e] eqn:Hdumped; [|vm_compute in Hdumped; discriminate].
  destruct (@add_features_counts_successes ref_lib unit (always partly_added)
              "token" layer_url sites "Lat" "Lon" (start tt) dumped
              {| status_code := 200;
                 body := Some (obj [("addResults",
                                     JArr [obj [("success", JBool true)];
                                           obj [("success", JBool false)]])]) |}
              tt
              (list_to_map [("addResults",
                             JArr [obj [("success", JBool true)];
                                   obj [("success", JBool false)]])])
              [obj [("success", JBool true)]; obj [("success", JBool false)]])
    as (w' & Hrun & Hlog).
  - vm_compute. discriminate.
  - exact Hdumped.
  - reflexivity.
  - reflexivity.
  - reflexivity.
  - vm_compute. reflexivity.
  - reflexivity.
  - exists w'. split; [exact Hrun|]. rewrite Hlog. vm_compute. reflexivity.
Defined.

(** ** What is left of the clients *)

Section ClientsMore.
Variable B : Type.
Variable handle : request -> B -> outcome * B.

(** X25.  The success record of [get_ago_token] is logged before the
    answer is decoded: an answer with a passing status whose body is not
    JSON leaves the success record followed by the error record, and the
    decoding error is raised. *)
Theorem get_ago_token_undecodable_answer
    (TOKEN_URL HOST USERNAME PASSWORD : string) (w : world B)
    (r : Response) (b' : B) :
  handle (token_request TOKEN_URL HOST USERNAME PASSWORD) (backend w) = (Answered r, b') ->
  raise_for_status r = Ok tt ->
  body r = None ->
  get_ago_token B handle TOKEN_URL HOST USERNAME PASSWORD w =
  (Raise JSONDecodeError,
   {| backend := b';
      sent := sent w ++ [token_request TOKEN_URL HOST USERNAME PASSWORD];
      logged := logged w ++
        [(INFO, [Lit "...successfully obtained AGO access token."]);
         (ERROR, [Lit "...failed to obtain access token: "; Val (PExn JSONDecodeError)])] |}).
Proof.
  intros Hpost Hstatus Hbody.
  unfold get_ago_token, try_except_RequestException.
  unfold mbind, M_bind, requests_post, lift, logging, mret, M_ret, decode_json.
  rewrite Hpost, Hstatus, Hbody. cbn. now rewrite <- app_assoc.
Qed.

(** The loop passes over the listed folders that do not have the title. *)
Lemma scan_folders_skips (pre : list (string * json)) (items : list json)
    (folder_name : string) (w : world B) :
  List.find (matches folder_name) pre = None ->
  scan_folders B (map folder_json pre ++ items) folder_name w =
  scan_folders B items folder_name w.
Proof.
  induction pre as [|f pre IH]; [reflexivity|].
  cbn [map app scan_folders List.find].
  unfold mbind at 1. unfold M_bind at 1. unfold lift at 1.
  rewrite subscript_folder_title. cbn [eq_text]. unfold matches in *.
  destruct (String.eqb (fst f) folder_name); [discriminate|exact IH].
Qed.

(** X26.  A listed folder without a title stops [get_ago_folderID] when the
    loop reaches it, that is when no folder listed before it has the
    title: [KeyError('title')] is raised past the handler, so no error
    record is logged, and the creation POST is not sent. *)
Theorem get_ago_folderID_entry_without_title
    (token username folder_name : string) (w : world B)
    (r : Response) (b' : B) (members entry : gmap string json)
    (pre : list (string * json)) (rest : list json) :
  handle (list_folders_request token username) (backend w) = (Answered r, b') ->
  raise_for_status r = Ok tt ->
  body r = Some (JObj members) ->
  members !! "folders" = Some (JArr (map folder_json pre ++ JObj entry :: rest)) ->
  List.find (matches folder_name) pre = None ->
  entry !! "title" = None ->
  get_ago_folderID B handle token username folder_name w =
  (Raise (KeyError (PStr "title")),
   {| backend := b';
      sent := sent w ++ [list_folders_request token username];
      logged := logged w |}).
Proof.
  intros Hpost Hstatus Hbody Hfolders Hfind Hentry.
  unfold get_ago_folderID, try_except_RequestException.
  unfold mbind at 1. unfold M_bind at 1. unfold requests_post at 1. rewrite Hpost.
  unfold mbind at 1. unfold M_bind at 1. unfold lift at 1. rewrite Hstatus.
  unfold mbind at 1. unfold M_bind at 1. unfold lift at 1.
  unfold decode_json at 1. rewrite Hbody.
  unfold mbind at 1. unfold M_bind at 1. unfold lift at 1.
  cbn [dict_get]. rewrite Hfolders. cbn [default from_option id].
  unfold mbind at 1. unfold M_bind at 1. unfold lift at 1. cbn [json_iter].
  unfold mbind at 1. unfold M_bind at 1.
  rewrite (scan_folders_skips pre _ folder_name _ Hfind).
  cbn [scan_folders]. unfold mbind at 1. unfold M_bind at 1. unfold lift at 1.
  cbn [subscript]. rewrite Hentry. reflexivity.
Qed.

End ClientsMore.

Lemma get_ago_token_undecodable_answer_witness :
  get_ago_token unit (always (Answered {| status_code := 200; body := None |}))
    "https://www.arcgis.com/sharing/rest/generateToken"
    "https://www.arcgis.com" "user" "secret" (start tt)
  = (Raise JSONDecodeError,
     {| backend := tt;
        sent := [token_request "https://www.arcgis.com/sharing/rest/generateToken"
                   "https://www.arcgis.com" "user" "secret"];
        logged := [(INFO, [Lit "...successfully obtained AGO access token."]);
                   (ERROR, [Lit "...failed to obtain access token: ";
                            Val (PExn JSONDecodeError)])] |}).
Proof.
  apply (get_ago_token_undecodable_answer unit
           (always (Answered {| status_code := 200; body := None |}))
           "https://www.arcgis.com/sharing/rest/generateToken"
           "https://www.arcgis.com" "user" "secret" (start tt)
           {| status_code := 200; body := None |} tt).
  - reflexivity.
  - reflexivity.
  - reflexivity.
Defined.

Lemma get_ago_folderID_entry_without_title_witness :
  get_ago_folderID unit
    (always (answered (obj [("folders",
                             JArr [folder_json ("plots", JStr "a1");
                                   obj [("id", JStr "b2")];
                                   folder_json ("sites", JStr "c3")])])))
    "token" "user" "sites" (start tt)
  = (Raise (KeyError (PStr "title")),
     {| backend := tt; sent := [list_folders_request "token" "user"]; logged := [] |}).
Proof.
  apply (get_ago_folderID_entry_without_title unit _ "token" "user" "sites" (start tt)
           {| status_code := 200;
              body := Some (obj [("folders",
                                  JArr [folder_json ("plots", JStr "a1");
                                        obj [("id", JStr "b2")];
                                        folder_json ("sites", JStr "c3")])]) |}
           tt
           (list_to_map [("folders",
                          JArr [folder_json ("plots", JStr "a1");
                                obj [("id", JStr "b2")];
                                folder_json ("sites", JStr "c3")])])
           (list_to_map [("id", JStr "b2")])
           [("plots", JStr "a1")] [folder_json ("sites", JStr "c3")]).
  - reflexivity.
  - reflexivity.
  - reflexivity.
  - vm_compute. reflexivity.
  - reflexivity.
  - vm_compute. reflexivity.
Defined.

Section UploaderRequests.
Context `{PyLib}.
Variable B : Type.
Variable handle : request -> B -> outcome * B.

(** X27.  Whatever the table and the service, [add_features] sends at most
    one request: either nothing is sent and the service is left as it
    was, or the one POST sent carries the serialised features of exactly
    the rows that succeeded. *)
Theorem add_features_sends_at_most_one_request
    (token service_url : string) (df : DataFrame) (latcol longcol : string)
    (w : world B) :
  let w' := snd (add_features B handle token service_url df latcol longcol w) in
  (sent w' = sent w /\ backend w' = backend w) \/
  (exists dumped,
     dumps_features (successes (row_outcomes df latcol longcol)) = Ok dumped /\
     sent w' = sent w ++ [add_features_request token service_url dumped]).
Proof.
  cbn zeta. rewrite add_features_run. cbn zeta.
  destruct (successes (row_outcomes df latcol longcol)) as [|f fs] eqn:Hfeatures.
  { left. split; reflexivity. }
  destruct (dumps_features (f :: fs)) as [dumped|e] eqn:Hdumped.
  2:{ left. split; reflexivity. }
  right. exists dumped. split; [reflexivity|].
  destruct (handle (add_features_request token service_url dumped) (backend w))
    as [out b'].
  destruct (transport_failure out); [reflexivity|].
  destruct out as [|r]; [reflexivity|].
  destruct (decode_json r) as [response_json|e]; [|reflexivity].
  destruct (py_in "addResults" response_json) as [[|]|e]; try reflexivity.
  destruct (subscript response_json "addResults") as [results|e]; [|reflexivity].
  unfold mbind, result_bind.
  destruct (json_iter results) as [items|e]; [|reflexivity].
  destruct (comprehension _ items) as [flags|e]; reflexivity.
Qed.

End UploaderRequests.
